(** * BCF reader and project model: a shallow embedding

    The development follows [bcfplugin/rdwr/reader.py] (the builders that
    turn schema-validated record trees into the entity graph, and the
    orchestrating [readBcfFile]) and [src/bcf/project.py] (value wrappers,
    [SimpleList] and [Project] with its pending-change query).

    Layout: Python values and exceptions, the project model, the entity
    records, the builders, the loader; the theorems come last. *)

From Stdlib Require Import Ascii String ZArith.
From stdpp Require Import base decidable option list strings numbers.

Set Warnings "-register-all,-clear-no-such-hyp".
Local Open Scope string_scope.
Local Open Scope list_scope.
Local Open Scope Z_scope.

(** ** Python values, exceptions and results *)

(** The exceptions the modelled code can raise or let through.  [KeyError]
    carries the missing key, as [str(err)] is used in the loader's notice;
    [OtherError] stands for whatever an external collaborator raises. *)
Inductive exn : Type :=
  | KeyError (key : string)
  | ValueError
  | TypeError
  | AttributeError
  | NameError (name : string)
  | OtherError (msg : string).

Inductive result (A : Type) : Type :=
  | Return (a : A)
  | Raise (e : exn).
Arguments Return {A} a.
Arguments Raise {A} e.

#[global] Instance result_ret : MRet result := fun _ a => Return a.
#[global] Instance result_bind : MBind result := fun _ _ f m =>
  match m with
  | Return a => f a
  | Raise e => Raise e
  end.
#[global] Instance result_fmap : FMap result := fun _ _ f m =>
  match m with
  | Return a => Return (f a)
  | Raise e => Raise e
  end.

Definition returns {A} (r : result A) : bool :=
  match r with Return _ => true | Raise _ => false end.

(** A record tree as [xmlschema] hands it over: scalars, lists and
    dictionaries.  A dictionary keeps its items in insertion order, the
    order Python iterates them in; lookup takes the first item with the
    key.  A float is carried as mantissa and binary exponent, it is never
    computed with. *)
Inductive value : Type :=
  | VNone
  | VBool (b : bool)
  | VInt (z : Z)
  | VFloat (m e : Z)
  | VStr (s : string)
  | VList (l : list value)
  | VDict (items : list (string * value)).

(** [bool(v)] *)
Definition truthy (v : value) : bool :=
  match v with
  | VNone => false
  | VBool b => b
  | VInt z => negb (Z.eqb z 0)
  | VFloat m _ => negb (Z.eqb m 0)
  | VStr s => negb (String.eqb s "")
  | VList l => match l with [] => false | _ => true end
  | VDict d => match d with [] => false | _ => true end
  end.

Definition is_None (v : value) : bool :=
  match v with VNone => true | _ => false end.

Fixpoint dict_get (key : string) (items : list (string * value)) : option value :=
  match items with
  | [] => None
  | (k, v) :: rest => if String.eqb k key then Some v else dict_get key rest
  end.

(** [needle in hay] on two strings: substring test. *)
Fixpoint str_contains (needle hay : string) : bool :=
  String.prefix needle hay ||
  match hay with
  | EmptyString => false
  | String _ rest => str_contains needle rest
  end.

(** [v == s] for a string [s]; a value of another type is never equal to a
    string. *)
Definition eq_str (v : value) (s : string) : bool :=
  match v with
  | VStr s' => String.eqb s' s
  | _ => false
  end.

(** [key in d] for a string [key]. *)
Definition py_in (key : string) (d : value) : result bool :=
  match d with
  | VDict items => Return (bool_decide (is_Some (dict_get key items)))
  | VList l => Return (existsb (fun v => eq_str v key) l)
  | VStr s => Return (str_contains key s)
  | _ => Raise TypeError
  end.

(** [d[key]] for a string [key]. *)
Definition subscript (d : value) (key : string) : result value :=
  match d with
  | VDict items =>
      match dict_get key items with
      | Some v => Return v
      | None => Raise (KeyError key)
      end
  | _ => Raise TypeError
  end.

(** [len(v)] *)
Definition py_len (v : value) : result nat :=
  match v with
  | VStr s => Return (String.length s)
  | VList l => Return (length l)
  | VDict d => Return (length d)
  | _ => Raise TypeError
  end.

Fixpoint chars (s : string) : list value :=
  match s with
  | EmptyString => []
  | String c rest => VStr (String c EmptyString) :: chars rest
  end.

(** The items a [for] loop or a comprehension walks over. *)
Definition py_iter (v : value) : result (list value) :=
  match v with
  | VList l => Return l
  | VDict d => Return (map (fun kv => VStr (fst kv)) d)
  | VStr s => Return (chars s)
  | _ => Raise TypeError
  end.

(** [[ f(x) for x in l ]] with a builder that can raise: the first exception
    ends the comprehension. *)
Fixpoint comprehension {A B} (f : A → result B) (l : list A) : result (list B) :=
  match l with
  | [] => Return []
  | x :: rest =>
      y ← f x;
      ys ← comprehension f rest;
      Return (y :: ys)
  end.

(** [posixpath.join(a, b)] *)
Definition starts_with_sep (s : string) : bool := String.prefix "/" s.

Fixpoint ends_with_sep (s : string) : bool :=
  match s with
  | EmptyString => false
  | String c EmptyString => Ascii.eqb c "/"%char
  | String _ rest => ends_with_sep rest
  end.

Definition os_path_join (a b : string) : string :=
  if starts_with_sep b then b
  else if String.eqb a "" || ends_with_sep a then String.append a b
  else String.append a (String.append "/" b).

(** ** reader.py: getOptionalFromDict *)

Definition getOptionalFromDict (d : value) (desiredValue : string) (empty : value)
  : result value :=
  present ← py_in desiredValue d;
  if present : bool then subscript d desiredValue else Return empty.

(** ** project.py: mutation state, value wrappers, SimpleList, Project *)

(** Modelled from the spec: class [State] of [interfaces/state.py] is not
    among the sources.  Every node carries a mutation-state tag drawn from
    Original, Added, Modified, Deleted; [isOriginal] tests the tag, and the
    pending-change query of a leaf reports the leaf itself when its tag is
    not Original. *)
Inductive States : Type := ORIGINAL | ADDED | MODIFIED | DELETED.

#[global] Instance States_eq_dec : EqDecision States.
Proof. solve_decision. Defined.

Definition States_isOriginal (s : States) : bool := bool_decide (s = ORIGINAL).

(** The objects a project's pending-change query can report, named by their
    place below the project: the project, its two value wrappers, and an
    object inside the [i]-th topic-markup, itself named by its attribute
    path inside that markup. *)
Inductive node : Type :=
  | Self
  | Name
  | ExtensionSchema
  | InTopic (i : nat) (path : list string).

(** Modelled from the spec: class [Hierarchy] of [interfaces/hierarchy.py] is
    not among the sources; [containingObject] is the back-reference to the
    logical parent, [None] for the topmost element. *)
Record SimpleElement : Type := mkSimpleElement {
  se_value : value;
  se_xmlName : string;
  se_containingObject : option node;
  se_state : States;
}.

Definition SimpleElement_isOriginal (e : SimpleElement) : bool :=
  States_isOriginal (se_state e).

Definition SimpleElement_getStateList (me : node) (e : SimpleElement)
  : list (States * node) :=
  if negb (SimpleElement_isOriginal e) then [(se_state e, me)] else [].

Definition set_state (s : States) (e : SimpleElement) : SimpleElement :=
  mkSimpleElement (se_value e) (se_xmlName e) (se_containingObject e) s.

(** [SimpleElement] objects live in a store and are named by their index in
    it, so that a list and its caller can hold the same object. *)
Abbreviation store := (list SimpleElement).

Record SimpleList : Type := mkSimpleList {
  sl_items : list nat;
  sl_xmlName : string;
  sl_containingObject : option node;
  sl_state : States;
}.

(** What [append] can be handed: an object that is not a [SimpleElement]
    (here a plain value) or a [SimpleElement] of the store. *)
Inductive item : Type :=
  | Plain (v : value)
  | Element (loc : nat).

(** [SimpleList.append]: the updated store and list.  [newElem.state = ...]
    on an element assigns through the reference, so the object is updated in
    the store. *)
Definition SimpleList_append (self : SimpleList) (it : item) (st : store)
  : store * SimpleList :=
  let '(st', newElem) :=
    match it with
    | Plain v =>
        (st ++ [mkSimpleElement v (sl_xmlName self) (sl_containingObject self) ADDED],
         length st)
    | Element loc => (alter (set_state ADDED) loc st, loc)
    end in
  (st', mkSimpleList (sl_items self ++ [newElem]) (sl_xmlName self)
          (sl_containingObject self) (sl_state self)).

(** An element handed to [append] is an object of the store. *)
Definition item_in_store (it : item) (st : store) : Prop :=
  match it with
  | Plain _ => True
  | Element loc => is_Some (st !! loc)
  end.

(** Identifiers are 128-bit values; two identifiers are equal when their
    integers are. *)
Record UUID : Type := mkUUID { uuid_int : Z }.

#[global] Instance UUID_eq_dec : EqDecision UUID.
Proof. solve_decision. Defined.

(** The topic-markups of a project are of a class that is not among the
    sources of [project.py]; the model takes their pending-change query as
    an interface. *)
Class StateList (M : Type) : Type :=
  markup_getStateList : M → list (States * list string).

Record Project (M : Type) : Type := mkProject {
  p_id : UUID;
  p_name : SimpleElement;
  p_extSchemaSrc : SimpleElement;
  p_topicList : list M;
  p_state : States;
}.
Arguments mkProject {M}.
Arguments p_id {M}.
Arguments p_name {M}.
Arguments p_extSchemaSrc {M}.
Arguments p_topicList {M}.
Arguments p_state {M}.

(** [Project.__init__]; [XMLName.__init__(self)] leaves the tag name to the
    class default and is not modelled. *)
Definition Project_init {M} (uuid : UUID) (name extSchemaSrc : value)
    (state : States) : Project M :=
  mkProject uuid
    (mkSimpleElement name "Name" (Some Self) ORIGINAL)
    (mkSimpleElement extSchemaSrc "ExtensionSchema" (Some Self) ORIGINAL)
    [] state.

Definition Project_isOriginal {M} (p : Project M) : bool :=
  States_isOriginal (p_state p).

Definition in_topic (i : nat) (e : States * list string) : States * node :=
  (fst e, InTopic i (snd e)).

(** The loop [for markup in self.topicList] of [getStateList], from the
    [i]-th markup on. *)
Fixpoint topics_getStateList `{StateList M} (i : nat) (l : list M)
  : list (States * node) :=
  match l with
  | [] => []
  | markup :: rest =>
      map (in_topic i) (markup_getStateList markup)
        ++ topics_getStateList (S i) rest
  end.

Definition Project_getStateList `{StateList M} (p : Project M)
  : list (States * node) :=
  let stateList := [] in
  let stateList :=
    if negb (Project_isOriginal p) then stateList ++ [(p_state p, Self)]
    else stateList in
  let stateList := stateList ++ SimpleElement_getStateList Name (p_name p) in
  let stateList :=
    stateList ++ SimpleElement_getStateList ExtensionSchema (p_extSchemaSrc p) in
  stateList ++ topics_getStateList 0 (p_topicList p).

(** The project with another tag of its own. *)
Definition with_state {T} (s : States) (p : Project T) : Project T :=
  mkProject (p_id p) (p_name p) (p_extSchemaSrc p) (p_topicList p) s.

(** [self._name.value = newVal]: an assignment to the wrapper's value. *)
Definition set_value (newVal : value) (e : SimpleElement) : SimpleElement :=
  mkSimpleElement newVal (se_xmlName e) (se_containingObject e) (se_state e).

(** The properties [name] and [extSchemaSrc] of [Project] and their
    setters. *)
Definition Project_name {T} (p : Project T) : value := se_value (p_name p).

Definition Project_set_name {T} (newVal : value) (p : Project T) : Project T :=
  mkProject (p_id p) (set_value newVal (p_name p)) (p_extSchemaSrc p)
    (p_topicList p) (p_state p).

Definition Project_extSchemaSrc {T} (p : Project T) : value :=
  se_value (p_extSchemaSrc p).

Definition Project_set_extSchemaSrc {T} (newVal : value) (p : Project T)
  : Project T :=
  mkProject (p_id p) (p_name p) (set_value newVal (p_extSchemaSrc p))
    (p_topicList p) (p_state p).

(** [SimpleList.__init__] on a list of plain values: every item is wrapped
    in a new [SimpleElement] with the name, the containing element and the
    state of the list. *)
Definition SimpleList_init (data : list value) (xmlName : string)
    (containingElement : option node) (state : States) (st : store)
  : store * SimpleList :=
  let simpleElementList :=
    map (fun item => mkSimpleElement item xmlName containingElement state) data in
  (st ++ simpleElementList,
   mkSimpleList (seq (length st) (length data)) xmlName containingElement state).

(** [append] called once for each value of [items], in order. *)
Definition SimpleList_append_all (items : list value) (sl : store * SimpleList)
  : store * SimpleList :=
  foldl (fun '(st, self) v => SimpleList_append self (Plain v) st) sl items.

(** [item.containingObject = containingObject] *)
Definition SimpleElement_set_containingObject (parent : option node)
    (e : SimpleElement) : SimpleElement :=
  mkSimpleElement (se_value e) (se_xmlName e) parent (se_state e).

(** [issubclass(type(item), Hierarchy)]: a [SimpleElement] is one, a plain
    value is not. *)
Definition is_Hierarchy (it : item) : bool :=
  match it with
  | Element _ => true
  | Plain _ => false
  end.

(** The first loop of [listSetContainingElement]. *)
Fixpoint check_Hierarchy (itemList : list item) : result () :=
  match itemList with
  | [] => Return ()
  | it :: rest =>
      if negb (is_Hierarchy it) then Raise ValueError else check_Hierarchy rest
  end.

(** The second loop. *)
Fixpoint set_containing (itemList : list item) (containingObject : option node)
    (st : store) : store :=
  match itemList with
  | [] => st
  | Element loc :: rest =>
      set_containing rest containingObject
        (alter (SimpleElement_set_containingObject containingObject) loc st)
  | Plain _ :: rest => set_containing rest containingObject st
  end.

(** [listSetContainingElement]; the function returns [None] on every path
    that returns. *)
Definition listSetContainingElement (itemList : list item)
    (containingObject : option node) (st : store) : result () * store :=
  if (length itemList =? 0)%nat then (Return (), st)
  else match check_Hierarchy itemList with
       | Raise e => (Raise e, st)
       | Return _ => (Return (), set_containing itemList containingObject st)
       end.

(** The store locations of the elements among [itemList]. *)
Definition element_locs (itemList : list item) : list nat :=
  omap (fun it => match it with Element loc => Some loc | Plain _ => None end)
    itemList.

(** ** reader.py: external collaborators of the builders *)

(** A decoded timestamp, as Python's [datetime] holds it; [dt_utcoffset] is
    the offset of an aware timestamp in minutes, [None] for a naive one. *)
Record datetime : Type := mkDatetime {
  dt_year : Z;
  dt_month : Z;
  dt_day : Z;
  dt_hour : Z;
  dt_minute : Z;
  dt_second : Z;
  dt_microsecond : Z;
  dt_utcoffset : option Z;
}.

(** [dateutil.parser.parse] and the [uuid.UUID] constructor are library
    functions; the builders are stated over any behaviour of theirs.  Each
    gets the value found in the record tree and returns the decoded object
    or raises. *)
Class Decoders : Type := {
  dateutil_parse : value → result datetime;
  UUID_parse : value → result UUID;
}.

(** ** reader.py: the entities *)

(** Modelled from the spec: the entity classes of [rdwr/uri.py],
    [rdwr/markup.py], [rdwr/topic.py], [rdwr/viewpoint.py] and
    [rdwr/threedvector.py] are not among the sources.  Each is the record of
    its constructor's arguments, in the order the builders pass them; a
    viewpoint reference additionally has the lazily attached viewpoint,
    absent until the loader sets it, and when built from an identifier alone
    it has no file, no snapshot and index -1. *)
Record Uri : Type := mkUri { uri : value }.

(** The outcome of [x = d.get(...); if x: x = C(x)]: the wrapped object when
    the raw value was truthy, and the raw value itself otherwise. *)
Inductive maybe (A : Type) : Type :=
  | Obj (a : A)
  | Raw (v : value).
Arguments Obj {A} a.
Arguments Raw {A} v.

Definition maybe_truthy {A} (x : maybe A) : bool :=
  match x with Obj _ => true | Raw v => truthy v end.

Record Point : Type := mkPoint { pt_x : value; pt_y : value; pt_z : value }.
Record Direction : Type := mkDirection { dir_x : value; dir_y : value; dir_z : value }.
Record Line : Type := mkLine { ln_start : Point; ln_end : Point }.
Record ClippingPlane : Type := mkClippingPlane {
  cp_location : Point;
  cp_direction : Direction;
}.

Record OrthogonalCamera : Type := mkOrthogonalCamera {
  oc_viewPoint : Point;
  oc_direction : Direction;
  oc_upVector : Direction;
  oc_viewWorldScale : value;
}.

Record PerspectiveCamera : Type := mkPerspectiveCamera {
  pc_viewPoint : Point;
  pc_direction : Direction;
  pc_upVector : Direction;
  pc_fieldOfView : value;
}.

Inductive BitmapFormat : Type := JPG | PNG.

Record Bitmap : Type := mkBitmap {
  bm_format : BitmapFormat;
  bm_reference : value;
  bm_location : Point;
  bm_normal : Direction;
  bm_up : Direction;
  bm_height : value;
}.

Record ViewSetupHints : Type := mkViewSetupHints {
  vsh_openingsVisible : value;
  vsh_spacesVisible : value;
  vsh_spaceBoundariesVisible : value;
}.

Record Component : Type := mkComponent {
  cmp_id : value;
  cmp_originatingSystem : value;
  cmp_authoringToolId : value;
}.

Record ComponentColour : Type := mkComponentColour {
  cc_colour : value;
  cc_components : list Component;
}.

Record Components : Type := mkComponents {
  cs_defaultVisibility : value;
  cs_exceptions : list Component;
  cs_selection : list Component;
  cs_viewSetupHints : option ViewSetupHints;
  cs_colouring : list (option ComponentColour);
}.

Record Viewpoint : Type := mkViewpoint {
  vp_id : UUID;
  vp_components : option Components;
  vp_oCamera : option OrthogonalCamera;
  vp_pCamera : option PerspectiveCamera;
  vp_lines : list Line;
  vp_clippingPlanes : list ClippingPlane;
  vp_bitmaps : list Bitmap;
}.

Record ViewpointReference : Type := mkViewpointReference {
  vr_id : UUID;
  vr_file : maybe Uri;
  vr_snapshot : maybe Uri;
  vr_index : value;
  vr_viewpoint : option Viewpoint;
}.

Definition ViewpointReference_of_id (id : UUID) : ViewpointReference :=
  mkViewpointReference id (Raw VNone) (Raw VNone) (VInt (-1)) None.

Definition set_viewpoint (vp : Viewpoint) (r : ViewpointReference)
  : ViewpointReference :=
  mkViewpointReference (vr_id r) (vr_file r) (vr_snapshot r) (vr_index r) (Some vp).

Record BimSnippet : Type := mkBimSnippet {
  bs_type : value;
  bs_external : value;
  bs_reference : Uri;
  bs_schema : Uri;
}.

Record DocumentReference : Type := mkDocumentReference {
  dr_id : maybe UUID;
  dr_external : value;
  dr_reference : maybe Uri;
  dr_description : value;
}.

Record HeaderFile : Type := mkHeaderFile {
  hf_ifcProjectId : value;
  hf_ifcSpatialStructureElement : value;
  hf_isExternal : value;
  hf_filename : value;
  hf_time : maybe datetime;
  hf_reference : maybe Uri;
}.

Record Header : Type := mkHeader { hd_files : list HeaderFile }.

Record Topic : Type := mkTopic {
  t_id : UUID;
  t_title : value;
  t_date : datetime;
  t_author : value;
  t_type : value;
  t_status : value;
  t_referenceLinks : value;
  t_docRefs : list DocumentReference;
  t_priority : value;
  t_index : value;
  t_labels : value;
  t_modDate : option datetime;
  t_modAuthor : value;
  t_dueDate : option datetime;
  t_assignee : value;
  t_description : value;
  t_stage : value;
  t_relatedTopics : list UUID;
  t_bimSnippet : option BimSnippet;
}.

(** A comment holds its viewpoint reference by the place of that object in
    memory: after resolution it is the very object of the markup's list. *)
Record Comment : Type := mkComment {
  c_id : UUID;
  c_date : datetime;
  c_author : value;
  c_comment : value;
  c_viewpoint : maybe nat;
  c_modDate : option datetime;
  c_modAuthor : value;
}.

Definition set_comment_viewpoint (v : maybe nat) (c : Comment)
  : Comment :=
  mkComment (c_id c) (c_date c) (c_author c) (c_comment c) v (c_modDate c)
    (c_modAuthor c).

Record Markup : Type := mkMarkup {
  m_topic : Topic;
  m_header : option Header;
  m_comments : list Comment;
  m_viewpoints : list nat;
  m_containingObject : option node;
}.

(** ** reader.py: builders without side effects *)

(** [x = C(x)] under [if x:] *)
Definition wrap_if_truthy {A} (C : value → result A) (x : value) : result (maybe A) :=
  if truthy x then Obj <$> C x else Return (Raw x).

Definition Uri_init (v : value) : result Uri := Return (mkUri v).

(** [x = dateutil.parser.parse(x)] under [if x is not None:] *)
Definition parse_unless_None `{Decoders} (x : value) : result (option datetime) :=
  if is_None x then Return None else Some <$> dateutil_parse x.

Definition buildBimSnippet (snippetDict : value) : result BimSnippet :=
  reference ← subscript snippetDict "Reference";
  referenceSchema ← subscript snippetDict "ReferenceSchema";
  snippetType ← subscript snippetDict "@SnippetType";
  isExternal ← getOptionalFromDict snippetDict "@isExternal" (VBool false);
  Return (mkBimSnippet snippetType isExternal (mkUri reference) (mkUri referenceSchema)).

Definition buildDocRef `{Decoders} (docDict : value) : result DocumentReference :=
  docUri ← getOptionalFromDict docDict "ReferencedDocument" VNone;
  docUri ← wrap_if_truthy Uri_init docUri;
  docName ← getOptionalFromDict docDict "Description" VNone;
  docId ← getOptionalFromDict docDict "@Guid" VNone;
  docId ← wrap_if_truthy UUID_parse docId;
  docExternal ← getOptionalFromDict docDict "@isExternal" (VBool false);
  Return (mkDocumentReference docId docExternal docUri docName).

Definition buildRelatedTopic `{Decoders} (relTopic : value) : result UUID :=
  guid ← subscript relTopic "@Guid";
  UUID_parse guid.

Definition buildTopic `{Decoders} (topicDict : value) : result Topic :=
  guid ← subscript topicDict "@Guid";
  id ← UUID_parse guid;
  title ← subscript topicDict "Title";
  creationDate ← subscript topicDict "CreationDate";
  topicDate ← dateutil_parse creationDate;
  topicAuthor ← subscript topicDict "CreationAuthor";
  topicStatus ← getOptionalFromDict topicDict "@TopicStatus" (VStr "");
  topicType ← getOptionalFromDict topicDict "@TopicType" (VStr "");
  topicPriority ← getOptionalFromDict topicDict "Priority" (VStr "");
  modifiedDate ← getOptionalFromDict topicDict "ModifiedDate" VNone;
  modifiedDate ← parse_unless_None modifiedDate;
  modifiedAuthor ← getOptionalFromDict topicDict "ModifiedAuthor" (VStr "");
  index ← getOptionalFromDict topicDict "Index" (VInt (-1));
  dueDate ← getOptionalFromDict topicDict "DueDate" VNone;
  dueDate ← parse_unless_None dueDate;
  assignee ← getOptionalFromDict topicDict "AssignedTo" (VStr "");
  stage ← getOptionalFromDict topicDict "Stage" (VStr "");
  description ← getOptionalFromDict topicDict "Description" (VStr "");
  hasSnippet ← py_in "BimSnippet" topicDict;
  bimSnippet ←
    (if hasSnippet : bool
     then snippetDict ← subscript topicDict "BimSnippet";
          Some <$> buildBimSnippet snippetDict
     else Return None);
  labelList ← getOptionalFromDict topicDict "Labels" (VList []);
  docRefList ← getOptionalFromDict topicDict "DocumentReference" (VList []);
  docRefItems ← py_iter docRefList;
  docRefs ← comprehension buildDocRef docRefItems;
  relatedList ← getOptionalFromDict topicDict "RelatedTopic" (VList []);
  relatedItems ← py_iter relatedList;
  relatedTopics ← comprehension buildRelatedTopic relatedItems;
  referenceLinks ← getOptionalFromDict topicDict "ReferenceLink" (VList []);
  Return (mkTopic id title topicDate topicAuthor topicType topicStatus
            referenceLinks docRefs topicPriority index labelList modifiedDate
            modifiedAuthor dueDate assignee description stage relatedTopics
            bimSnippet).

Definition buildFile `{Decoders} (fileDict : value) : result HeaderFile :=
  filename ← getOptionalFromDict fileDict "Filename" (VStr "");
  filedate ← getOptionalFromDict fileDict "Date" VNone;
  filedate ← wrap_if_truthy dateutil_parse filedate;
  reference ← getOptionalFromDict fileDict "Reference" (VStr "");
  reference ← wrap_if_truthy Uri_init reference;
  ifcProjectId ← getOptionalFromDict fileDict "@IfcProject" (VStr "");
  ifcSpatialStructureElement ←
    getOptionalFromDict fileDict "@IfcSpatialStructureElement" (VStr "");
  isExternal ← getOptionalFromDict fileDict "@isExternal" (VBool true);
  Return (mkHeaderFile ifcProjectId ifcSpatialStructureElement isExternal
            filename filedate reference).

Definition buildHeader `{Decoders} (headerDict : value) : result Header :=
  filelist ← getOptionalFromDict headerDict "File" (VList []);
  items ← py_iter filelist;
  files ← comprehension buildFile (List.filter (fun f => negb (is_None f)) items);
  Return (mkHeader files).

Definition buildViewSetupHints (vshDict : value) : result ViewSetupHints :=
  spacesVisible ← getOptionalFromDict vshDict "@SpacesVisible" (VBool false);
  spaceBoundariesVisible ←
    getOptionalFromDict vshDict "@SpaceBoundariesVisible" (VBool false);
  openingsVisible ← getOptionalFromDict vshDict "@OpeningsVisible" (VBool false);
  Return (mkViewSetupHints openingsVisible spacesVisible spaceBoundariesVisible).

Definition buildComponent (componentDict : value) : result Component :=
  id ← getOptionalFromDict componentDict "@IfcGuid" VNone;
  authoringToolId ← getOptionalFromDict componentDict "AuthoringToolId" (VStr "");
  originatingSystem ← getOptionalFromDict componentDict "OriginatingSystem" (VStr "");
  Return (mkComponent id originatingSystem authoringToolId).

(** [[ buildComponent(cp) for cp in d["Component"] ]] *)
Definition buildComponentList (d : value) : result (list Component) :=
  componentList ← subscript d "Component";
  items ← py_iter componentList;
  comprehension buildComponent items.

Definition buildComponentColour (ccDict : value) : result (option ComponentColour) :=
  colour ← getOptionalFromDict ccDict "@Color" VNone;
  if truthy colour
  then colourComponentList ← buildComponentList ccDict;
       Return (Some (mkComponentColour colour colourComponentList))
  else Return None.

Definition buildComponents (componentsDict : value) : result Components :=
  vshDict ← getOptionalFromDict componentsDict "ViewSetupHints" VNone;
  vsh ← (if truthy vshDict then Some <$> buildViewSetupHints vshDict
         else Return None);
  componentDict ← getOptionalFromDict componentsDict "Selection" VNone;
  sel ← (if truthy componentDict then buildComponentList componentDict
         else Return []);
  visibilityDict ← subscript componentsDict "Visibility";
  defaultVisibility ←
    getOptionalFromDict visibilityDict "@DefaultVisibility" (VBool true);
  exceptionDict ← getOptionalFromDict visibilityDict "Exceptions" VNone;
  exceptions ← (if truthy exceptionDict then buildComponentList exceptionDict
                else Return []);
  colourComponentDict ← getOptionalFromDict componentsDict "Coloring" VNone;
  componentColours ←
    (if truthy colourComponentDict
     then colourComponentList ← subscript colourComponentDict "Color";
          items ← py_iter colourComponentList;
          comprehension buildComponentColour items
     else Return []);
  Return (mkComponents defaultVisibility exceptions sel vsh componentColours).

Definition buildPoint (pointDict : value) : result Point :=
  x ← subscript pointDict "X";
  y ← subscript pointDict "Y";
  z ← subscript pointDict "Z";
  Return (mkPoint x y z).

Definition buildDirection (dirDict : value) : result Direction :=
  x ← subscript dirDict "X";
  y ← subscript dirDict "Y";
  z ← subscript dirDict "Z";
  Return (mkDirection x y z).

Definition buildOrthogonalCamera (oCamDict : value) : result OrthogonalCamera :=
  d ← subscript oCamDict "CameraViewPoint";
  camViewpoint ← buildPoint d;
  d ← subscript oCamDict "CameraDirection";
  camDirection ← buildDirection d;
  d ← subscript oCamDict "CameraUpVector";
  camUpVector ← buildDirection d;
  vWorldScale ← subscript oCamDict "ViewToWorldScale";
  Return (mkOrthogonalCamera camViewpoint camDirection camUpVector vWorldScale).

Definition buildPerspectiveCamera (pCamDict : value) : result PerspectiveCamera :=
  d ← subscript pCamDict "CameraViewPoint";
  camViewpoint ← buildPoint d;
  d ← subscript pCamDict "CameraDirection";
  camDirection ← buildDirection d;
  d ← subscript pCamDict "CameraUpVector";
  camUpVector ← buildDirection d;
  fieldOfView ← subscript pCamDict "FieldOfView";
  Return (mkPerspectiveCamera camViewpoint camDirection camUpVector fieldOfView).

Definition buildLine (lineDict : value) : result Line :=
  d ← subscript lineDict "StartPoint";
  start ← buildPoint d;
  d ← subscript lineDict "EndPoint";
  end_ ← buildPoint d;
  Return (mkLine start end_).

Definition buildClippingPlane (clipDict : value) : result ClippingPlane :=
  d ← subscript clipDict "Location";
  location ← buildPoint d;
  d ← subscript clipDict "Direction";
  direction ← buildDirection d;
  Return (mkClippingPlane location direction).

Definition buildBitmap (bmDict : value) : result Bitmap :=
  bmFormatStr ← subscript bmDict "Bitmap";
  let bmFormat := if eq_str bmFormatStr "PNG" then PNG else JPG in
  reference ← subscript bmDict "Reference";
  d ← subscript bmDict "Location";
  location ← buildPoint d;
  d ← subscript bmDict "Normal";
  normal ← buildDirection d;
  d ← subscript bmDict "Up";
  up ← buildDirection d;
  height ← subscript bmDict "Height";
  Return (mkBitmap bmFormat reference location normal up height).

(** [buildViewpoint] once the viewpoint file is decoded into [vpDict]. *)
Definition buildViewpoint_record `{Decoders} (vpDict : value) : result Viewpoint :=
  guid ← subscript vpDict "@Guid";
  id ← UUID_parse guid;
  componentsDict ← getOptionalFromDict vpDict "Components" VNone;
  components ← (if truthy componentsDict
                then Some <$> buildComponents componentsDict
                else Return None);
  oCamDict ← getOptionalFromDict vpDict "OrthogonalCamera" VNone;
  oCam ← (if truthy oCamDict then Some <$> buildOrthogonalCamera oCamDict
          else Return None);
  pCamDict ← getOptionalFromDict vpDict "PerspectiveCamera" VNone;
  pCam ← (if truthy pCamDict then Some <$> buildPerspectiveCamera pCamDict
          else Return None);
  linesDict ← getOptionalFromDict vpDict "Lines" VNone;
  lines ← (if truthy linesDict
           then linesList ← getOptionalFromDict linesDict "Line" (VList []);
                items ← py_iter linesList;
                comprehension buildLine items
           else Return []);
  clippingPlaneDict ← getOptionalFromDict vpDict "ClippingPlanes" VNone;
  clippingPlanes ←
    (if truthy clippingPlaneDict
     then clippingPlaneList ←
            getOptionalFromDict clippingPlaneDict "ClippingPlane" (VList []);
          items ← py_iter clippingPlaneList;
          comprehension buildClippingPlane items
     else Return []);
  bitmapList ← getOptionalFromDict vpDict "Bitmap" (VList []);
  items ← py_iter bitmapList;
  bitmaps ← comprehension buildBitmap items;
  Return (mkViewpoint id components oCam pCam lines clippingPlanes bitmaps).

(** ** reader.py: memory, notices and the builders that allocate *)

(** What the loader writes to the user: one constructor per
    [util.printErr], [util.printErrorList] and [pprint] call site, with the
    values the message is formatted from.  [debug] output is not modelled. *)
Inductive event : Type :=
  | SchemasUnavailable
  | NoVersionFile
  | VersionInvalid (error : string)
  | VersionUnsupported (version : value)
  | MarkupInvalid (markupFilePath error : string)
  | ViewpointSkipped (key : string) (topic : string) (file : Uri)
  | ErrorList (messages : list string).

(** The viewpoint-reference objects, each named by its index; the notices
    written so far; the module-level [bcfDir]. *)
Record Mem : Type := mkMem {
  heap : list ViewpointReference;
  log : list event;
  bcfDir : string;
}.

Definition empty_mem : Mem := mkMem [] [] "".

(** A computation on the memory that returns or raises; what it did to the
    memory before raising stays done. *)
Definition M (A : Type) : Type := Mem → result A * Mem.

#[global] Instance M_ret : MRet M := fun _ a m => (Return a, m).
#[global] Instance M_bind : MBind M := fun _ _ f c m =>
  match c m with
  | (Return a, m') => f a m'
  | (Raise e, m') => (Raise e, m')
  end.

#[global] Instance M_fmap : FMap M := fun _ _ f c m =>
  match c m with
  | (Return a, m') => (Return (f a), m')
  | (Raise e, m') => (Raise e, m')
  end.

Definition lift {A} (r : result A) : M A := fun m => (r, m).

Definition get_heap : M (list ViewpointReference) := fun m => (Return (heap m), m).

Definition raise {A} (e : exn) : M A := fun m => (Raise e, m).

Definition alloc (r : ViewpointReference) : M nat := fun m =>
  (Return (length (heap m)), mkMem (heap m ++ [r]) (log m) (bcfDir m)).

(** Reading through a reference; a reference handed out by [alloc] is always
    in the heap, the error branch is for well-definedness only. *)
Definition deref (loc : nat) : M ViewpointReference := fun m =>
  match heap m !! loc with
  | Some r => (Return r, m)
  | None => (Raise (OtherError "invalid reference"), m)
  end.

Definition update (loc : nat) (f : ViewpointReference → ViewpointReference)
  : M unit := fun m =>
  (Return (), mkMem (alter f loc (heap m)) (log m) (bcfDir m)).

Definition emit (e : event) : M unit := fun m =>
  (Return (), mkMem (heap m) (log m ++ [e]) (bcfDir m)).

Definition set_bcfDir (d : string) : M unit := fun m =>
  (Return (), mkMem (heap m) (log m) d).

(** A comprehension or [for] loop whose body works on the memory. *)
Fixpoint for_each {A B} (f : A → M B) (l : list A) : M (list B) :=
  match l with
  | [] => mret []
  | x :: rest =>
      y ← f x;
      ys ← for_each f rest;
      mret (y :: ys)
  end.

Definition buildComment `{Decoders} (commentDict : value) : M Comment :=
  guid ← lift (subscript commentDict "@Guid");
  id ← lift (UUID_parse guid);
  date ← lift (subscript commentDict "Date");
  commentDate ← lift (dateutil_parse date);
  commentAuthor ← lift (subscript commentDict "Author");
  modifiedAuthor ← lift (getOptionalFromDict commentDict "ModifiedAuthor" (VStr ""));
  modifiedDate ← lift (getOptionalFromDict commentDict "ModifiedDate" VNone);
  modifiedDate ← lift (parse_unless_None modifiedDate);
  commentString ← lift (subscript commentDict "Comment");
  viewpointRef ← lift (getOptionalFromDict commentDict "Viewpoint" VNone);
  viewpointRef ←
    (if truthy viewpointRef
     then guid ← lift (subscript viewpointRef "@Guid");
          vid ← lift (UUID_parse guid);
          loc ← alloc (ViewpointReference_of_id vid);
          mret (Obj loc)
     else mret (Raw viewpointRef));
  mret (mkComment id commentDate commentAuthor commentString viewpointRef
          modifiedDate modifiedAuthor).

Definition buildViewpointReference `{Decoders} (viewpointDict : value) : M nat :=
  guid ← lift (subscript viewpointDict "@Guid");
  id ← lift (UUID_parse guid);
  viewpointFile ← lift (getOptionalFromDict viewpointDict "Viewpoint" VNone);
  viewpointFile ← lift (wrap_if_truthy Uri_init viewpointFile);
  snapshotFile ← lift (getOptionalFromDict viewpointDict "Snapshot" VNone);
  snapshotFile ← lift (wrap_if_truthy Uri_init snapshotFile);
  index ← lift (getOptionalFromDict viewpointDict "Index" (VInt (-1)));
  alloc (mkViewpointReference id viewpointFile snapshotFile index None).

(** Modelled from the spec: [Markup.getViewpointRefByGuid] of
    [rdwr/markup.py] is not among the sources.  The identifier is looked up
    in the markup's viewpoint-reference list by identifier equality; the
    first reference found is returned, and nothing when none matches. *)
Fixpoint getViewpointRefByGuid (h : list ViewpointReference) (viewpoints : list nat)
    (guid : UUID) : option nat :=
  match viewpoints with
  | [] => None
  | loc :: rest =>
      match h !! loc with
      | Some r =>
          if bool_decide (vr_id r = guid) then Some loc
          else getViewpointRefByGuid h rest guid
      | None => getViewpointRefByGuid h rest guid
      end
  end.

(** The body of the loop [for comment in comments] of [buildMarkup].
    Modelled from the spec: [xmlId] of a viewpoint reference, from
    [interfaces/identifiable.py], is the identifier it was built with; on a
    value that is not an object the attribute access raises. *)
Definition resolve_comment (viewpoints : list nat) (comment : Comment)
  : M Comment :=
  if maybe_truthy (c_viewpoint comment)
  then match c_viewpoint comment with
       | Obj loc =>
           r ← deref loc;
           let cViewpointRefGuid := vr_id r in
           h ← get_heap;
           let viewpointRef :=
             match getViewpointRefByGuid h viewpoints cViewpointRefGuid with
             | Some found => Obj found
             | None => Raw VNone
             end in
           mret (set_comment_viewpoint viewpointRef comment)
       | Raw _ => raise AttributeError
       end
  else mret comment.

(** [buildMarkup] once the markup file is decoded into [markupDict], up to
    the construction of the markup object. *)
Definition buildMarkup_unresolved `{Decoders} (markupDict : value) : M Markup :=
  commentList ← lift (getOptionalFromDict markupDict "Comment" (VList []));
  commentItems ← lift (py_iter commentList);
  comments ← for_each buildComment commentItems;
  topicDict ← lift (subscript markupDict "Topic");
  topic ← lift (buildTopic topicDict);
  headerDict ← lift (getOptionalFromDict markupDict "Header" VNone);
  header ←
    (if truthy headerDict
     then n ← lift (py_len headerDict);
          if bool_decide (0 < n)%nat then Some <$> lift (buildHeader headerDict)
          else mret None
     else mret None);
  viewpointList ← lift (getOptionalFromDict markupDict "Viewpoints" (VList []));
  viewpointItems ← lift (py_iter viewpointList);
  viewpoints ← for_each buildViewpointReference viewpointItems;
  mret (mkMarkup topic header comments viewpoints None).

(** The loop [for comment in comments] that ends [buildMarkup]: the
    comments are the objects the markup holds, so the markup has them
    updated. *)
Definition resolve_comments (markup : Markup) : M Markup :=
  comments ← for_each (resolve_comment (m_viewpoints markup)) (m_comments markup);
  mret (mkMarkup (m_topic markup) (m_header markup) comments
          (m_viewpoints markup) (m_containingObject markup)).

Definition buildMarkup_record `{Decoders} (markupDict : value) : M Markup :=
  markup ← buildMarkup_unresolved markupDict;
  resolve_comments markup.

(** What the loop leaves in one comment, read off the heap [h]. *)
Definition resolved (h : list ViewpointReference) (viewpoints : list nat)
    (comment : Comment) : Comment :=
  match c_viewpoint comment with
  | Obj raw =>
      match h !! raw with
      | Some r =>
          set_comment_viewpoint
            (match getViewpointRefByGuid h viewpoints (vr_id r) with
             | Some found => Obj found
             | None => Raw VNone
             end) comment
      | None => comment
      end
  | Raw _ => comment
  end.

(** A comment as [buildComment] leaves it: its viewpoint is a reference
    object of the heap, or the falsy value found in the record. *)
Definition comment_ok (h : list ViewpointReference) (c : Comment) : Prop :=
  match c_viewpoint c with
  | Obj raw => is_Some (h !! raw)
  | Raw v => truthy v = false
  end.

(** Memory [m'] has every object of [m] at its place, and possibly more. *)
Definition heap_extends (m m' : Mem) : Prop := ∃ new, heap m' = heap m ++ new.

(** The keys [buildViewpoint] and the builders below it read by
    subscription, without a default. *)
Definition viewpoint_required_keys : list string :=
  ["@Guid"; "Visibility"; "Component"; "Color";
   "CameraViewPoint"; "CameraDirection"; "CameraUpVector";
   "ViewToWorldScale"; "FieldOfView"; "X"; "Y"; "Z";
   "StartPoint"; "EndPoint"; "Location"; "Direction";
   "Bitmap"; "Reference"; "Normal"; "Up"; "Height"].

(** The keys [buildTopic] and the builders below it read by subscription,
    without a default and without a test that the key is there. *)
Definition topic_required_keys : list string :=
  ["@Guid"; "Title"; "CreationDate"; "CreationAuthor";
   "Reference"; "ReferenceSchema"; "@SnippetType"].

(** A [KeyError] of [r], if it is one, names a key of [keys]. *)
Definition KeyError_within {A} (keys : list string) (r : result A) : Prop :=
  ∀ key, r = Raise (KeyError key) → key ∈ keys.

(** The reference [r] is what [buildViewpointReference] makes of the record
    [viewpointDict]: it has the identifier of the record and no viewpoint
    attached yet. *)
Definition built_from `{Decoders} (viewpointDict : value) (r : ViewpointReference)
  : Prop :=
  ∃ guid, subscript viewpointDict "@Guid" = Return guid
          ∧ UUID_parse guid = Return (vr_id r)
          ∧ vr_viewpoint r = None.

(** ** reader.py: the collaborators of the loader *)

(** The transport, the validator and [util] are outside the sources; the
    loader is stated over any behaviour of theirs.  [DEBUG] is [util.DEBUG];
    [printErr_takes_file] says whether [util.printErr] accepts the keyword
    argument [file].  [XMLSchema_init] is the constructor [XMLSchema(path)],
    which raises when the schema cannot be loaded.  A schema oracle gets the
    schema path, then the path of the document: [schema_validate] is
    [schema.validate(file)], with the text of the exception it raised;
    [schema_is_valid] is [schema.is_valid(file)]; [schema_to_dict] and
    [schema_to_dict_lax] are [XMLSchema(path).to_dict(file)], without and
    with [validation="lax"], so that a decoding that returns has loaded its
    schema ([lax_decoding_loads]). *)
Record World : Type := mkWorld {
  DEBUG : bool;
  printErr_takes_file : bool;
  getSystemTmp : string;
  copySchemas : string →
    option string * option string * option string * option string * option string;
  zip_extractall : string → string → result ();
  zip_open : string → result ();
  os_path_exists : string → bool;
  os_path_abspath : string → string;
  XMLSchema_init : string → result ();
  schema_validate : string → string → option string;
  schema_is_valid : string → string → result bool;
  schema_to_dict : string → string → result value;
  schema_to_dict_lax : string → string → result (value * list string);
  getDirectories : string → list string;
  lax_decoding_loads : ∀ schemaPath file r,
    schema_to_dict_lax schemaPath file = Return r →
    XMLSchema_init schemaPath = Return ();
}.

Fixpoint os_path_basename (s : string) : string :=
  match s with
  | EmptyString => EmptyString
  | String _ rest => if str_contains "/" s then os_path_basename rest else s
  end.

(** What [os.path.exists] is applied to: a path, or the builtin type [str]. *)
Inductive path_arg : Type :=
  | PathString (s : string)
  | StrType.

(** [os.path.exists] is [os.stat] with [OSError] and [ValueError] turned
    into [False]; on an argument that is not path-like [os.stat] raises
    [TypeError], which passes through. *)
Definition os_path_exists_arg (w : World) (a : path_arg) : result bool :=
  match a with
  | PathString s => Return (os_path_exists w s)
  | StrType => Raise TypeError
  end.

Definition try {A} (c : M A) : M (result A) := fun m =>
  let '(r, m') := c m in (Return r, m').

(** A [for] loop that carries a variable from one round to the next. *)
Fixpoint for_fold {A S} (f : S → A → M S) (l : list A) (s : S) : M S :=
  match l with
  | [] => mret s
  | x :: rest => s' ← f s x; for_fold f rest s'
  end.

(** ** reader.py: the loader *)

Definition SUPPORTED_VERSIONS : list string := ["2.1"].

(** [readFile]: the archive handle (here its path), [None] when it cannot be
    opened. *)
Definition readFile (w : World) (path : string) : result (option string) :=
  found ← os_path_exists_arg w StrType;
  if negb found then Raise ValueError
  else match zip_open w path with
       | Return _ => Return (Some path)
       | Raise _ => Return None
       end.

Definition extractFileToTmp (w : World) (zipFilePath : string) : result string :=
  let tmpDir := getSystemTmp w in
  let extractionPath := os_path_join tmpDir (os_path_basename zipFilePath) in
  _ ← zip_extractall w zipFilePath extractionPath;
  Return extractionPath.

Definition getVersion (w : World) (extrBcfPath versionSchemaPath : string)
  : result value :=
  let versionFileName := "bcf.version" in
  let versionFilePath := os_path_join extrBcfPath versionFileName in
  if negb (os_path_exists w versionFilePath) then Raise ValueError
  else
    _ ← XMLSchema_init w versionSchemaPath;
    valid ← schema_is_valid w versionSchemaPath versionFilePath;
    if negb valid then Return VNone
    else versionDict ← schema_to_dict w versionSchemaPath versionFilePath;
         subscript versionDict "@VersionId".

(** [validateFile]: the schema is constructed before the [try], so that an
    exception of the constructor passes through; an exception of
    [schema.validate] becomes the message returned. *)
Definition validateFile (w : World) (validateFilePath schemaPath bcfFile : string)
  : result string :=
  _ ← XMLSchema_init w schemaPath;
  match schema_validate w schemaPath validateFilePath with
  | Some e =>
      let parentDir := os_path_abspath w (os_path_join validateFilePath "..") in
      Return (String.concat ""
                [validateFilePath; " file inside "; parentDir; " of "; bcfFile;
                 " could not be validated against "; os_path_basename schemaPath;
                 String (ascii_of_nat 10) "Error:"; e])
  | None => Return ""
  end.

Definition buildProject `{Decoders} (w : World)
    (projectFilePath projectSchema : option string)
  : M (option (Project Markup)) :=
  match projectFilePath, projectSchema with
  | Some file, Some schema =>
      if negb (os_path_exists w file) then mret None
      else if negb (os_path_exists w schema) then mret None
      else
        '(projectDict, errors) ← lift (schema_to_dict_lax w schema file);
        _ ← emit (ErrorList errors);
        project ← lift (subscript projectDict "Project");
        guid ← lift (subscript project "@ProjectId");
        pId ← lift (UUID_parse guid);
        hasName ← lift (py_in "Name" project);
        pName ← (if hasName : bool then lift (subscript project "Name")
                 else mret (VStr ""));
        hasSchema ← lift (py_in "ExtensionSchema" projectDict);
        pExtensionSchema ←
          (if hasSchema : bool then lift (subscript projectDict "ExtensionSchema")
           else mret (VStr ""));
        mret (Some (Project_init pId pName pExtensionSchema ORIGINAL))
  | _, _ => mret None
  end.

Definition buildMarkup `{Decoders} (w : World) (markupFilePath markupSchemaPath : string)
  : M Markup :=
  '(markupDict, errors) ← lift (schema_to_dict_lax w markupSchemaPath markupFilePath);
  _ ← emit (ErrorList errors);
  buildMarkup_record markupDict.

Definition buildViewpoint `{Decoders} (w : World)
    (viewpointFilePath viewpointSchemaPath : string) : M Viewpoint :=
  '(vpDict, errors) ← lift (schema_to_dict_lax w viewpointSchemaPath viewpointFilePath);
  _ ← emit (ErrorList errors);
  lift (buildViewpoint_record vpDict).

(** The body of [for vpRef in markup.viewpoints] in [readBcfFile]. *)
Definition attach_viewpoint `{Decoders} (w : World) (topic topicDir : string)
    (visinfoSchemaPath : string) (loc : nat) : M () :=
  vpRef ← deref loc;
  file ← (match vr_file vpRef with
          | Obj u => mret u
          | Raw _ => raise AttributeError
          end);
  name ← (match uri file with
          | VStr s => mret s
          | _ => raise TypeError
          end);
  let vpPath := os_path_join topicDir name in
  r ← try (buildViewpoint w vpPath visinfoSchemaPath);
  match r with
  | Raise (KeyError key) => emit (ViewpointSkipped key topic file)
  | Raise e => raise e
  | Return vp => update loc (set_viewpoint vp)
  end.

Definition set_containingObject (parent : option node) (m : Markup)
  : Markup :=
  mkMarkup (m_topic m) (m_header m) (m_comments m) (m_viewpoints m) parent.

Definition topicList_append {T} (markup : T) (p : Project T) : Project T :=
  mkProject (p_id p) (p_name p) (p_extSchemaSrc p) (p_topicList p ++ [markup])
    (p_state p).

(** The body of [for topic in topicDirectories] in [readBcfFile]; [proj] is
    what the variable of that name holds, [None] when [buildProject]
    returned it. *)
Definition read_topic `{Decoders} (w : World)
    (bcfFile bcfExtractedPath markupSchemaPath visinfoSchemaPath : string)
    (proj : option (Project Markup)) (topic : string)
  : M (option (Project Markup)) :=
  let topicDir := os_path_join bcfExtractedPath topic in
  let markupFilePath := os_path_join topicDir "markup.bcf" in
  error ← lift (validateFile w markupFilePath markupSchemaPath bcfFile);
  _ ← (if negb (String.eqb error "") then emit (MarkupInvalid markupFilePath error)
       else mret ());
  markup ← buildMarkup w markupFilePath markupSchemaPath;
  _ ← for_each (attach_viewpoint w topic topicDir visinfoSchemaPath)
        (m_viewpoints markup);
  let markup :=
    set_containingObject (match proj with Some _ => Some Self | None => None end)
      markup in
  match proj with
  | Some p => mret (Some (topicList_append markup p))
  | None => raise AttributeError
  end.

(** [pprint.pprint(..., file=sys.stderr)]: the module is imported only
    under [DEBUG], and [pprint.pprint] has no parameter [file], so that the
    call raises in both cases and [e], what was to be printed, is never
    written. *)
Definition pprint (w : World) (e : event) : M () :=
  if DEBUG w then raise TypeError else raise (NameError "pprint").

Definition readBcfFile `{Decoders} (w : World) (bcfFile : string)
  : M (option (Project Markup)) :=
  let tmpDir := getSystemTmp w in
  match copySchemas w tmpDir with
  | (Some projectSchemaPath, _, Some markupSchemaPath, Some versionSchemaPath,
     Some visinfoSchemaPath) =>
      bcfExtractedPath ← lift (extractFileToTmp w bcfFile);
      let versionFilePath := os_path_join bcfExtractedPath "bcf.version" in
      if negb (os_path_exists w versionFilePath)
      then if printErr_takes_file w
           then _ ← emit NoVersionFile; mret None
           else raise TypeError
      else
        error ← lift (validateFile w versionFilePath versionSchemaPath bcfFile);
        if negb (String.eqb error "")
        then _ ← pprint w (VersionInvalid error); mret None
        else
          version ← lift (getVersion w bcfExtractedPath versionSchemaPath);
          if negb (existsb (eq_str version) SUPPORTED_VERSIONS)
          then _ ← pprint w (VersionUnsupported version); mret None
          else
            let proj : option (Project Markup) :=
              Some (Project_init (mkUUID 0) (VStr "") VNone ORIGINAL) in
            let projectFilePath := os_path_join bcfExtractedPath "project.bcfp" in
            proj ← (if os_path_exists w projectFilePath
                    then
                      error ← lift (validateFile w projectFilePath projectSchemaPath
                                      bcfFile);
                      buildProject w (Some projectFilePath) (Some projectSchemaPath)
                    else mret proj);
            let topicDirectories := getDirectories w bcfExtractedPath in
            proj ← for_fold
                     (read_topic w bcfFile bcfExtractedPath markupSchemaPath
                        visinfoSchemaPath)
                     topicDirectories proj;
            _ ← set_bcfDir bcfExtractedPath;
            mret proj
  | _ => _ ← emit SchemasUnavailable; mret None
  end.

(** ** reader.py: readings of the loader used in its theorems *)

(** The archive has no version descriptor where [readBcfFile] looks for it. *)
Definition version_file_missing (w : World) (bcfFile : string) : bool :=
  match extractFileToTmp w bcfFile with
  | Return x => negb (os_path_exists w (os_path_join x "bcf.version"))
  | Raise _ => false
  end.

(** The version identifier [readBcfFile] gets from [getVersion] is none of
    [SUPPORTED_VERSIONS]. *)
Definition version_unsupported (w : World) (bcfFile : string) : bool :=
  match copySchemas w (getSystemTmp w), extractFileToTmp w bcfFile with
  | (_, _, _, Some versionSchemaPath, _), Return x =>
      match getVersion w x versionSchemaPath with
      | Return version => negb (existsb (eq_str version) SUPPORTED_VERSIONS)
      | Raise _ => false
      end
  | _, _ => false
  end.

(** What [buildViewpoint] gives for the file a viewpoint reference names,
    memory and notices apart: [vpRef.file.uri], joined to the topic
    directory, decoded and built. *)
Definition viewpoint_outcome `{Decoders} (w : World) (topicDir visinfoSchemaPath : string)
    (r : ViewpointReference) : result Viewpoint :=
  match vr_file r with
  | Obj file =>
      match uri file with
      | VStr name =>
          '(vpDict, _) ←
            schema_to_dict_lax w visinfoSchemaPath (os_path_join topicDir name);
          buildViewpoint_record vpDict
      | _ => Raise TypeError
      end
  | Raw _ => Raise AttributeError
  end.

(** The reference after its round of the loop: with the viewpoint when it
    was built, as before otherwise. *)
Definition attached `{Decoders} (w : World) (topicDir visinfoSchemaPath : string)
    (r : ViewpointReference) : ViewpointReference :=
  match viewpoint_outcome w topicDir visinfoSchemaPath r with
  | Return vp => set_viewpoint vp r
  | Raise _ => r
  end.

(** The viewpoint is built or a required key is missing: the two outcomes
    the loop goes on after. *)
Definition built_or_skipped {A} (r : result A) : bool :=
  match r with
  | Return _ => true
  | Raise (KeyError _) => true
  | Raise _ => false
  end.

(** The load gave no project and left the objects and [bcfDir] alone. *)
Definition load_aborted {T} (m : Mem) (r : result (option T) * Mem) : Prop :=
  (∀ p, r.1 ≠ Return (Some p)) ∧ heap r.2 = heap m ∧ bcfDir r.2 = bcfDir m.

(** The markup document of topic directory [topic], below the extraction
    directory [x], decodes to a record that has a ["Topic"] entry. *)
Definition markup_has_topic (w : World) (x markupSchemaPath topic : string) : Prop :=
  ∃ markupDict errors topicDict,
    schema_to_dict_lax w markupSchemaPath
      (os_path_join (os_path_join x topic) "markup.bcf")
    = Return (markupDict, errors)
    ∧ subscript markupDict "Topic" = Return topicDict.

(** The memory with more objects at the end of the heap and more notices at
    the end of the log. *)
Definition extend (m : Mem) (new : list ViewpointReference) (notices : list event)
  : Mem :=
  mkMem (heap m ++ new) (log m ++ notices) (bcfDir m).

(** Two runs, from memories whose heaps differ in length by [δ], go the
    same way: when [c] returns, [c'] returns too, both have created the same
    objects and written the same notices, and the values returned are
    related by [R]. *)
Definition framed {A} (δ : Z) (R : A → A → Prop) (c c' : M A) : Prop :=
  ∀ m0 m a m1,
    Z.of_nat (length (heap m)) - Z.of_nat (length (heap m0)) = δ →
    c m0 = (Return a, m1) →
    ∃ new notices a',
      m1 = extend m0 new notices
      ∧ c' m = (Return a', extend m new notices)
      ∧ R a a'.

(** The same object, seen from the two runs. *)
Definition shifted (δ : Z) (loc loc' : nat) : Prop := Z.of_nat loc' = Z.of_nat loc + δ.

(** The markup document of [topic] builds, and each of its viewpoint
    references has a file locator whose [uri] is a string, the name of a
    viewpoint document that is built or lacks a required key.  A reference
    without a locator is excluded: the loader raises at [vpRef.file.uri].
    The build is looked at from the empty memory. *)
Definition topic_loadable `{Decoders} (w : World)
    (x markupSchemaPath visinfoSchemaPath topic : string) : Prop :=
  ∃ markup m1,
    buildMarkup w (os_path_join (os_path_join x topic) "markup.bcf")
      markupSchemaPath empty_mem = (Return markup, m1)
    ∧ ∀ loc, loc ∈ m_viewpoints markup →
        ∃ r file name,
          heap m1 !! loc = Some r
          ∧ vr_file r = Obj file
          ∧ uri file = VStr name
          ∧ built_or_skipped
              (viewpoint_outcome w (os_path_join x topic) visinfoSchemaPath r)
            = true.

(** The archive has no [project.bcfp], or it has one that [buildProject]
    builds. *)
Definition project_loadable `{Decoders} (w : World) (x projectSchemaPath : string)
  : Prop :=
  os_path_exists w (os_path_join x "project.bcfp") = false
  ∨ ∃ p m1,
      buildProject w (Some (os_path_join x "project.bcfp")) (Some projectSchemaPath)
        empty_mem = (Return (Some p), m1).

(** The markup document of [topic] decodes to a record whose comments build
    and which has no ["Topic"] entry. *)
Definition markup_lacks_topic `{Decoders} (w : World)
    (x markupSchemaPath topic : string) : Prop :=
  ∃ markupDict errors commentList commentItems comments m1,
    schema_to_dict_lax w markupSchemaPath
      (os_path_join (os_path_join x topic) "markup.bcf")
    = Return (markupDict, errors)
    ∧ getOptionalFromDict markupDict "Comment" (VList []) = Return commentList
    ∧ py_iter commentList = Return commentItems
    ∧ for_each buildComment commentItems empty_mem = (Return comments, m1)
    ∧ subscript markupDict "Topic" = Raise (KeyError "Topic").

(** The viewpoint of comment [c] is what [buildComment] makes of the
    ["Viewpoint"] entry of [commentDict], in the heap [h]: a placeholder
    reference with the identifier of the entry, the raw viewpoint id of the
    comment, or the falsy value found. *)
Definition raw_viewpoint_of `{Decoders} (h : list ViewpointReference)
    (commentDict : value) (c : Comment) : Prop :=
  ∃ vpRef,
    getOptionalFromDict commentDict "Viewpoint" VNone = Return vpRef
    ∧ if truthy vpRef
      then ∃ guid id raw placeholder,
             subscript vpRef "@Guid" = Return guid
             ∧ UUID_parse guid = Return id
             ∧ c_viewpoint c = Obj raw
             ∧ h !! raw = Some placeholder
             ∧ vr_id placeholder = id
      else c_viewpoint c = Raw vpRef.

(** Memory [m'] has every object of [m] at its place, as it was, and every
    notice of [m]. *)
Definition mem_le (m m' : Mem) : Prop :=
  (∀ j r, heap m !! j = Some r → heap m' !! j = Some r)
  ∧ (∀ e, e ∈ log m → e ∈ log m').



(** ** reader.py: the boolean defaults and the schema *)




(** ** Sample decoders

    For evaluating the builders on concrete records: a decoder of
    identifiers that agrees with [uuid.UUID] on strings made of 32
    hexadecimal digits and hyphens, and a decoder of timestamps that agrees
    with [dateutil.parser.parse] on [YYYY-MM-DDTHH:MM:SS] followed by an
    optional [Z]. *)

Definition hex_digit (c : ascii) : option Z :=
  let n := Z.of_nat (nat_of_ascii c) in
  if (48 <=? n) && (n <=? 57) then Some (n - 48)
  else if (97 <=? n) && (n <=? 102) then Some (n - 87)
  else if (65 <=? n) && (n <=? 70) then Some (n - 55)
  else None.

Fixpoint hex_value (acc : Z) (s : string) : option Z :=
  match s with
  | EmptyString => Some acc
  | String c rest =>
      match hex_digit c with
      | Some d => hex_value (16 * acc + d) rest
      | None => None
      end
  end.

Fixpoint remove_hyphens (s : string) : string :=
  match s with
  | EmptyString => EmptyString
  | String c rest =>
      if Ascii.eqb c "-"%char then remove_hyphens rest
      else String c (remove_hyphens rest)
  end.

Definition sample_UUID (v : value) : result UUID :=
  match v with
  | VStr s =>
      let hex := remove_hyphens s in
      if Nat.eqb (String.length hex) 32
      then match hex_value 0 hex with
           | Some n => Return (mkUUID n)
           | None => Raise ValueError
           end
      else Raise ValueError
  | VNone => Raise TypeError
  | _ => Raise AttributeError
  end.

Definition is_digit (c : ascii) : bool :=
  let n := nat_of_ascii c in (Nat.leb 48 n) && (Nat.leb n 57).

(** [d] for a digit, any other character for itself. *)
Fixpoint matches_pattern (pattern s : string) : bool :=
  match pattern, s with
  | EmptyString, EmptyString => true
  | String p pattern', String c s' =>
      (if Ascii.eqb p "d"%char then is_digit c else Ascii.eqb p c)
      && matches_pattern pattern' s'
  | _, _ => false
  end.

Fixpoint digits_value (acc : Z) (s : string) : Z :=
  match s with
  | EmptyString => acc
  | String c rest => digits_value (10 * acc + (Z.of_nat (nat_of_ascii c) - 48)) rest
  end.

Definition field (start len : nat) (s : string) : Z :=
  digits_value 0 (String.substring start len s).

Definition sample_parse (v : value) : result datetime :=
  match v with
  | VStr s =>
      let utc := matches_pattern "dddd-dd-ddTdd:dd:ddZ" s in
      if matches_pattern "dddd-dd-ddTdd:dd:dd" s || utc
      then Return (mkDatetime (field 0 4 s) (field 5 2 s) (field 8 2 s)
                     (field 11 2 s) (field 14 2 s) (field 17 2 s) 0
                     (if utc then Some 0 else None))
      else Raise ValueError
  | _ => Raise TypeError
  end.

Definition sample_decoders : Decoders :=
  {| dateutil_parse := sample_parse; UUID_parse := sample_UUID |}.

(** ** Sample records *)

Definition sample_guid (last : string) : value :=
  VStr (String.append "00000000-0000-0000-0000-00000000000" last).

Definition sample_vector (x y z : Z) : value :=
  VDict [("X", VFloat x 0); ("Y", VFloat y 0); ("Z", VFloat z 0)].

Definition sample_oCam : value :=
  VDict [("CameraViewPoint", sample_vector 0 0 10);
         ("CameraDirection", sample_vector 0 0 (-1));
         ("CameraUpVector", sample_vector 0 1 0);
         ("ViewToWorldScale", VFloat 1 0)].

Definition sample_pCam : value :=
  VDict [("CameraViewPoint", sample_vector 5 5 5);
         ("CameraDirection", sample_vector (-1) (-1) (-1));
         ("CameraUpVector", sample_vector 0 0 1);
         ("FieldOfView", VFloat 60 0)].

(** A viewpoint record with an orthogonal and a perspective camera. *)
Definition both_cameras_record : value :=
  VDict [("@Guid", sample_guid "1");
         ("OrthogonalCamera", sample_oCam);
         ("PerspectiveCamera", sample_pCam)].

(** What [buildViewpoint] makes of it. *)
Definition both_cameras_viewpoint : Viewpoint :=
  mkViewpoint (mkUUID 1) None
    (Some (mkOrthogonalCamera
             (mkPoint (VFloat 0 0) (VFloat 0 0) (VFloat 10 0))
             (mkDirection (VFloat 0 0) (VFloat 0 0) (VFloat (-1) 0))
             (mkDirection (VFloat 0 0) (VFloat 1 0) (VFloat 0 0))
             (VFloat 1 0)))
    (Some (mkPerspectiveCamera
             (mkPoint (VFloat 5 0) (VFloat 5 0) (VFloat 5 0))
             (mkDirection (VFloat (-1) 0) (VFloat (-1) 0) (VFloat (-1) 0))
             (mkDirection (VFloat 0 0) (VFloat 0 0) (VFloat 1 0))
             (VFloat 60 0)))
    [] [] [].

(** Components records: without a coloring section, with a coloring section
    that has no color record, with an empty coloring element, and with one
    color record that carries no color value. *)
Definition components_without_coloring : value :=
  VDict [("Visibility", VDict [])].

Definition components_with_no_colors : value :=
  VDict [("Visibility", VDict []); ("Coloring", VDict [("Color", VList [])])].

Definition components_with_empty_coloring : value :=
  VDict [("Visibility", VDict []); ("Coloring", VNone)].

Definition components_with_blank_color : value :=
  VDict [("Visibility", VDict []);
         ("Coloring", VDict [("Color", VList [VDict [("Component", VList [])]])])].

Definition sample_color_record : value :=
  VDict [("@Color", VStr "FF00FF00");
         ("Component", VList [VDict [("@IfcGuid", VStr "0fdpeZZEX3FwJ7x0ox5kzF")]])].


(** A topic with the mandatory fields only. *)
Definition minimal_topic : list (string * value) :=
  [("@Guid", sample_guid "2"); ("Title", VStr "Clash at axis B");
   ("CreationDate", VStr "2019-05-01T10:00:00Z");
   ("CreationAuthor", VStr "a@b.c")].

(** A markup with two comments, the first pointing at the viewpoint of the
    markup, the second at a viewpoint the markup does not have. *)
Definition sample_comment (id viewpoint : string) : value :=
  VDict [("@Guid", sample_guid id); ("Date", VStr "2019-05-02T08:30:00Z");
         ("Author", VStr "a@b.c"); ("Comment", VStr "see the view");
         ("Viewpoint", VDict [("@Guid", sample_guid viewpoint)])].

Definition sample_viewpoint_entry (id file : string) : value :=
  VDict [("@Guid", sample_guid id); ("Viewpoint", VStr file);
         ("Snapshot", VStr "snapshot.png")].

Definition sample_markup_record : value :=
  VDict [("Topic", VDict minimal_topic);
         ("Comment", VList [sample_comment "4" "5"; sample_comment "6" "7"]);
         ("Viewpoints", VList [sample_viewpoint_entry "5" "viewpoint.bcfv"])].

(** ** Sample worlds *)

(** The schema files [copySchemas] puts into the temporary directory. *)
Definition all_schemas : list string :=
  ["/tmp/project.xsd"; "/tmp/extensions.xsd"; "/tmp/markup.xsd";
   "/tmp/version.xsd"; "/tmp/visinfo.xsd"].

(** A world given by the schema files that are on disk, the record tree of
    each of its documents and the topic directories: a schema on disk
    loads, every document validates, a document that is not there cannot be
    decoded, and [pprint] is not imported. *)
Definition world_with (schemas : list string) (files : list (string * value))
    (dirs : list string) : World.
Proof.
  refine
    {| DEBUG := false;
       printErr_takes_file := false;
       getSystemTmp := "/tmp";
       copySchemas := fun tmp =>
         (Some (os_path_join tmp "project.xsd"),
          Some (os_path_join tmp "extensions.xsd"),
          Some (os_path_join tmp "markup.xsd"),
          Some (os_path_join tmp "version.xsd"),
          Some (os_path_join tmp "visinfo.xsd"));
       zip_extractall := fun _ _ => Return ();
       zip_open := fun _ => Return ();
       os_path_exists := fun path =>
         existsb (String.eqb path) schemas
         || bool_decide (is_Some (dict_get path files));
       os_path_abspath := fun path => path;
       XMLSchema_init := fun schema =>
         if existsb (String.eqb schema) schemas then Return ()
         else Raise (OtherError "no such schema");
       schema_validate := fun _ _ => None;
       schema_is_valid := fun _ _ => Return true;
       schema_to_dict := fun schema path =>
         if existsb (String.eqb schema) schemas
         then match dict_get path files with
              | Some tree => Return tree
              | None => Raise (OtherError "no such file")
              end
         else Raise (OtherError "no such schema");
       schema_to_dict_lax := fun schema path =>
         if existsb (String.eqb schema) schemas
         then match dict_get path files with
              | Some tree => Return (tree, [])
              | None => Raise (OtherError "no such file")
              end
         else Raise (OtherError "no such schema");
       getDirectories := fun _ => dirs;
       lax_decoding_loads := _ |}.
  intros schemaPath file r.
  destruct (existsb (String.eqb schemaPath) schemas); [reflexivity|discriminate].
Defined.

(** The world in which all the schema files are on disk. *)
Definition world_of (files : list (string * value)) (dirs : list string) : World :=
  world_with all_schemas files dirs.

Definition version_file (id : string) : string * value :=
  ("/tmp/issues.bcf/bcf.version",
   VDict [("@VersionId", VStr id); ("DetailedVersion", VStr id)]).

(** A viewpoint document whose perspective camera has a position only. *)
Definition broken_viewpoint_record : value :=
  VDict [("@Guid", sample_guid "8");
         ("PerspectiveCamera", VDict [("CameraViewPoint", sample_vector 5 5 5)])].

(** An archive of version 2.1 with one topic, its viewpoint document and a
    broken one beside it. *)
Definition sample_files : list (string * value) :=
  [version_file "2.1";
   ("/tmp/issues.bcf/topic-1/markup.bcf", sample_markup_record);
   ("/tmp/issues.bcf/topic-1/viewpoint.bcfv", both_cameras_record);
   ("/tmp/issues.bcf/topic-1/broken.bcfv", broken_viewpoint_record)].

Definition sample_world : World := world_of sample_files ["topic-1"].

(** The same archive with a version descriptor of BCF 2.0. *)
Definition old_version_world : World := world_of [version_file "2.0"] ["topic-1"].

Definition sample_reference (id : Z) (file : string) : ViewpointReference :=
  mkViewpointReference (mkUUID id) (Obj (mkUri (VStr file))) (Raw VNone)
    (VInt (-1)) None.

(** A memory holding a reference to the viewpoint document and one to the
    broken document. *)
Definition two_references : Mem :=
  mkMem [sample_reference 5 "viewpoint.bcfv"; sample_reference 8 "broken.bcfv"] [] "".

(** A markup whose second viewpoint reference names the broken document. *)
Definition markup_with_broken_viewpoint : value :=
  VDict [("Topic", VDict minimal_topic);
         ("Viewpoints", VList [sample_viewpoint_entry "5" "viewpoint.bcfv";
                               sample_viewpoint_entry "8" "broken.bcfv"])].

Definition skipping_world : World :=
  world_of [version_file "2.1";
            ("/tmp/issues.bcf/topic-1/markup.bcf", markup_with_broken_viewpoint);
            ("/tmp/issues.bcf/topic-1/viewpoint.bcfv", both_cameras_record);
            ("/tmp/issues.bcf/topic-1/broken.bcfv", broken_viewpoint_record)]
    ["topic-1"].

(** A markup document with a comment and no topic. *)
Definition markup_without_topic : value :=
  VDict [("Comment", VList [sample_comment "4" "5"])].

(** An archive of three topic directories, the second with the markup
    without a topic. *)
Definition topicless_world : World :=
  world_of [version_file "2.1";
            ("/tmp/issues.bcf/topic-1/markup.bcf", sample_markup_record);
            ("/tmp/issues.bcf/topic-1/viewpoint.bcfv", both_cameras_record);
            ("/tmp/issues.bcf/topic-2/markup.bcf", markup_without_topic);
            ("/tmp/issues.bcf/topic-3/markup.bcf", sample_markup_record);
            ("/tmp/issues.bcf/topic-3/viewpoint.bcfv", both_cameras_record)]
    ["topic-1"; "topic-2"; "topic-3"].


(** An archive with a project document, in a world where the project
    schema is not on disk. *)
Definition sample_project_record : value :=
  VDict [("Project", VDict [("@ProjectId", sample_guid "9");
                            ("Name", VStr "Tower")])].

Definition schemaless_world (dirs : list string) : World :=
  world_with ["/tmp/extensions.xsd"; "/tmp/markup.xsd"; "/tmp/version.xsd";
              "/tmp/visinfo.xsd"]
    [version_file "2.1";
     ("/tmp/issues.bcf/project.bcfp", sample_project_record);
     ("/tmp/issues.bcf/topic-1/markup.bcf", sample_markup_record);
     ("/tmp/issues.bcf/topic-1/viewpoint.bcfv", both_cameras_record)]
    dirs.


(** * Theorems *)

Example sample_UUID_ex :
  sample_UUID (VStr "00000000-0000-0000-0000-0000000000ff") = Return (mkUUID 255).
Proof. reflexivity. Qed.

Example sample_parse_ex :
  sample_parse (VStr "2019-05-01T10:00:00Z")
  = Return (mkDatetime 2019 5 1 10 0 0 0 (Some 0))
  ∧ sample_parse (VStr "yesterday") = Raise ValueError.
Proof. split; reflexivity. Qed.

Example os_path_join_ex :
  os_path_join "/tmp/x" "bcf.version" = "/tmp/x/bcf.version"
  ∧ os_path_join "/tmp/x/" "a" = "/tmp/x/a"
  ∧ os_path_join "/tmp/x" "/abs" = "/abs"
  ∧ os_path_basename "dir/issues.bcf" = "issues.bcf".
Proof. repeat split; reflexivity. Qed.

(** ** project.py *)

Lemma States_isOriginal_true (s : States) : States_isOriginal s = true ↔ s = ORIGINAL.
Proof. unfold States_isOriginal. by rewrite bool_decide_eq_true. Qed.

Lemma SimpleElement_getStateList_elem (me : node) (e : SimpleElement) x :
  x ∈ SimpleElement_getStateList me e ↔ x = (se_state e, me) ∧ se_state e ≠ ORIGINAL.
Proof.
  unfold SimpleElement_getStateList, SimpleElement_isOriginal, States_isOriginal.
  case_bool_decide; simpl.
  - rewrite elem_of_nil. naive_solver.
  - rewrite list_elem_of_singleton. naive_solver.
Qed.

(** The entries the loop over the topic list gathers are exactly the entries
    of the markups, each placed under the index of its markup. *)
Lemma topics_getStateList_elem `{StateList T} (l : list T) (i : nat) x :
  x ∈ topics_getStateList i l ↔
  ∃ j markup e, l !! j = Some markup ∧ e ∈ markup_getStateList markup
                ∧ x = in_topic (i + j) e.
Proof.
  revert i. induction l as [|markup rest IH]; intros i; simpl.
  - rewrite elem_of_nil. split; [done|]. by intros (j & ? & ? & Hj & _).
  - rewrite elem_of_app, list_elem_of_fmap, IH. split.
    + intros [(e & -> & He)|(j & mk & e & Hj & He & ->)].
      * exists 0%nat, markup, e. by rewrite Nat.add_0_r.
      * exists (S j), mk, e. by rewrite <- Nat.add_succ_comm.
    + intros (j & mk & e & Hj & He & ->). destruct j as [|j]; simpl in Hj.
      * left. simplify_eq. exists e. by rewrite Nat.add_0_r.
      * right. exists j, mk, e. by rewrite Nat.add_succ_comm.
Qed.

Lemma Project_getStateList_elem `{StateList T} (p : Project T) x :
  x ∈ Project_getStateList p ↔
  (x = (p_state p, Self) ∧ p_state p ≠ ORIGINAL)
  ∨ x ∈ SimpleElement_getStateList Name (p_name p)
  ∨ x ∈ SimpleElement_getStateList ExtensionSchema (p_extSchemaSrc p)
  ∨ x ∈ topics_getStateList 0 (p_topicList p).
Proof.
  unfold Project_getStateList, Project_isOriginal, States_isOriginal.
  case_bool_decide; simpl.
  - rewrite !elem_of_app. naive_solver.
  - rewrite elem_of_cons, !elem_of_app. naive_solver.
Qed.

(** C8: the pending-change query of a project reports the project itself
    exactly when its own tag is not Original; whatever that tag is, it
    reports every entry of the name wrapper, of the extension-schema wrapper
    and of every topic-markup of the topic list; and the entries for objects
    other than the project are the same under any tag of the project. *)
Theorem Project_getStateList_walks_descendants `{StateList T} (p : Project T) :
  ((p_state p, Self) ∈ Project_getStateList p ↔ p_state p ≠ ORIGINAL)
  ∧ (∀ s, (s, Self) ∈ Project_getStateList p → s = p_state p)
  ∧ (∀ x, x ∈ SimpleElement_getStateList Name (p_name p) →
          x ∈ Project_getStateList p)
  ∧ (∀ x, x ∈ SimpleElement_getStateList ExtensionSchema (p_extSchemaSrc p) →
          x ∈ Project_getStateList p)
  ∧ (∀ i markup e, p_topicList p !! i = Some markup →
          e ∈ markup_getStateList markup →
          in_topic i e ∈ Project_getStateList p)
  ∧ (∀ s' x, x.2 ≠ Self →
          x ∈ Project_getStateList (with_state s' p) ↔ x ∈ Project_getStateList p).
Proof.
  assert (Hself : ∀ s, (s, Self) ∈ Project_getStateList p →
                       s = p_state p ∧ p_state p ≠ ORIGINAL).
  { intros s. rewrite Project_getStateList_elem, !SimpleElement_getStateList_elem,
      topics_getStateList_elem.
    intros [[[= ->] ?]|[[[=] _]|[[[=] _]|(j & mk & e & _ & _ & [=])]]]. done. }
  split_and!.
  - split; [intros Hin; by apply Hself in Hin as [_ ?]|].
    intros Hne. apply Project_getStateList_elem. by left.
  - intros s Hin. by apply Hself in Hin as [? _].
  - intros x Hx. apply Project_getStateList_elem. auto.
  - intros x Hx. apply Project_getStateList_elem. auto.
  - intros i markup e Hi He. apply Project_getStateList_elem.
    do 3 right. apply topics_getStateList_elem. by exists i, markup, e.
  - intros s' [s n] Hn. rewrite !Project_getStateList_elem. simpl in *.
    split; (intros [[[= _ ->] _]|Hrest]; [done|by right]).
Qed.

Example Project_getStateList_ex :
  let markups : StateList nat := fun n => [(MODIFIED, ["topic"; "title"])] in
  let p := topicList_append 7%nat (Project_init (mkUUID 1) (VStr "p") VNone ORIGINAL) in
  Project_getStateList p = [(MODIFIED, InTopic 0 ["topic"; "title"])]
  ∧ Project_getStateList (with_state DELETED p)
    = [(DELETED, Self); (MODIFIED, InTopic 0 ["topic"; "title"])].
Proof. split; reflexivity. Qed.

(** C9: whatever is appended to a [SimpleList], the object stored last
    afterwards is a [SimpleElement] whose tag is Added: a new element with the
    list's tag name and containing object around an item that was not one,
    and the passed element itself, its tag overwritten, otherwise. *)
Theorem SimpleList_append_stores_added (self : SimpleList) (it : item) (st : store) :
  item_in_store it st →
  ∃ st' self' loc e,
    SimpleList_append self it st = (st', self')
    ∧ sl_items self' = sl_items self ++ [loc]
    ∧ st' !! loc = Some e
    ∧ se_state e = ADDED
    ∧ match it with
      | Plain v =>
          st !! loc = None
          ∧ e = mkSimpleElement v (sl_xmlName self) (sl_containingObject self) ADDED
      | Element given =>
          loc = given
          ∧ ∃ before, st !! given = Some before
              ∧ se_value e = se_value before
              ∧ se_xmlName e = se_xmlName before
              ∧ se_containingObject e = se_containingObject before
      end.
Proof.
  intros Hin. destruct it as [v|given]; simpl in *.
  - set (e := mkSimpleElement v (sl_xmlName self) (sl_containingObject self) ADDED).
    exists (st ++ [e]),
      (mkSimpleList (sl_items self ++ [length st]) (sl_xmlName self)
         (sl_containingObject self) (sl_state self)),
      (length st), e.
    split_and!; try done.
    + by rewrite lookup_app_r, Nat.sub_diag.
    + by apply lookup_ge_None.
  - destruct Hin as [before Hbefore].
    exists (alter (set_state ADDED) given st),
      (mkSimpleList (sl_items self ++ [given]) (sl_xmlName self)
         (sl_containingObject self) (sl_state self)),
      given, (set_state ADDED before).
    split_and!; try done.
    + by rewrite list_lookup_alter_eq, Hbefore.
    + by exists before.
Qed.

Lemma SimpleList_append_original_witness :
  let st := [mkSimpleElement (VStr "Architecture") "Labels" None ORIGINAL] in
  let self := mkSimpleList [] "Labels" None ORIGINAL in
  item_in_store (Element 0) st
  ∧ ∃ st' self' loc e,
      SimpleList_append self (Element 0) st = (st', self')
      ∧ sl_items self' = sl_items self ++ [loc]
      ∧ st' !! loc = Some e
      ∧ se_state e = ADDED
      ∧ loc = 0%nat
      ∧ ∃ before, st !! 0%nat = Some before
          ∧ se_value e = se_value before
          ∧ se_xmlName e = se_xmlName before
          ∧ se_containingObject e = se_containingObject before.
Proof.
  split; [by eexists|].
  apply (SimpleList_append_stores_added
           (mkSimpleList [] "Labels" None ORIGINAL) (Element 0)
           [mkSimpleElement (VStr "Architecture") "Labels" None ORIGINAL]).
  by eexists.
Defined.

(** ** reader.py: readFile *)

(** C10: [readFile] raises for every path: the existence check is made on
    the builtin [str], on which it raises, so neither the path nor the
    archive is ever looked at and nothing is returned. *)
Theorem readFile_always_raises (w : World) (path : string) :
  readFile w path = Raise TypeError
  ∧ (∀ r, readFile w path ≠ Return r)
  ∧ os_path_exists_arg w StrType = Raise TypeError.
Proof. unfold readFile. simpl. done. Qed.

Example os_path_exists_arg_ex (w : World) :
  os_path_exists_arg w (PathString "a.bcf") = Return (os_path_exists w "a.bcf").
Proof. reflexivity. Qed.

(** ** reader.py: inverting the builders *)

Lemma getOptionalFromDict_dict items key empty :
  getOptionalFromDict (VDict items) key empty
  = Return (default empty (dict_get key items)).
Proof.
  unfold getOptionalFromDict, py_in, subscript. simpl.
  by destruct (dict_get key items).
Qed.

Lemma is_Some_true_iff {A} (o : option A) (b : bool) :
  match o with Some _ => b = true | None => b = false end →
  is_Some o ↔ b = true.
Proof. destruct o; intros ->; split; first [done | by intros [? ?] | by eauto]. Qed.

Ltac unfold_result :=
  unfold mbind, result_bind, mret, result_ret, fmap, result_fmap in *.

Ltac unfold_M :=
  unfold mbind, M_bind, mret, M_ret, fmap, M_fmap, lift, raise, alloc, deref,
    get_heap, update, emit in *.

(** Case analysis on every step of a builder that returned: outermost test
    or call first. *)
Ltac result_inv H :=
  repeat match type of H with
  | context [if ?b then _ else _] =>
      lazymatch b with
      | context [if _ then _ else _] => fail
      | context [match _ with Return _ => _ | Raise _ => _ end] => fail
      | _ => let E := fresh "E" in destruct b eqn:E; try discriminate H
      end
  | context [match ?c with Return _ => _ | Raise _ => _ end] =>
      lazymatch c with
      | context [if _ then _ else _] => fail
      | context [match _ with Return _ => _ | Raise _ => _ end] => fail
      | _ => let E := fresh "E" in destruct c eqn:E; try discriminate H
      end
  end.

Ltac builder_inv H :=
  rewrite ?getOptionalFromDict_dict in H; unfold_result; unfold_M; simpl in H;
  result_inv H; simplify_eq/=.

(** The field of a record without the key. *)
Ltac absent :=
  let Habs := fresh "Habs" in
  intros Habs;
  unfold py_in, wrap_if_truthy, parse_unless_None, Uri_init in *;
  rewrite ?Habs in *; simpl in *; simplify_eq/=; done.

(** The same one level down, in the dictionary under a key. *)
Ltac absent_in :=
  let vis := fresh "vis" in
  let Hvis := fresh "Hvis" in
  let Habs := fresh "Habs" in
  intros vis Hvis Habs;
  unfold subscript in *; rewrite ?Hvis in *; simplify_eq/=;
  rewrite ?getOptionalFromDict_dict in *; rewrite ?Habs in *; simplify_eq/=; done.

(** ** reader.py: buildViewpoint and the two cameras *)

(** C1, amended: [buildViewpoint] builds each camera on its own: the
    viewpoint holds an orthogonal camera exactly when the record has a
    non-empty orthogonal-camera node, and a perspective camera exactly when
    it has a non-empty perspective-camera node; a record with both that
    builds yields a viewpoint holding both. *)
Theorem buildViewpoint_builds_each_camera `{Decoders}
    (vpDict oCamDict pCamDict : value) (vp : Viewpoint) :
  buildViewpoint_record vpDict = Return vp →
  getOptionalFromDict vpDict "OrthogonalCamera" VNone = Return oCamDict →
  getOptionalFromDict vpDict "PerspectiveCamera" VNone = Return pCamDict →
  (is_Some (vp_oCamera vp) ↔ truthy oCamDict = true)
  ∧ (is_Some (vp_pCamera vp) ↔ truthy pCamDict = true)
  ∧ (truthy oCamDict = true → truthy pCamDict = true →
     is_Some (vp_oCamera vp) ∧ is_Some (vp_pCamera vp)).
Proof.
  unfold buildViewpoint_record. intros Hb Ho Hp. rewrite Ho, Hp in Hb.
  unfold_result. result_inv Hb.
  all: simplify_eq/=.
  all: split_and!; try (by apply is_Some_true_iff); try done; eauto.
Qed.

Lemma buildViewpoint_builds_each_camera_witness :
  (@buildViewpoint_record sample_decoders both_cameras_record
     = Return both_cameras_viewpoint
   ∧ getOptionalFromDict both_cameras_record "OrthogonalCamera" VNone
     = Return sample_oCam
   ∧ getOptionalFromDict both_cameras_record "PerspectiveCamera" VNone
     = Return sample_pCam)
  ∧ (is_Some (vp_oCamera both_cameras_viewpoint) ↔ truthy sample_oCam = true)
  ∧ (is_Some (vp_pCamera both_cameras_viewpoint) ↔ truthy sample_pCam = true)
  ∧ (truthy sample_oCam = true → truthy sample_pCam = true →
     is_Some (vp_oCamera both_cameras_viewpoint)
     ∧ is_Some (vp_pCamera both_cameras_viewpoint)).
Proof.
  split; [repeat split; reflexivity|].
  apply (@buildViewpoint_builds_each_camera sample_decoders both_cameras_record
           sample_oCam sample_pCam both_cameras_viewpoint); reflexivity.
Defined.

(** C1 as stated fails: a record with both camera nodes is neither rejected
    nor resolved to one camera, the viewpoint built from it holds both. *)
Lemma buildViewpoint_holds_both_cameras :
  ∃ vp oCam pCam,
    @buildViewpoint_record sample_decoders both_cameras_record = Return vp
    ∧ vp_oCamera vp = Some oCam
    ∧ vp_pCamera vp = Some pCam.
Proof. by eexists _, _, _. Qed.

(** ** reader.py: the defaults of absent fields *)

Lemma buildTopic_defaults `{Decoders} items t :
  buildTopic (VDict items) = Return t →
  (dict_get "@TopicStatus" items = None → t_status t = VStr "")
  ∧ (dict_get "@TopicType" items = None → t_type t = VStr "")
  ∧ (dict_get "Priority" items = None → t_priority t = VStr "")
  ∧ (dict_get "ModifiedAuthor" items = None → t_modAuthor t = VStr "")
  ∧ (dict_get "AssignedTo" items = None → t_assignee t = VStr "")
  ∧ (dict_get "Stage" items = None → t_stage t = VStr "")
  ∧ (dict_get "Description" items = None → t_description t = VStr "")
  ∧ (dict_get "Index" items = None → t_index t = VInt (-1))
  ∧ (dict_get "ModifiedDate" items = None → t_modDate t = None)
  ∧ (dict_get "DueDate" items = None → t_dueDate t = None)
  ∧ (dict_get "BimSnippet" items = None → t_bimSnippet t = None)
  ∧ (dict_get "Labels" items = None → t_labels t = VList [])
  ∧ (dict_get "DocumentReference" items = None → t_docRefs t = [])
  ∧ (dict_get "RelatedTopic" items = None → t_relatedTopics t = [])
  ∧ (dict_get "ReferenceLink" items = None → t_referenceLinks t = VList []).
Proof.
  unfold buildTopic. intros Hb. builder_inv Hb.
  all: split_and!; absent.
Qed.

Lemma buildViewpointReference_defaults `{Decoders} items m loc m' :
  buildViewpointReference (VDict items) m = (Return loc, m') →
  ∃ r, heap m' !! loc = Some r
       ∧ vr_viewpoint r = None
       ∧ (dict_get "Viewpoint" items = None → vr_file r = Raw VNone)
       ∧ (dict_get "Snapshot" items = None → vr_snapshot r = Raw VNone)
       ∧ (dict_get "Index" items = None → vr_index r = VInt (-1)).
Proof.
  unfold buildViewpointReference. intros Hb. builder_inv Hb.
  eexists. split; [by apply list_lookup_middle|].
  split; [done|]. split_and!; absent.
Qed.

Lemma buildComment_defaults `{Decoders} items m c m' :
  buildComment (VDict items) m = (Return c, m') →
  (dict_get "ModifiedAuthor" items = None → c_modAuthor c = VStr "")
  ∧ (dict_get "ModifiedDate" items = None → c_modDate c = None)
  ∧ (dict_get "Viewpoint" items = None → c_viewpoint c = Raw VNone).
Proof.
  unfold buildComment. intros Hb. builder_inv Hb.
  all: split_and!; absent.
Qed.

Lemma buildDocRef_defaults `{Decoders} items d :
  buildDocRef (VDict items) = Return d →
  (dict_get "Description" items = None → dr_description d = VNone)
  ∧ (dict_get "ReferencedDocument" items = None → dr_reference d = Raw VNone)
  ∧ (dict_get "@Guid" items = None → dr_id d = Raw VNone)
  ∧ (dict_get "@isExternal" items = None → dr_external d = VBool false).
Proof.
  unfold buildDocRef. intros Hb. builder_inv Hb.
  all: split_and!; absent.
Qed.

Lemma buildBimSnippet_defaults items s :
  buildBimSnippet (VDict items) = Return s →
  dict_get "@isExternal" items = None → bs_external s = VBool false.
Proof.
  unfold buildBimSnippet. intros Hb. builder_inv Hb. absent.
Qed.

Lemma buildFile_defaults `{Decoders} items f :
  buildFile (VDict items) = Return f →
  (dict_get "Filename" items = None → hf_filename f = VStr "")
  ∧ (dict_get "Date" items = None → hf_time f = Raw VNone)
  ∧ (dict_get "Reference" items = None → hf_reference f = Raw (VStr ""))
  ∧ (dict_get "@IfcProject" items = None → hf_ifcProjectId f = VStr "")
  ∧ (dict_get "@IfcSpatialStructureElement" items = None →
     hf_ifcSpatialStructureElement f = VStr "")
  ∧ (dict_get "@isExternal" items = None → hf_isExternal f = VBool true).
Proof.
  unfold buildFile. intros Hb. builder_inv Hb.
  all: split_and!; absent.
Qed.

Lemma buildViewSetupHints_defaults items h :
  buildViewSetupHints (VDict items) = Return h →
  (dict_get "@SpacesVisible" items = None → vsh_spacesVisible h = VBool false)
  ∧ (dict_get "@SpaceBoundariesVisible" items = None →
     vsh_spaceBoundariesVisible h = VBool false)
  ∧ (dict_get "@OpeningsVisible" items = None → vsh_openingsVisible h = VBool false).
Proof.
  unfold buildViewSetupHints. intros Hb. builder_inv Hb.
  all: split_and!; absent.
Qed.

Lemma buildComponent_defaults items c :
  buildComponent (VDict items) = Return c →
  (dict_get "@IfcGuid" items = None → cmp_id c = VNone)
  ∧ (dict_get "AuthoringToolId" items = None → cmp_authoringToolId c = VStr "")
  ∧ (dict_get "OriginatingSystem" items = None →
     cmp_originatingSystem c = VStr "").
Proof.
  unfold buildComponent. intros Hb. builder_inv Hb.
  all: split_and!; absent.
Qed.

Lemma buildComponents_defaults items cs :
  buildComponents (VDict items) = Return cs →
  (dict_get "ViewSetupHints" items = None → cs_viewSetupHints cs = None)
  ∧ (dict_get "Selection" items = None → cs_selection cs = [])
  ∧ (dict_get "Coloring" items = None → cs_colouring cs = [])
  ∧ (∀ vis, dict_get "Visibility" items = Some (VDict vis) →
       dict_get "@DefaultVisibility" vis = None →
       cs_defaultVisibility cs = VBool true)
  ∧ (∀ vis, dict_get "Visibility" items = Some (VDict vis) →
       dict_get "Exceptions" vis = None → cs_exceptions cs = []).
Proof.
  unfold buildComponents. intros Hb. builder_inv Hb.
  all: split_and!; first [absent | absent_in].
Qed.

Lemma buildViewpoint_defaults `{Decoders} items vp :
  buildViewpoint_record (VDict items) = Return vp →
  (dict_get "Components" items = None → vp_components vp = None)
  ∧ (dict_get "OrthogonalCamera" items = None → vp_oCamera vp = None)
  ∧ (dict_get "PerspectiveCamera" items = None → vp_pCamera vp = None)
  ∧ (dict_get "Lines" items = None → vp_lines vp = [])
  ∧ (dict_get "ClippingPlanes" items = None → vp_clippingPlanes vp = [])
  ∧ (dict_get "Bitmap" items = None → vp_bitmaps vp = []).
Proof.
  unfold buildViewpoint_record. intros Hb. builder_inv Hb.
  all: split_and!; absent.
Qed.




(** ** reader.py: the defaults the builders pass *)

(** X20: a builder that returns gives every optional field that is absent
    from the record the default its code passes: the empty string for
    optional text, except that the description of a document reference and
    the IFC identifier of a component get [None]; -1 for an order index;
    [False] for the external flag of a snippet or a document reference and
    for the view setup hints, [True] for the external flag of a header file
    and for the default visibility; [None] for dates, snippet, locators,
    identifiers, cameras and component sets; the empty list for lists. *)
Theorem absent_fields_get_builder_defaults `{Decoders} (items : list (string * value)) :
  (∀ t, buildTopic (VDict items) = Return t →
     (dict_get "@TopicStatus" items = None → t_status t = VStr "")
     ∧ (dict_get "@TopicType" items = None → t_type t = VStr "")
     ∧ (dict_get "Priority" items = None → t_priority t = VStr "")
     ∧ (dict_get "ModifiedAuthor" items = None → t_modAuthor t = VStr "")
     ∧ (dict_get "AssignedTo" items = None → t_assignee t = VStr "")
     ∧ (dict_get "Stage" items = None → t_stage t = VStr "")
     ∧ (dict_get "Description" items = None → t_description t = VStr "")
     ∧ (dict_get "Index" items = None → t_index t = VInt (-1))
     ∧ (dict_get "ModifiedDate" items = None → t_modDate t = None)
     ∧ (dict_get "DueDate" items = None → t_dueDate t = None)
     ∧ (dict_get "BimSnippet" items = None → t_bimSnippet t = None)
     ∧ (dict_get "Labels" items = None → t_labels t = VList [])
     ∧ (dict_get "DocumentReference" items = None → t_docRefs t = [])
     ∧ (dict_get "RelatedTopic" items = None → t_relatedTopics t = [])
     ∧ (dict_get "ReferenceLink" items = None → t_referenceLinks t = VList []))
  ∧ (∀ m loc m', buildViewpointReference (VDict items) m = (Return loc, m') →
     ∃ r, heap m' !! loc = Some r
          ∧ vr_viewpoint r = None
          ∧ (dict_get "Viewpoint" items = None → vr_file r = Raw VNone)
          ∧ (dict_get "Snapshot" items = None → vr_snapshot r = Raw VNone)
          ∧ (dict_get "Index" items = None → vr_index r = VInt (-1)))
  ∧ (∀ m c m', buildComment (VDict items) m = (Return c, m') →
     (dict_get "ModifiedAuthor" items = None → c_modAuthor c = VStr "")
     ∧ (dict_get "ModifiedDate" items = None → c_modDate c = None)
     ∧ (dict_get "Viewpoint" items = None → c_viewpoint c = Raw VNone))
  ∧ (∀ d, buildDocRef (VDict items) = Return d →
     (dict_get "Description" items = None → dr_description d = VNone)
     ∧ (dict_get "ReferencedDocument" items = None → dr_reference d = Raw VNone)
     ∧ (dict_get "@Guid" items = None → dr_id d = Raw VNone)
     ∧ (dict_get "@isExternal" items = None → dr_external d = VBool false))
  ∧ (∀ s, buildBimSnippet (VDict items) = Return s →
     dict_get "@isExternal" items = None → bs_external s = VBool false)
  ∧ (∀ f, buildFile (VDict items) = Return f →
     (dict_get "Filename" items = None → hf_filename f = VStr "")
     ∧ (dict_get "Date" items = None → hf_time f = Raw VNone)
     ∧ (dict_get "Reference" items = None → hf_reference f = Raw (VStr ""))
     ∧ (dict_get "@IfcProject" items = None → hf_ifcProjectId f = VStr "")
     ∧ (dict_get "@IfcSpatialStructureElement" items = None →
        hf_ifcSpatialStructureElement f = VStr "")
     ∧ (dict_get "@isExternal" items = None → hf_isExternal f = VBool true))
  ∧ (∀ h, buildViewSetupHints (VDict items) = Return h →
     (dict_get "@SpacesVisible" items = None → vsh_spacesVisible h = VBool false)
     ∧ (dict_get "@SpaceBoundariesVisible" items = None →
        vsh_spaceBoundariesVisible h = VBool false)
     ∧ (dict_get "@OpeningsVisible" items = None →
        vsh_openingsVisible h = VBool false))
  ∧ (∀ c, buildComponent (VDict items) = Return c →
     (dict_get "@IfcGuid" items = None → cmp_id c = VNone)
     ∧ (dict_get "AuthoringToolId" items = None → cmp_authoringToolId c = VStr "")
     ∧ (dict_get "OriginatingSystem" items = None →
        cmp_originatingSystem c = VStr ""))
  ∧ (∀ cs, buildComponents (VDict items) = Return cs →
     (dict_get "ViewSetupHints" items = None → cs_viewSetupHints cs = None)
     ∧ (dict_get "Selection" items = None → cs_selection cs = [])
     ∧ (dict_get "Coloring" items = None → cs_colouring cs = [])
     ∧ (∀ vis, dict_get "Visibility" items = Some (VDict vis) →
          dict_get "@DefaultVisibility" vis = None →
          cs_defaultVisibility cs = VBool true)
     ∧ (∀ vis, dict_get "Visibility" items = Some (VDict vis) →
          dict_get "Exceptions" vis = None → cs_exceptions cs = []))
  ∧ (∀ vp, buildViewpoint_record (VDict items) = Return vp →
     (dict_get "Components" items = None → vp_components vp = None)
     ∧ (dict_get "OrthogonalCamera" items = None → vp_oCamera vp = None)
     ∧ (dict_get "PerspectiveCamera" items = None → vp_pCamera vp = None)
     ∧ (dict_get "Lines" items = None → vp_lines vp = [])
     ∧ (dict_get "ClippingPlanes" items = None → vp_clippingPlanes vp = [])
     ∧ (dict_get "Bitmap" items = None → vp_bitmaps vp = [])).
Proof.
  split_and!.
  - apply buildTopic_defaults.
  - apply buildViewpointReference_defaults.
  - apply buildComment_defaults.
  - apply buildDocRef_defaults.
  - apply buildBimSnippet_defaults.
  - apply buildFile_defaults.
  - apply buildViewSetupHints_defaults.
  - apply buildComponent_defaults.
  - apply buildComponents_defaults.
  - apply buildViewpoint_defaults.
Qed.

Lemma absent_fields_get_builder_defaults_witness :
  ∃ t, @buildTopic sample_decoders (VDict minimal_topic) = Return t
       ∧ t_status t = VStr "" ∧ t_description t = VStr ""
       ∧ t_index t = VInt (-1)
       ∧ t_modDate t = None ∧ t_bimSnippet t = None ∧ t_docRefs t = [].
Proof.
  destruct (@buildTopic sample_decoders (VDict minimal_topic)) as [t|e] eqn:Hb;
    [|discriminate Hb].
  exists t. split; [reflexivity|].
  destruct (@absent_fields_get_builder_defaults sample_decoders minimal_topic)
    as [Htopic _].
  destruct (Htopic t Hb)
    as (Hs & _ & _ & _ & _ & _ & Hd & Hi & Hm & _ & Hb' & _ & Hr & _).
  repeat split; [apply Hs|apply Hd|apply Hi|apply Hm|apply Hb'|apply Hr];
    reflexivity.
Defined.

(** ** reader.py: coloring entries *)

Lemma buildComponentColour_cases ccDict :
  match getOptionalFromDict ccDict "@Color" VNone with
  | Return colour =>
      (∀ cc, buildComponentColour ccDict = Return (Some cc)
             ↔ truthy colour = true
               ∧ cc_colour cc = colour
               ∧ buildComponentList ccDict = Return (cc_components cc))
      ∧ (buildComponentColour ccDict = Return None ↔ truthy colour = false)
      ∧ (∀ e, buildComponentColour ccDict = Raise e
              ↔ truthy colour = true ∧ buildComponentList ccDict = Raise e)
  | Raise e => buildComponentColour ccDict = Raise e
  end.
Proof.
  unfold buildComponentColour.
  destruct (getOptionalFromDict ccDict "@Color" VNone) as [colour|e]; [|done].
  unfold mbind, result_bind.
  destruct (truthy colour).
  - destruct (buildComponentList ccDict) as [cl|e].
    + split_and!.
      * intros [colour' cl']. simpl. split.
        -- by intros [= <- <-].
        -- by intros (_ & <- & [= <-]).
      * by split.
      * intros e. split; [done|]. by intros [_ ?].
    + split_and!.
      * intros cc. split; [done|]. by intros (_ & _ & ?).
      * by split.
      * intros e'. split; [by intros [= ->]|]. by intros [_ [= ->]].
  - split_and!.
    + intros cc. split; [done|]. by intros [? _].
    + by split.
    + intros e. split; [done|]. by intros [? _].
Qed.

Lemma buildComponentColour_no_Component items colour :
  dict_get "@Color" items = Some colour → truthy colour = true →
  dict_get "Component" items = None →
  buildComponentColour (VDict items) = Raise (KeyError "Component").
Proof.
  intros Hc Ht Hn. unfold buildComponentColour.
  rewrite getOptionalFromDict_dict, Hc. simpl. rewrite Ht.
  unfold buildComponentList, subscript. by rewrite Hn.
Qed.

Lemma buildComponents_colouring items cs :
  buildComponents (VDict items) = Return cs →
  (dict_get "Coloring" items = None → cs_colouring cs = [])
  ∧ (∀ v, dict_get "Coloring" items = Some v → truthy v = false →
       cs_colouring cs = [])
  ∧ (∀ v, dict_get "Coloring" items = Some v →
       subscript v "Color" = Return (VList []) → cs_colouring cs = [])
  ∧ (∀ v records, dict_get "Coloring" items = Some v → truthy v = true →
       subscript v "Color" = Return (VList records) →
       comprehension buildComponentColour records = Return (cs_colouring cs)).
Proof.
  unfold buildComponents. intros Hb. builder_inv Hb.
  all: split_and!; [absent|..].
  all: try (intros v Hv Ht; rewrite Hv in *; simpl in *; by simplify_eq/=).
  all: try (intros v Hv Hs; rewrite Hv in *; simpl in *;
            try rewrite Hs in *; by simplify_eq/=).
  all: intros v records Hv Ht Hs; rewrite Hv in *; simpl in *;
         try rewrite Hs in *; first [by simplify_eq/= | congruence].
Qed.

(** C7, amended: for a color record, [buildComponentColour] constructs a
    coloring entry exactly when the color value of the record is present
    and non-empty and the component list of the record builds, and the
    entry carries that value and those components; it returns [None]
    exactly when the color value is absent or empty; otherwise it raises,
    with the exception of the component list: a record with a color value
    and no component entry gives [KeyError "Component"].  A components
    record that builds gets one place in its coloring list per color
    record, the entry or [None]; and a coloring section that is absent,
    empty, or without color records gives the same empty list. *)
Theorem coloring_entries_follow_color_values :
  (∀ ccDict,
     match getOptionalFromDict ccDict "@Color" VNone with
     | Return colour =>
         (∀ cc, buildComponentColour ccDict = Return (Some cc)
                ↔ truthy colour = true
                  ∧ cc_colour cc = colour
                  ∧ buildComponentList ccDict = Return (cc_components cc))
         ∧ (buildComponentColour ccDict = Return None ↔ truthy colour = false)
         ∧ (∀ e, buildComponentColour ccDict = Raise e
                 ↔ truthy colour = true ∧ buildComponentList ccDict = Raise e)
     | Raise e => buildComponentColour ccDict = Raise e
     end)
  ∧ (∀ items,
     getOptionalFromDict (VDict items) "@Color" VNone
     = Return (default VNone (dict_get "@Color" items)))
  ∧ (∀ items colour,
     dict_get "@Color" items = Some colour → truthy colour = true →
     dict_get "Component" items = None →
     buildComponentColour (VDict items) = Raise (KeyError "Component"))
  ∧ (∀ items cs,
     buildComponents (VDict items) = Return cs →
     (dict_get "Coloring" items = None → cs_colouring cs = [])
     ∧ (∀ v, dict_get "Coloring" items = Some v → truthy v = false →
          cs_colouring cs = [])
     ∧ (∀ v, dict_get "Coloring" items = Some v →
          subscript v "Color" = Return (VList []) → cs_colouring cs = [])
     ∧ (∀ v records, dict_get "Coloring" items = Some v → truthy v = true →
          subscript v "Color" = Return (VList records) →
          comprehension buildComponentColour records = Return (cs_colouring cs))).
Proof.
  split_and!.
  - apply buildComponentColour_cases.
  - intros items. apply getOptionalFromDict_dict.
  - apply buildComponentColour_no_Component.
  - apply buildComponents_colouring.
Qed.

Example buildComponentColour_ex :
  buildComponentColour sample_color_record
  = Return (Some (mkComponentColour (VStr "FF00FF00")
                    [mkComponent (VStr "0fdpeZZEX3FwJ7x0ox5kzF") (VStr "") (VStr "")]))
  ∧ buildComponentColour (VDict [("Component", VList [])]) = Return None
  ∧ buildComponentColour (VDict [("@Color", VStr "")]) = Return None
  ∧ buildComponentColour (VDict [("@Color", VStr "FF00FF00")])
    = Raise (KeyError "Component").
Proof. repeat split; reflexivity. Qed.

Example buildComponents_blank_color_ex :
  cs_colouring <$> buildComponents components_with_blank_color = Return [None].
Proof. reflexivity. Qed.

(** C7 as stated fails: a color record that carries a color value and no
    component gets no coloring entry, the builder raises; and a coloring
    section that is present and yields no entry, because it has no color
    record or is an empty element, is represented exactly as an absent
    one. *)
Lemma color_value_without_entry_and_empty_coloring :
  buildComponentColour (VDict [("@Color", VStr "FF00FF00")])
  = Raise (KeyError "Component")
  ∧ ∃ cs, buildComponents components_without_coloring = Return cs
          ∧ buildComponents components_with_no_colors = Return cs
          ∧ buildComponents components_with_empty_coloring = Return cs
          ∧ cs_colouring cs = [].
Proof. split; [reflexivity|]. eexists. by repeat split. Qed.

(** ** reader.py: buildMarkup and the viewpoints of its comments *)
Lemma M_bind_inv {A B} (c : M A) (k : A → M B) m b m' :
  (c ≫= k) m = (Return b, m') →
  ∃ a m1, c m = (Return a, m1) ∧ k a m1 = (Return b, m').
Proof.
  unfold mbind, M_bind. destruct (c m) as [[a|e] m1]; [eauto|done].
Qed.

Lemma M_bind_Return {A B} (c : M A) (k : A → M B) m a m1 :
  c m = (Return a, m1) → (c ≫= k) m = k a m1.
Proof. unfold mbind, M_bind. by intros ->. Qed.

Lemma lift_inv {A} (r : result A) m a m' :
  lift r m = (Return a, m') → r = Return a ∧ m' = m.
Proof. unfold lift. by intros [= -> ->]. Qed.


Lemma heap_extends_refl m : heap_extends m m.
Proof. exists []. by rewrite app_nil_r. Qed.

Lemma heap_extends_trans m1 m2 m3 :
  heap_extends m1 m2 → heap_extends m2 m3 → heap_extends m1 m3.
Proof. intros [n1 H1] [n2 H2]. exists (n1 ++ n2). by rewrite H2, H1, app_assoc. Qed.

Lemma heap_extends_lookup m m' loc r :
  heap_extends m m' → heap m !! loc = Some r → heap m' !! loc = Some r.
Proof. intros [new ->] Hl. by apply lookup_app_l_Some. Qed.

Lemma for_each_extends {A B} (f : A → M B) (Q : B → Mem → Prop) :
  (∀ x m y m', f x m = (Return y, m') → heap_extends m m' ∧ Q y m') →
  (∀ y m m', Q y m → heap_extends m m' → Q y m') →
  ∀ l m ys m', for_each f l m = (Return ys, m') →
    heap_extends m m' ∧ Forall (λ y, Q y m') ys.
Proof.
  intros Hf Hmono. induction l as [|x l IH]; intros m ys m' Hrun; simpl in Hrun.
  - injection Hrun as <- <-. split; [apply heap_extends_refl|constructor].
  - apply M_bind_inv in Hrun as (y & m1 & Hy & Hrun).
    apply M_bind_inv in Hrun as (ys' & m2 & Hys & Hrun).
    injection Hrun as <- <-.
    apply Hf in Hy as [Hext1 HQ]. apply IH in Hys as [Hext2 Hall].
    split; [by eapply heap_extends_trans|]. constructor; [by eapply Hmono|done].
Qed.

Lemma comment_ok_mono c m m' :
  comment_ok (heap m) c → heap_extends m m' → comment_ok (heap m') c.
Proof.
  unfold comment_ok. destruct (c_viewpoint c) as [raw|v]; [|done].
  intros [r Hr] Hext. exists r. by eapply heap_extends_lookup.
Qed.

Lemma buildComment_ok `{Decoders} commentDict m c m' :
  buildComment commentDict m = (Return c, m') →
  heap_extends m m' ∧ comment_ok (heap m') c.
Proof.
  unfold buildComment. intros Hb. builder_inv Hb; unfold comment_ok; simpl.
  - split; [by eexists|]. eexists. by apply list_lookup_middle.
  - split; [apply heap_extends_refl|done].
Qed.

Lemma buildViewpointReference_extends `{Decoders} viewpointDict m loc m' :
  buildViewpointReference viewpointDict m = (Return loc, m') →
  heap_extends m m' ∧ is_Some (heap m' !! loc).
Proof.
  unfold buildViewpointReference. intros Hb. builder_inv Hb.
  split; [by eexists|]. eexists. by apply list_lookup_middle.
Qed.

Tactic Notation "bind_inv" hyp(H) "as" ident(a) ident(m1) ident(Ha) :=
  apply M_bind_inv in H as (a & m1 & Ha & H);
  try (apply lift_inv in Ha as [Ha ->]).

(** The optional header of [buildMarkup] leaves the memory alone. *)
Lemma header_step_pure `{Decoders} (headerDict : value) m header m' :
  (if truthy headerDict
   then n ← lift (py_len headerDict);
        if bool_decide (0 < n)%nat then Some <$> lift (buildHeader headerDict)
        else mret None
   else mret None) m = (Return header, m') → m' = m.
Proof.
  destruct (truthy headerDict); [|by intros [= _ ->]].
  intros Hh. bind_inv Hh as n m1 Hn. case_bool_decide; [|by injection Hh as _ ->].
  unfold fmap, M_fmap, lift in Hh. destruct (buildHeader headerDict); by simplify_eq.
Qed.

Lemma buildMarkup_unresolved_ok `{Decoders} markupDict m markup m' :
  buildMarkup_unresolved markupDict m = (Return markup, m') →
  heap_extends m m'
  ∧ Forall (comment_ok (heap m')) (m_comments markup)
  ∧ Forall (λ loc, is_Some (heap m' !! loc)) (m_viewpoints markup).
Proof.
  unfold buildMarkup_unresolved. intros Hb.
  bind_inv Hb as commentList mc Hcl. bind_inv Hb as commentItems mc Hci.
  bind_inv Hb as comments mc Hcs.
  bind_inv Hb as topicDict mt Htd. bind_inv Hb as topic mt Ht.
  bind_inv Hb as headerDict mh Hhd. bind_inv Hb as header mh Hh.
  apply header_step_pure in Hh as ->.
  bind_inv Hb as viewpointList mv Hvl. bind_inv Hb as viewpointItems mv Hvi.
  bind_inv Hb as viewpoints mv Hvs. injection Hb as <- <-. simpl.
  apply (for_each_extends buildComment (λ c m, comment_ok (heap m) c)) in Hcs
    as [Hext1 Hcs]; [|by apply @buildComment_ok|by apply @comment_ok_mono].
  apply (for_each_extends buildViewpointReference
           (λ loc m, is_Some (heap m !! loc))) in Hvs as [Hext2 Hvs];
    [|by apply @buildViewpointReference_extends|].
  2: { intros loc ma mb [r Hr] Hext. exists r. by eapply heap_extends_lookup. }
  split_and!; [by eapply heap_extends_trans| |done].
  eapply List.Forall_impl; [|exact Hcs]. intros c Hc. simpl in Hc. by eapply comment_ok_mono.
Qed.

Lemma getViewpointRefByGuid_Some h viewpoints guid loc :
  getViewpointRefByGuid h viewpoints guid = Some loc →
  loc ∈ viewpoints ∧ ∃ r, h !! loc = Some r ∧ vr_id r = guid.
Proof.
  induction viewpoints as [|x rest IH]; simpl; [done|].
  destruct (h !! x) as [r|] eqn:Hx.
  - case_bool_decide as Hid.
    + intros [= <-]. split; [left|]. by exists r.
    + intros Hrest. apply IH in Hrest as [? ?]. split; [by right|done].
  - intros Hrest. apply IH in Hrest as [? ?]. split; [by right|done].
Qed.

Lemma getViewpointRefByGuid_None h viewpoints guid :
  getViewpointRefByGuid h viewpoints guid = None →
  ∀ loc r, loc ∈ viewpoints → h !! loc = Some r → vr_id r ≠ guid.
Proof.
  induction viewpoints as [|x rest IH]; simpl; intros Hn loc r Hin Hr.
  - by apply elem_of_nil in Hin.
  - apply elem_of_cons in Hin as [->|Hin].
    + rewrite Hr in Hn. by case_bool_decide.
    + destruct (h !! x); [case_bool_decide; [done|]|]; by eapply IH.
Qed.

Lemma for_each_resolve viewpoints comments m :
  Forall (comment_ok (heap m)) comments →
  for_each (resolve_comment viewpoints) comments m
  = (Return (resolved (heap m) viewpoints <$> comments), m).
Proof.
  induction 1 as [|c cs Hc Hcs IH]; simpl; [done|].
  assert (resolve_comment viewpoints c m
          = (Return (resolved (heap m) viewpoints c), m)) as Hstep.
  { unfold resolve_comment, resolved, comment_ok, maybe_truthy in *.
    destruct (c_viewpoint c) as [raw|v].
    - destruct Hc as [r Hr]. unfold mbind, M_bind, deref, get_heap, mret, M_ret.
      by rewrite Hr.
    - by rewrite Hc. }
  rewrite (M_bind_Return _ _ _ _ _ Hstep), (M_bind_Return _ _ _ _ _ IH). done.
Qed.

(** X1: once the comments, the topic, the header and the viewpoint
    references of a markup are built, [buildMarkup] returns, in the same
    memory: the resolution never raises.  A comment that came with a
    viewpoint reference (its raw identifier is the one of the placeholder
    object [buildComment] made) afterwards holds a reference only to an
    object of the markup's own viewpoint list with that identifier, the
    object itself and no copy; it holds one whenever the list has an object
    with that identifier; and it holds [None] when the list has none; its
    other fields are as they were built.  A comment without one is left as
    it was, in every field.  The topic, the header and the viewpoint list
    of the markup are the ones built. *)
Theorem buildMarkup_resolves_comment_viewpoints `{Decoders}
    (markupDict : value) (m m1 : Mem) (built : Markup) :
  buildMarkup_unresolved markupDict m = (Return built, m1) →
  ∃ markup,
    buildMarkup_record markupDict m = (Return markup, m1)
    ∧ m_topic markup = m_topic built
    ∧ m_header markup = m_header built
    ∧ m_viewpoints markup = m_viewpoints built
    ∧ length (m_comments markup) = length (m_comments built)
    ∧ ∀ i before, m_comments built !! i = Some before →
        ∃ comment, m_comments markup !! i = Some comment ∧
          comment = set_comment_viewpoint (c_viewpoint comment) before ∧
          match c_viewpoint before with
          | Obj raw =>
              ∃ placeholder, heap m1 !! raw = Some placeholder
              ∧ (∀ found, c_viewpoint comment = Obj found →
                   found ∈ m_viewpoints markup
                   ∧ ∃ r, heap m1 !! found = Some r
                          ∧ vr_id r = vr_id placeholder)
              ∧ ((∃ loc r, loc ∈ m_viewpoints markup ∧ heap m1 !! loc = Some r
                           ∧ vr_id r = vr_id placeholder) →
                 ∃ found, c_viewpoint comment = Obj found)
              ∧ ((∀ loc r, loc ∈ m_viewpoints markup → heap m1 !! loc = Some r →
                           vr_id r ≠ vr_id placeholder) →
                 c_viewpoint comment = Raw VNone)
          | Raw v => comment = before ∧ truthy v = false
          end.
Proof.
  intros Hb. pose proof (buildMarkup_unresolved_ok _ _ _ _ Hb) as (_ & Hok & _).
  eexists. split.
  { unfold buildMarkup_record. rewrite (M_bind_Return _ _ _ _ _ Hb).
    unfold resolve_comments.
    rewrite (M_bind_Return _ _ _ _ _ (for_each_resolve _ _ _ Hok)). reflexivity. }
  simpl. do 3 (split; [done|]). split; [by rewrite length_fmap|].
  intros i before Hi. rewrite list_lookup_fmap, Hi. simpl.
  eexists. split; [reflexivity|].
  rewrite Forall_lookup in Hok. specialize (Hok _ _ Hi).
  unfold comment_ok, resolved in *.
  destruct (c_viewpoint before) as [raw|v] eqn:Hv.
  2: { split; [|done]. rewrite Hv. destruct before. simpl in Hv. by rewrite Hv. }
  destruct Hok as [placeholder Hp]. rewrite Hp. split; [done|].
  exists placeholder. simpl. split; [done|].
  destruct (getViewpointRefByGuid (heap m1) (m_viewpoints built)
              (vr_id placeholder)) as [found|] eqn:Hg.
  - apply getViewpointRefByGuid_Some in Hg. split_and!.
    + by intros ? [= <-].
    + by exists found.
    + intros Hnone. destruct Hg as (Hin & r & Hr & Hid). by destruct (Hnone _ _ Hin Hr).
  - split_and!; [done| |done].
    intros (loc & r & Hin & Hr & Hid).
    by destruct (getViewpointRefByGuid_None _ _ _ Hg _ _ Hin Hr).
Qed.

Lemma buildMarkup_resolves_comment_viewpoints_witness :
  ∃ built m1 markup,
    @buildMarkup_unresolved sample_decoders sample_markup_record empty_mem
      = (Return built, m1)
    ∧ @buildMarkup_record sample_decoders sample_markup_record empty_mem
      = (Return markup, m1)
    ∧ m_viewpoints markup = [2%nat]
    ∧ c_viewpoint <$> m_comments built = [Obj 0%nat; Obj 1%nat]
    ∧ c_viewpoint <$> m_comments markup = [Obj 2%nat; Raw VNone]
    ∧ vr_id <$> heap m1 = [mkUUID 5; mkUUID 7; mkUUID 5].
Proof.
  eassert (@buildMarkup_unresolved sample_decoders sample_markup_record empty_mem
           = (Return _, _)) as Hb by (vm_compute; reflexivity).
  destruct (@buildMarkup_resolves_comment_viewpoints sample_decoders
              sample_markup_record empty_mem _ _ Hb)
    as (markup & Hrec & _).
  eexists _, _, markup. split; [exact Hb|]. split; [exact Hrec|].
  vm_compute in Hrec. injection Hrec as <-.
  repeat split.
Defined.

(** ** reader.py: comments and the viewpoint references of their markup *)

Lemma raw_viewpoint_of_mono `{Decoders} m m' commentDict c :
  raw_viewpoint_of (heap m) commentDict c → heap_extends m m' →
  raw_viewpoint_of (heap m') commentDict c.
Proof.
  intros (vpRef & Hv & Hc) Hext. exists vpRef. split; [done|].
  destruct (truthy vpRef); [|done].
  destruct Hc as (guid & id & raw & placeholder & ? & ? & ? & Hl & ?).
  exists guid, id, raw, placeholder. split_and!; try done.
  by eapply heap_extends_lookup.
Qed.

Lemma buildComment_raw_viewpoint `{Decoders} commentDict m c m' :
  buildComment commentDict m = (Return c, m') →
  heap_extends m m' ∧ raw_viewpoint_of (heap m') commentDict c.
Proof.
  unfold buildComment. intros Hb.
  bind_inv Hb as guid m1 Hg. bind_inv Hb as id m1 Hid.
  bind_inv Hb as date m1 Hd. bind_inv Hb as cdate m1 Hcd.
  bind_inv Hb as author m1 Ha. bind_inv Hb as ma m1 Hma.
  bind_inv Hb as md m1 Hmd. bind_inv Hb as md' m1 Hmd'.
  bind_inv Hb as cs m1 Hcs. bind_inv Hb as v m1 Hv.
  bind_inv Hb as v' m1 Hv'. injection Hb as <- <-.
  unfold raw_viewpoint_of. simpl.
  destruct (truthy v) eqn:Ht.
  - bind_inv Hv' as g m2 Hg2. bind_inv Hv' as vid m2 Hvid.
    bind_inv Hv' as loc m2 Hloc. injection Hv' as <- <-.
    injection Hloc as <-.
    split; [by eexists|]. exists v. split; [done|]. rewrite Ht.
    exists g, vid, (length (heap m)), (ViewpointReference_of_id vid).
    split_and!; try done. simpl. by apply list_lookup_middle.
  - injection Hv' as <- <-. split; [apply heap_extends_refl|].
    exists v. split; [done|]. by rewrite Ht.
Qed.

Lemma for_each_extends2 {A B} (f : A → M B) (Q : A → B → Mem → Prop) :
  (∀ x m y m', f x m = (Return y, m') → heap_extends m m' ∧ Q x y m') →
  (∀ x y m m', Q x y m → heap_extends m m' → Q x y m') →
  ∀ l m ys m', for_each f l m = (Return ys, m') →
    heap_extends m m' ∧ Forall2 (λ x y, Q x y m') l ys.
Proof.
  intros Hf Hmono. induction l as [|x l IH]; intros m ys m' Hrun; simpl in Hrun.
  - injection Hrun as <- <-. split; [apply heap_extends_refl|constructor].
  - apply M_bind_inv in Hrun as (y & m1 & Hy & Hrun).
    apply M_bind_inv in Hrun as (ys' & m2 & Hys & Hrun).
    injection Hrun as <- <-.
    apply Hf in Hy as [Hext1 HQ]. apply IH in Hys as [Hext2 Hall].
    split; [by eapply heap_extends_trans|]. constructor; [by eapply Hmono|done].
Qed.

Lemma buildMarkup_unresolved_comments `{Decoders} markupDict m built m1 :
  buildMarkup_unresolved markupDict m = (Return built, m1) →
  ∃ commentList commentItems,
    getOptionalFromDict markupDict "Comment" (VList []) = Return commentList
    ∧ py_iter commentList = Return commentItems
    ∧ Forall2 (raw_viewpoint_of (heap m1)) commentItems (m_comments built).
Proof.
  unfold buildMarkup_unresolved. intros Hb.
  bind_inv Hb as commentList mc Hcl. bind_inv Hb as commentItems mc Hci.
  bind_inv Hb as comments mc Hcs.
  bind_inv Hb as topicDict mt Htd. bind_inv Hb as topic mt Ht.
  bind_inv Hb as headerDict mh Hhd. bind_inv Hb as header mh Hh.
  apply header_step_pure in Hh as ->.
  bind_inv Hb as viewpointList mv Hvl. bind_inv Hb as viewpointItems mv Hvi.
  bind_inv Hb as viewpoints mv Hvs. injection Hb as <- <-. simpl.
  exists commentList, commentItems. split; [done|]. split; [done|].
  apply (for_each_extends2 buildComment
           (λ commentDict c m, raw_viewpoint_of (heap m) commentDict c)) in Hcs
    as [_ Hcs]; [|by apply @buildComment_raw_viewpoint
                 |intros ????; by apply raw_viewpoint_of_mono].
  apply (for_each_extends buildViewpointReference
           (λ loc m, is_Some (heap m !! loc))) in Hvs as [Hext2 _];
    [|by apply @buildViewpointReference_extends|].
  2: { intros loc ma mb [r Hr] Hext. exists r. by eapply heap_extends_lookup. }
  eapply Forall2_impl; [|exact Hcs]. intros commentDict c Hc. simpl in Hc.
  by eapply raw_viewpoint_of_mono.
Qed.

(** C2: the loop that ends [buildMarkup] never raises: once the comments,
    the topic, the header and the viewpoint references of a markup record
    are built, the markup is returned, in the same memory.  In the markup
    returned, comment by comment in the order of the record: a comment
    whose record has a viewpoint entry holds, when some reference of the
    markup's own viewpoint list has the identifier of that entry, a
    reference of that list with that identifier, the object itself and no
    copy, and it holds [None] when no reference of the list has the
    identifier; a comment whose record has no viewpoint entry keeps the
    falsy value found.  The lookup by identifier is the one of
    [getViewpointRefByGuid]. *)
Theorem buildMarkup_links_comments_to_references `{Decoders} :
  (∀ markupDict m built m1,
     buildMarkup_unresolved markupDict m = (Return built, m1) →
     ∃ markup, buildMarkup_record markupDict m = (Return markup, m1))
  ∧ (∀ markupDict m markup m',
     buildMarkup_record markupDict m = (Return markup, m') →
     ∃ commentList commentItems,
       getOptionalFromDict markupDict "Comment" (VList []) = Return commentList
       ∧ py_iter commentList = Return commentItems
       ∧ Forall2
           (λ commentDict comment,
              ∃ vpRef,
                getOptionalFromDict commentDict "Viewpoint" VNone = Return vpRef
                ∧ if truthy vpRef
                  then ∃ guid id,
                         subscript vpRef "@Guid" = Return guid
                         ∧ UUID_parse guid = Return id
                         ∧ (∀ found, c_viewpoint comment = Obj found →
                              found ∈ m_viewpoints markup
                              ∧ ∃ r, heap m' !! found = Some r ∧ vr_id r = id)
                         ∧ ((∃ loc r, loc ∈ m_viewpoints markup
                                      ∧ heap m' !! loc = Some r ∧ vr_id r = id) →
                            ∃ found, c_viewpoint comment = Obj found)
                         ∧ ((∀ loc r, loc ∈ m_viewpoints markup →
                                      heap m' !! loc = Some r → vr_id r ≠ id) →
                            c_viewpoint comment = Raw VNone)
                  else c_viewpoint comment = Raw vpRef)
           commentItems (m_comments markup)).
Proof.
  split.
  - intros markupDict m built m1 Hb.
    pose proof (buildMarkup_unresolved_ok _ _ _ _ Hb) as (_ & Hok & _).
    eexists. unfold buildMarkup_record. rewrite (M_bind_Return _ _ _ _ _ Hb).
    unfold resolve_comments.
    by rewrite (M_bind_Return _ _ _ _ _ (for_each_resolve _ _ _ Hok)).
  - intros markupDict m markup m'. unfold buildMarkup_record. intros Hb.
    bind_inv Hb as built m1 Hu.
    pose proof (buildMarkup_unresolved_ok _ _ _ _ Hu) as (_ & Hok & _).
    destruct (buildMarkup_unresolved_comments _ _ _ _ Hu)
      as (commentList & commentItems & Hcl & Hci & Hraw).
    unfold resolve_comments in Hb.
    rewrite (M_bind_Return _ _ _ _ _ (for_each_resolve _ _ _ Hok)) in Hb.
    injection Hb as <- <-. simpl.
    exists commentList, commentItems. split; [done|]. split; [done|].
    apply Forall2_fmap_r. eapply Forall2_impl; [|exact Hraw].
    intros commentDict before (vpRef & Hv & Hc). exists vpRef. split; [done|].
    unfold resolved. destruct (truthy vpRef).
    + destruct Hc as (guid & id & raw & placeholder & Hg & Hid & Hcv & Hp & Hpid).
      exists guid, id. rewrite Hcv, Hp, Hpid. simpl. split; [done|]. split; [done|].
      destruct (getViewpointRefByGuid (heap m1) (m_viewpoints built) id)
        as [found|] eqn:Hfound.
      * apply getViewpointRefByGuid_Some in Hfound. split_and!.
        -- by intros ? [= <-].
        -- by exists found.
        -- intros Hnone. destruct Hfound as (Hin & r & Hr & Hrid).
           by destruct (Hnone _ _ Hin Hr).
      * split_and!; [done| |done].
        intros (loc & r & Hin & Hr & Hrid).
        by destruct (getViewpointRefByGuid_None _ _ _ Hfound _ _ Hin Hr).
    + by rewrite Hc.
Qed.

Lemma buildMarkup_links_comments_to_references_witness :
  ∃ markup m',
    @buildMarkup_record sample_decoders sample_markup_record empty_mem
    = (Return markup, m')
    ∧ m_viewpoints markup = [2%nat]
    ∧ vr_id <$> heap m' = [mkUUID 5; mkUUID 7; mkUUID 5]
    ∧ c_viewpoint <$> m_comments markup = [Obj 2%nat; Raw VNone]
    ∧ length (m_comments markup) = 2%nat.
Proof.
  eassert (@buildMarkup_unresolved sample_decoders sample_markup_record empty_mem
           = (Return _, _)) as Hb by (vm_compute; reflexivity).
  destruct (@buildMarkup_links_comments_to_references sample_decoders)
    as [Hreturns Hlinks].
  destruct (Hreturns _ _ _ _ Hb) as [markup Hrec].
  destruct (Hlinks _ _ _ _ Hrec) as (commentList & commentItems & Hcl & Hci & Hall).
  exists markup. eexists. split; [exact Hrec|].
  apply Forall2_length in Hall.
  vm_compute in Hcl. injection Hcl as <-. vm_compute in Hci. injection Hci as <-.
  vm_compute in Hrec. injection Hrec as <-.
  split; [reflexivity|]. split; [reflexivity|]. split; [reflexivity|].
  symmetry. exact Hall.
Defined.

(** ** reader.py: the loader *)

Lemma M_bind_Raise {A B} (c : M A) (k : A → M B) m e m1 :
  c m = (Raise e, m1) → (c ≫= k) m = (Raise e, m1).
Proof. unfold mbind, M_bind. by intros ->. Qed.

Lemma pprint_aborted {T} (w : World) (e : event) (m : Mem) :
  load_aborted (T:=T) m ((pprint w e ≫= λ _, mret None) m).
Proof.
  unfold load_aborted, pprint, mbind, M_bind. by destruct (DEBUG w).
Qed.

(** X2: when the extracted archive has no [bcf.version], and when the version
    identifier read from it is not a supported one, [readBcfFile] returns no
    project (it returns [None] or raises), builds no object and leaves
    [bcfDir] as it was. *)
Theorem readBcfFile_version_gate `{Decoders} (w : World) (bcfFile : string) (m : Mem) :
  version_file_missing w bcfFile = true ∨ version_unsupported w bcfFile = true →
  (∀ p, (readBcfFile w bcfFile m).1 ≠ Return (Some p))
  ∧ heap (readBcfFile w bcfFile m).2 = heap m
  ∧ bcfDir (readBcfFile w bcfFile m).2 = bcfDir m.
Proof.
  change (version_file_missing w bcfFile = true
          ∨ version_unsupported w bcfFile = true
          → load_aborted m (readBcfFile w bcfFile m)).
  unfold version_file_missing, version_unsupported, readBcfFile.
  destruct (copySchemas w (getSystemTmp w)) as [[[[ps es] ms] vs] vis].
  destruct ps as [ps|], ms as [ms|], vs as [vs|], vis as [vis|];
    try (intros _; by unfold load_aborted).
  destruct (extractFileToTmp w bcfFile) as [x|e] eqn:Hx;
    [|intros _; by unfold load_aborted].
  unfold mbind at 1, M_bind at 1, lift at 1. simpl.
  destruct (os_path_exists w (os_path_join x "bcf.version")) eqn:Hex; simpl.
  - intros [?|Hv]; [done|].
    destruct (validateFile w _ vs bcfFile) as [error|e] eqn:Hval;
      unfold mbind at 1, M_bind at 1, lift at 1; [|done].
    destruct (negb (String.eqb error "")).
    + apply pprint_aborted.
    + destruct (getVersion w x vs) as [v|e] eqn:Hgv; [|done].
      unfold mbind at 1, M_bind at 1, lift at 1. simpl.
      rewrite Hv. apply pprint_aborted.
  - intros _. by destruct (printErr_takes_file w).
Qed.

Lemma readBcfFile_version_gate_witness :
  (version_file_missing old_version_world "issues.bcf" = true
   ∨ version_unsupported old_version_world "issues.bcf" = true)
  ∧ (∀ p, (@readBcfFile sample_decoders old_version_world "issues.bcf" empty_mem).1
          ≠ Return (Some p))
  ∧ heap (@readBcfFile sample_decoders old_version_world "issues.bcf" empty_mem).2
    = heap empty_mem
  ∧ bcfDir (@readBcfFile sample_decoders old_version_world "issues.bcf" empty_mem).2
    = bcfDir empty_mem.
Proof.
  split; [right; reflexivity|].
  apply (@readBcfFile_version_gate sample_decoders old_version_world "issues.bcf"
           empty_mem).
  right. reflexivity.
Defined.

Example readBcfFile_no_version_file_ex :
  (@readBcfFile sample_decoders (world_of [] ["topic-1"]) "issues.bcf" empty_mem).1
  = Raise TypeError
  ∧ (@readBcfFile sample_decoders (world_of [version_file "2.0"] []) "issues.bcf"
       empty_mem).1 = Raise (NameError "pprint").
Proof. split; reflexivity. Qed.

(** ** reader.py: the viewpoints of a topic *)

Section attach.
Context `{Decoders} (w : World) (topic topicDir schema : string).

Lemma viewpoint_outcome_attached r :
  viewpoint_outcome w topicDir schema (attached w topicDir schema r)
  = viewpoint_outcome w topicDir schema r.
Proof.
  unfold attached. destruct (viewpoint_outcome w topicDir schema r) eqn:Ho; [|done].
  unfold viewpoint_outcome in *. simpl. done.
Qed.

Lemma attached_idemp r :
  attached w topicDir schema (attached w topicDir schema r)
  = attached w topicDir schema r.
Proof.
  unfold attached at 1. rewrite viewpoint_outcome_attached.
  unfold attached. destruct (viewpoint_outcome w topicDir schema r); done.
Qed.

Ltac run_attach Hr Hf Hu :=
  unfold attach_viewpoint, buildViewpoint, try;
  unfold mbind, M_bind, mret, M_ret, lift, raise, deref, update, emit;
  rewrite Hr; simpl; rewrite Hf; simpl; rewrite Hu; simpl.

Lemma attach_viewpoint_step loc r m :
  heap m !! loc = Some r →
  built_or_skipped (viewpoint_outcome w topicDir schema r) = true →
  ∃ m1 notices,
    attach_viewpoint w topic topicDir schema loc m = (Return (), m1)
    ∧ heap m1 = <[loc := attached w topicDir schema r]> (heap m)
    ∧ log m1 = log m ++ notices
    ∧ bcfDir m1 = bcfDir m
    ∧ ∀ key file, viewpoint_outcome w topicDir schema r = Raise (KeyError key) →
        vr_file r = Obj file → ViewpointSkipped key topic file ∈ notices.
Proof.
  intros Hr Hok. unfold attached.
  destruct (viewpoint_outcome w topicDir schema r) as [vp|e] eqn:Ho;
    [|destruct e as [key| | | | |]; try done];
    unfold viewpoint_outcome in Ho;
    destruct (vr_file r) as [file|v] eqn:Hf; try done;
    destruct (uri file) as [| | | |name| |] eqn:Hu; try done;
    destruct (schema_to_dict_lax w schema (os_path_join topicDir name))
      as [[vpDict errors]|e] eqn:Hd; simpl in Ho; simplify_eq.
  - exists (mkMem (alter (set_viewpoint vp) loc (heap m))
              (log m ++ [ErrorList errors]) (bcfDir m)), [ErrorList errors].
    split_and!; try done.
    + run_attach Hr Hf Hu. rewrite Hd. simpl. by rewrite Ho.
    + simpl. apply list_eq. intros j.
      rewrite list_lookup_alter, list_lookup_insert.
      apply lookup_lt_Some in Hr as Hlt.
      destruct (decide (loc = j)) as [<-|Hj].
      * rewrite Hr, decide_True by done. done.
      * rewrite decide_False by tauto. done.
  - exists (mkMem (heap m)
              ((log m ++ [ErrorList errors]) ++ [ViewpointSkipped key topic file])
              (bcfDir m)),
      [ErrorList errors; ViewpointSkipped key topic file].
    split_and!; try done.
    + run_attach Hr Hf Hu. rewrite Hd. simpl. by rewrite Ho.
    + simpl. by rewrite list_insert_id.
    + simpl. by rewrite <- app_assoc.
    + intros k f [= ->] [= ->]. repeat constructor.
  - exists (mkMem (heap m) (log m ++ [ViewpointSkipped key topic file]) (bcfDir m)),
      [ViewpointSkipped key topic file].
    split_and!; try done.
    + run_attach Hr Hf Hu. by rewrite Hd.
    + simpl. by rewrite list_insert_id.
    + intros k f [= ->] [= ->]. repeat constructor.
Qed.

Lemma vr_file_attached r :
  vr_file (attached w topicDir schema r) = vr_file r.
Proof. unfold attached. by destruct (viewpoint_outcome w topicDir schema r). Qed.


(** The loop over the viewpoint references, run from a memory in which
    each of its references is built or skipped. *)
Lemma attach_loop_run (locs : list nat) (m : Mem) :
  (∀ loc, loc ∈ locs →
     ∃ r, heap m !! loc = Some r
          ∧ built_or_skipped (viewpoint_outcome w topicDir schema r) = true) →
  ∃ m' notices,
    for_each (attach_viewpoint w topic topicDir schema) locs m
    = (Return (replicate (length locs) ()), m')
    ∧ (∀ j, heap m' !! j
            = if bool_decide (j ∈ locs)
              then attached w topicDir schema <$> heap m !! j
              else heap m !! j)
    ∧ log m' = log m ++ notices
    ∧ bcfDir m' = bcfDir m
    ∧ (∀ loc r key file, loc ∈ locs → heap m !! loc = Some r →
         viewpoint_outcome w topicDir schema r = Raise (KeyError key) →
         vr_file r = Obj file → ViewpointSkipped key topic file ∈ notices).
Proof.
  revert m. induction locs as [|loc rest IH]; intros m Hall.
  - exists m, []. split_and!; try done.
    + by rewrite app_nil_r.
    + intros loc r key file Hin. by apply elem_of_nil in Hin.
  - destruct (Hall loc) as (r & Hr & Hok); [by left|].
    destruct (attach_viewpoint_step loc r m Hr Hok)
      as (m1 & n1 & Hstep & Hheap1 & Hlog1 & Hdir1 & Hskip1).
    assert (Hlook1 : ∀ j, heap m1 !! j
              = if decide (j = loc) then Some (attached w topicDir schema r)
                else heap m !! j).
    { intros j. rewrite Hheap1, list_lookup_insert.
      apply lookup_lt_Some in Hr as Hlt.
      destruct (decide (j = loc)) as [->|Hj].
      - by rewrite decide_True.
      - rewrite decide_False; [done|]. intros [? _]. by apply Hj. }
    destruct (IH m1) as (m' & n2 & Hrun & Hheap & Hlog & Hdir & Hskip).
    { intros loc' Hin. destruct (Hall loc') as (r' & Hr' & Hok'); [by right|].
      rewrite Hlook1. destruct (decide (loc' = loc)) as [->|Hne].
      - eexists. split; [done|]. rewrite viewpoint_outcome_attached.
        by simplify_eq.
      - by exists r'. }
    exists m', (n1 ++ n2). split_and!.
    + simpl. unfold mbind at 1, M_bind at 1. rewrite Hstep.
      unfold mbind at 1, M_bind at 1. by rewrite Hrun.
    + intros j. rewrite Hheap, Hlook1.
      destruct (decide (j = loc)) as [->|Hj].
      * rewrite (bool_decide_eq_true_2 (loc ∈ loc :: rest)) by by left.
        rewrite Hr. simpl. case_bool_decide; [by rewrite attached_idemp|done].
      * case_bool_decide as Hin.
        -- by rewrite bool_decide_eq_true_2 by by right.
        -- rewrite bool_decide_eq_false_2; [done|].
           intros [?|?]%elem_of_cons; done.
    + by rewrite Hlog, Hlog1, app_assoc.
    + by rewrite Hdir.
    + intros loc' r' key file Hin Hr' Ho Hf. apply elem_of_app.
      apply elem_of_cons in Hin as [->|Hin].
      * left. assert (r' = r) as -> by congruence. by eapply Hskip1.
      * right. destruct (decide (loc' = loc)) as [->|Hne].
        -- assert (r' = r) as -> by congruence.
           eapply (Hskip loc (attached w topicDir schema r)); [done| | |].
           ++ rewrite Hlook1. by rewrite decide_True.
           ++ by rewrite viewpoint_outcome_attached.
           ++ by rewrite vr_file_attached.
        -- eapply (Hskip loc' r'); try done.
           rewrite Hlook1. by rewrite decide_False.
Qed.

(** X3: the loop of [readBcfFile] over the viewpoint references of a markup
    runs to its end whenever each reference has a file locator whose [uri]
    is a string and the viewpoint document of that name is either built or
    lacks a required key: a reference whose viewpoint was built gets it
    attached in place, a reference whose document lacks a key stays as it
    was and a notice naming the key, the topic and the file is written;
    no other object is touched and [bcfDir] stays.  A reference without a
    locator is outside these conditions: at [vpRef.file.uri] the loop
    raises. *)
Theorem viewpoint_loop_skips_only_failures (locs : list nat) (m : Mem) :
  (∀ loc, loc ∈ locs →
     ∃ r file name,
       heap m !! loc = Some r
       ∧ vr_file r = Obj file
       ∧ uri file = VStr name
       ∧ built_or_skipped (viewpoint_outcome w topicDir schema r) = true) →
  ∃ m' notices,
    for_each (attach_viewpoint w topic topicDir schema) locs m
    = (Return (replicate (length locs) ()), m')
    ∧ (∀ j, heap m' !! j
            = if bool_decide (j ∈ locs)
              then attached w topicDir schema <$> heap m !! j
              else heap m !! j)
    ∧ log m' = log m ++ notices
    ∧ bcfDir m' = bcfDir m
    ∧ (∀ loc r key file, loc ∈ locs → heap m !! loc = Some r →
         viewpoint_outcome w topicDir schema r = Raise (KeyError key) →
         vr_file r = Obj file → ViewpointSkipped key topic file ∈ notices).
Proof.
  intros Hall. apply attach_loop_run. intros loc Hin.
  destruct (Hall loc Hin) as (r & file & name & Hr & _ & _ & Hok).
  by exists r.
Qed.
End attach.

Lemma viewpoint_loop_skips_only_failures_witness :
  (∀ loc, loc ∈ [0; 1]%nat →
     ∃ r file name,
       heap two_references !! loc = Some r
       ∧ vr_file r = Obj file
       ∧ uri file = VStr name
       ∧ built_or_skipped
           (@viewpoint_outcome sample_decoders sample_world
              "/tmp/issues.bcf/topic-1" "/tmp/visinfo.xsd" r) = true)
  ∧ ∃ m' notices,
      for_each (@attach_viewpoint sample_decoders sample_world "topic-1"
                  "/tmp/issues.bcf/topic-1" "/tmp/visinfo.xsd") [0; 1]%nat
        two_references
      = (Return [(); ()], m')
      ∧ vr_viewpoint <$> heap m' = [Some both_cameras_viewpoint; None]
      ∧ log m' = log two_references ++ notices
      ∧ ViewpointSkipped "CameraDirection" "topic-1" (mkUri (VStr "broken.bcfv"))
        ∈ notices.
Proof.
  assert (∀ loc, loc ∈ [0; 1]%nat →
     ∃ r file name,
       heap two_references !! loc = Some r
       ∧ vr_file r = Obj file
       ∧ uri file = VStr name
       ∧ built_or_skipped
           (@viewpoint_outcome sample_decoders sample_world
              "/tmp/issues.bcf/topic-1" "/tmp/visinfo.xsd" r) = true) as Hall.
  { intros loc [->|[->|Hin%elem_of_nil]%elem_of_cons]%elem_of_cons; [| |done].
    - eexists _, _, _. split; [reflexivity|]. split; [reflexivity|].
      split; [reflexivity|]. vm_compute. reflexivity.
    - eexists _, _, _. split; [reflexivity|]. split; [reflexivity|].
      split; [reflexivity|]. vm_compute. reflexivity. }
  split; [exact Hall|].
  destruct (@viewpoint_loop_skips_only_failures sample_decoders sample_world
              "topic-1" "/tmp/issues.bcf/topic-1" "/tmp/visinfo.xsd"
              [0; 1]%nat two_references Hall)
    as (m' & notices & Hrun & Hheap & Hlog & _ & Hskip).
  exists m', notices. split_and!.
  - exact Hrun.
  - apply list_eq. intros j. rewrite list_lookup_fmap, Hheap.
    destruct j as [|[|j]]; reflexivity.
  - exact Hlog.
  - apply (Hskip 1%nat (sample_reference 8 "broken.bcfv")); [|reflexivity..].
    apply elem_of_cons. right. by left.
Defined.

(** ** reader.py: a load that returns a project *)

Section loader.
Context `{Decoders} (w : World) (bcfFile x markupSchema visinfoSchema : string).

Lemma read_topic_inv proj topic m proj' m' :
  read_topic w bcfFile x markupSchema visinfoSchema proj topic m
  = (Return proj', m') →
  markup_has_topic w x markupSchema topic
  ∧ ∃ p markup, proj = Some p ∧ proj' = Some (topicList_append markup p)
      ∧ m_containingObject markup = Some Self.
Proof.
  unfold read_topic. intros Hr.
  bind_inv Hr as error m0 Herr.
  bind_inv Hr as u m0 Hu. bind_inv Hr as markup m1 Hm.
  bind_inv Hr as units m2 Hat.
  split.
  - unfold buildMarkup in Hm. bind_inv Hm as de md Hd. destruct de as [markupDict errors].
    bind_inv Hm as u' me He. unfold buildMarkup_record in Hm.
    bind_inv Hm as built mf Hb. unfold buildMarkup_unresolved in Hb.
    bind_inv Hb as commentList mc Hcl. bind_inv Hb as commentItems mc Hci.
    bind_inv Hb as comments mc Hcs. bind_inv Hb as topicDict mt Htd.
    by exists markupDict, errors, topicDict.
  - destruct proj as [p|]; [|done]. injection Hr as <- <-. by eexists _, _.
Qed.

Lemma read_topics_inv topics proj m proj' m' :
  for_fold (read_topic w bcfFile x markupSchema visinfoSchema) topics proj m
  = (Return proj', m') →
  Forall (markup_has_topic w x markupSchema) topics
  ∧ ∀ p', proj' = Some p' →
      ∃ p markups, proj = Some p
        ∧ p' = mkProject (p_id p) (p_name p) (p_extSchemaSrc p)
                 (p_topicList p ++ markups) (p_state p)
        ∧ length markups = length topics
        ∧ Forall (λ markup, m_containingObject markup = Some Self) markups.
Proof.
  revert proj m. induction topics as [|topic rest IH]; intros proj m Hf; simpl in Hf.
  - injection Hf as <- <-. split; [constructor|].
    intros p' ->. exists p', []. rewrite app_nil_r. by destruct p'.
  - bind_inv Hf as s1 m1 Hstep.
    apply read_topic_inv in Hstep as (Htopic & p & markup & -> & -> & Hparent).
    apply IH in Hf as (Hrest & Hlist). split; [by constructor|].
    intros p' Hp'.
    destruct (Hlist p' Hp') as (p1 & markups & [= <-] & -> & Hlen & Hpar).
    exists p, (markup :: markups). split; [done|]. simpl.
    split_and!; [by rewrite <- app_assoc|by rewrite Hlen|by constructor].
Qed.
End loader.

Lemma buildProject_fresh `{Decoders} w file schema m p m' :
  buildProject w file schema m = (Return (Some p), m') →
  ∃ pId pName pExtensionSchema,
    p = Project_init pId pName pExtensionSchema ORIGINAL.
Proof.
  unfold buildProject. destruct file as [file|], schema as [schema|]; try done.
  destruct (negb (os_path_exists w file)); [done|].
  destruct (negb (os_path_exists w schema)); [done|].
  intros Hb. bind_inv Hb as de md Hd. destruct de as [projectDict errors].
  bind_inv Hb as u me He. bind_inv Hb as project mp Hp.
  bind_inv Hb as guid mg Hg. bind_inv Hb as pId mi Hi.
  bind_inv Hb as hasName mn Hn. bind_inv Hb as pName mn' Hpn.
  bind_inv Hb as hasSchema ms Hs. bind_inv Hb as pExt mx Hx.
  injection Hb as <- <-. by eexists _, _, _.
Qed.

Lemma eq_str_true v s : eq_str v s = true → v = VStr s.
Proof.
  destruct v; simpl; try done. by intros ->%String.eqb_eq.
Qed.

(** What a load that returned a project went through. *)
Lemma readBcfFile_inv `{Decoders} (w : World) (bcfFile : string)
    (m m' : Mem) (p : Project Markup) :
  readBcfFile w bcfFile m = (Return (Some p), m') →
  ∃ x projectSchema extensionSchema markupSchema versionSchema visinfoSchema
    pId pName pExtensionSchema markups,
    copySchemas w (getSystemTmp w)
    = (Some projectSchema, extensionSchema, Some markupSchema,
       Some versionSchema, Some visinfoSchema)
    ∧ extractFileToTmp w bcfFile = Return x
    ∧ os_path_exists w (os_path_join x "bcf.version") = true
    ∧ getVersion w x versionSchema = Return (VStr "2.1")
    ∧ bcfDir m' = x
    ∧ p = (let p0 := Project_init pId pName pExtensionSchema ORIGINAL in
         mkProject (p_id p0) (p_name p0) (p_extSchemaSrc p0)
           (p_topicList p0 ++ markups) (p_state p0))
    ∧ length markups = length (getDirectories w x)
    ∧ Forall (λ markup, m_containingObject markup = Some Self) markups
    ∧ Forall (markup_has_topic w x markupSchema) (getDirectories w x).
Proof.
  unfold readBcfFile. intros Hr.
  destruct (copySchemas w (getSystemTmp w)) as [[[[ps es] ms] vs] vis].
  destruct ps as [ps|], ms as [ms|], vs as [vs|], vis as [vis|]; try done.
  bind_inv Hr as x mx Hx.
  destruct (os_path_exists w (os_path_join x "bcf.version")) eqn:Hex; simpl in Hr;
    [|by destruct (printErr_takes_file w)].
  bind_inv Hr as error me Herr.
  destruct (negb (String.eqb error "")).
  { unfold pprint, mbind, M_bind in Hr. by destruct (DEBUG w). }
  bind_inv Hr as version mv Hv.
  destruct (eq_str version "2.1") eqn:Hsup; simpl in Hr; cycle 1.
  { unfold pprint, mbind, M_bind in Hr. by destruct (DEBUG w). }
  apply eq_str_true in Hsup as ->.
  bind_inv Hr as proj mp Hp. bind_inv Hr as proj' mt Ht. bind_inv Hr as u md Hd.
  injection Hr as -> <-.
  apply (read_topics_inv w bcfFile x ms vis) in Ht as (Htopics & Hlist).
  destruct (Hlist p eq_refl) as (p0 & markups & -> & -> & Hlen & Hpar).
  assert (∃ pId pName pExtensionSchema,
            p0 = Project_init pId pName pExtensionSchema ORIGINAL)
    as (pId & pName & pExt & ->).
  { destruct (os_path_exists w (os_path_join x "project.bcfp")) eqn:Hpe.
    - bind_inv Hp as perror mq Hperr.
      apply (buildProject_fresh w (Some (os_path_join x "project.bcfp"))
               (Some ps) m p0 mp).
      unfold buildProject. by rewrite Hpe.
    - injection Hp as <- <-. by eexists _, _, _. }
  exists x, ps, es, ms, vs, vis, pId, pName, pExt, markups.
  split_and!; done.
Qed.

(** X4: when [readBcfFile] returns a project, the schemas were at hand, the
    archive was extracted, its [bcf.version] exists and names version 2.1,
    [bcfDir] is the extraction directory, the project has one markup per
    topic directory, and the markup document of every topic directory
    decoded to a record with a ["Topic"] entry. *)
Theorem readBcfFile_success `{Decoders} (w : World) (bcfFile : string)
    (m m' : Mem) (p : Project Markup) :
  readBcfFile w bcfFile m = (Return (Some p), m') →
  ∃ x projectSchema extensionSchema markupSchema versionSchema visinfoSchema,
    copySchemas w (getSystemTmp w)
    = (Some projectSchema, extensionSchema, Some markupSchema,
       Some versionSchema, Some visinfoSchema)
    ∧ extractFileToTmp w bcfFile = Return x
    ∧ os_path_exists w (os_path_join x "bcf.version") = true
    ∧ getVersion w x versionSchema = Return (VStr "2.1")
    ∧ bcfDir m' = x
    ∧ length (p_topicList p) = length (getDirectories w x)
    ∧ Forall (markup_has_topic w x markupSchema) (getDirectories w x).
Proof.
  intros Hr.
  destruct (readBcfFile_inv w bcfFile m m' p Hr)
    as (x & ps & es & ms & vs & vis & pId & pName & pExt & markups
        & Hs & Hx & Hex & Hv & Hdir & -> & Hlen & _ & Htopics).
  exists x, ps, es, ms, vs, vis. split_and!; try done.
Qed.

Lemma readBcfFile_success_witness :
  ∃ p m',
    @readBcfFile sample_decoders sample_world "issues.bcf" empty_mem
    = (Return (Some p), m')
    ∧ bcfDir m' = "/tmp/issues.bcf"
    ∧ length (p_topicList p) = 1%nat
    ∧ Forall (markup_has_topic sample_world "/tmp/issues.bcf" "/tmp/markup.xsd")
        ["topic-1"].
Proof.
  eassert (@readBcfFile sample_decoders sample_world "issues.bcf" empty_mem
           = (Return (Some _), _)) as Hload by (vm_compute; reflexivity).
  destruct (@readBcfFile_success sample_decoders sample_world "issues.bcf" _ _ _ Hload)
    as (x & ps & es & ms & vs & vis & Hs & Hx & _ & _ & Hdir & Hlen & Htopics).
  injection Hs as _ _ <- _ _. injection Hx as <-.
  eexists _, _. split; [exact Hload|]. split_and!.
  - exact Hdir.
  - exact Hlen.
  - exact Htopics.
Defined.

(** X5: a project returned by [readBcfFile] is in state Original, its name
    and extension-schema wrappers are Original and point back at the
    project, every markup of its topic list has the project as containing
    object, and its pending-change list is made of the entries of its
    markups alone. *)
Theorem readBcfFile_project_is_original `{Decoders} `{StateList Markup}
    (w : World) (bcfFile : string) (m m' : Mem) (p : Project Markup) :
  readBcfFile w bcfFile m = (Return (Some p), m') →
  p_state p = ORIGINAL
  ∧ se_state (p_name p) = ORIGINAL
  ∧ se_state (p_extSchemaSrc p) = ORIGINAL
  ∧ se_containingObject (p_name p) = Some Self
  ∧ se_containingObject (p_extSchemaSrc p) = Some Self
  ∧ Forall (λ markup, m_containingObject markup = Some Self) (p_topicList p)
  ∧ Project_getStateList p = topics_getStateList 0 (p_topicList p).
Proof.
  intros Hr.
  destruct (readBcfFile_inv w bcfFile m m' p Hr)
    as (x & ps & es & ms & vs & vis & pId & pName & pExt & markups
        & _ & _ & _ & _ & _ & -> & _ & Hpar & _).
  split_and!; try done.
Qed.

Lemma readBcfFile_project_is_original_witness :
  ∃ p m',
    @readBcfFile sample_decoders sample_world "issues.bcf" empty_mem
    = (Return (Some p), m')
    ∧ p_state p = ORIGINAL
    ∧ m_containingObject <$> p_topicList p = [Some Self]
    ∧ @Project_getStateList Markup (λ _, []) p = [].
Proof.
  eassert (@readBcfFile sample_decoders sample_world "issues.bcf" empty_mem
           = (Return (Some _), _)) as Hload by (vm_compute; reflexivity).
  destruct (@readBcfFile_project_is_original sample_decoders (λ _, [])
              sample_world "issues.bcf" _ _ _ Hload)
    as (Hstate & _ & _ & _ & _ & _ & Hlist).
  eexists _, _. split; [exact Hload|]. split_and!.
  - exact Hstate.
  - reflexivity.
  - rewrite Hlist. reflexivity.
Defined.

(** ** project.py: setters, SimpleList and listSetContainingElement *)

(** X6: assigning to the [name] or the [extSchemaSrc] property changes the
    value read back through that property and nothing else: the other
    property keeps its value, and the pending-change list of the project is
    the same as before, so the assignment is not reported as a change. *)
Theorem Project_setters_keep_state_list `{StateList T} (p : Project T) (newVal : value) :
  Project_name (Project_set_name newVal p) = newVal
  ∧ Project_extSchemaSrc (Project_set_name newVal p) = Project_extSchemaSrc p
  ∧ Project_getStateList (Project_set_name newVal p) = Project_getStateList p
  ∧ Project_extSchemaSrc (Project_set_extSchemaSrc newVal p) = newVal
  ∧ Project_name (Project_set_extSchemaSrc newVal p) = Project_name p
  ∧ Project_getStateList (Project_set_extSchemaSrc newVal p) = Project_getStateList p.
Proof. by split_and!. Qed.

Lemma check_Hierarchy_Return itemList :
  check_Hierarchy itemList = Return () ↔ forallb is_Hierarchy itemList = true.
Proof.
  induction itemList as [|it rest IH]; simpl; [done|].
  destruct (is_Hierarchy it); simpl; [done|]. split; done.
Qed.

Lemma check_Hierarchy_Raise itemList e :
  check_Hierarchy itemList = Raise e → e = ValueError.
Proof.
  induction itemList as [|it rest IH]; simpl; [done|].
  destruct (is_Hierarchy it); simpl; [done|]. congruence.
Qed.

Lemma set_containing_lookup itemList parent st loc :
  set_containing itemList parent st !! loc
  = if bool_decide (loc ∈ element_locs itemList)
    then SimpleElement_set_containingObject parent <$> st !! loc
    else st !! loc.
Proof.
  revert st. induction itemList as [|[v|l] rest IH]; intros st; simpl.
  - done.
  - apply IH.
  - rewrite IH. unfold element_locs. simpl. fold (element_locs rest).
    rewrite list_lookup_alter.
    destruct (decide (l = loc)) as [->|Hne].
    + rewrite (bool_decide_eq_true_2 (loc ∈ loc :: _)) by by left.
      case_bool_decide; [|done]. by destruct (st !! loc).
    + case_bool_decide as Hin.
      * by rewrite bool_decide_eq_true_2 by by right.
      * rewrite bool_decide_eq_false_2; [done|].
        intros [?|?]%elem_of_cons; done.
Qed.

(** X7: [listSetContainingElement] is all or nothing.  When every item is a
    [Hierarchy] object it returns, and afterwards exactly the listed
    objects have the given containing object, every other object being as
    before; when some item is not, it raises [ValueError] and no object has
    been changed, also those listed before the offending item. *)
Theorem listSetContainingElement_all_or_nothing (itemList : list item)
    (containingObject : option node) (st : store) :
  if forallb is_Hierarchy itemList
  then ∃ st', listSetContainingElement itemList containingObject st = (Return (), st')
         ∧ length st' = length st
         ∧ ∀ loc, st' !! loc
             = if bool_decide (loc ∈ element_locs itemList)
               then SimpleElement_set_containingObject containingObject <$> st !! loc
               else st !! loc
  else listSetContainingElement itemList containingObject st = (Raise ValueError, st).
Proof.
  unfold listSetContainingElement.
  destruct (forallb is_Hierarchy itemList) eqn:Hall.
  - destruct itemList as [|it rest].
    + exists st. split_and!; done.
    + apply check_Hierarchy_Return in Hall. rewrite Hall.
      eexists. split; [done|]. split.
      * clear Hall. generalize (it :: rest). intros l. revert st.
        induction l as [|[v|loc] l IH]; intros st; simpl; [done|apply IH|].
        by rewrite IH, length_alter.
      * intros loc. apply set_containing_lookup.
  - destruct itemList as [|it rest]; [done|]. simpl length. simpl Nat.eqb.
    destruct (check_Hierarchy (it :: rest)) as [[]|e] eqn:Hc.
    + apply check_Hierarchy_Return in Hc. congruence.
    + by apply check_Hierarchy_Raise in Hc as ->.
Qed.

Lemma SimpleList_append_all_closed items st self :
  SimpleList_append_all items (st, self)
  = (st ++ map (λ v, mkSimpleElement v (sl_xmlName self) (sl_containingObject self)
                       ADDED) items,
     mkSimpleList (sl_items self ++ seq (length st) (length items))
       (sl_xmlName self) (sl_containingObject self) (sl_state self)).
Proof.
  unfold SimpleList_append_all. revert st self.
  induction items as [|v items IH]; intros st self; simpl.
  - rewrite !app_nil_r. by destruct self.
  - destruct (SimpleList_append self (Plain v) st) as [st1 self1] eqn:Ha.
    rewrite IH. unfold SimpleList_append in Ha. injection Ha as <- <-. simpl.
    rewrite <- !app_assoc. simpl. rewrite length_app. simpl.
    by rewrite Nat.add_1_r.
Qed.

(** X8: a [SimpleList] constructed from [data] and then extended by
    [append] with the values [items] holds one distinct element per value,
    in order; each element carries its value and the name and containing
    object of the list, with the state of the list for the values given at
    construction and Added for the appended ones; the state of the list
    itself is not changed by [append], and no object that existed before is
    touched. *)
Theorem SimpleList_holds_values_in_order (data items : list value) (xmlName : string)
    (parent : option node) (state : States) (st : store) :
  ∃ st' self,
    SimpleList_append_all items (SimpleList_init data xmlName parent state st)
    = (st', self)
    ∧ (∃ new, st' = st ++ new)
    ∧ sl_xmlName self = xmlName
    ∧ sl_containingObject self = parent
    ∧ sl_state self = state
    ∧ length (sl_items self) = (length data + length items)%nat
    ∧ NoDup (sl_items self)
    ∧ ∀ i v, (data ++ items) !! i = Some v →
        ∃ loc, sl_items self !! i = Some loc
          ∧ st' !! loc
            = Some (mkSimpleElement v xmlName parent
                      (if bool_decide (i < length data)%nat then state else ADDED)).
Proof.
  unfold SimpleList_init. rewrite SimpleList_append_all_closed. simpl.
  eexists _, _. split; [reflexivity|]. simpl.
  rewrite (length_app st), length_map, <- seq_app, <- app_assoc.
  split_and!; try done.
  - by eexists.
  - by rewrite length_seq.
  - apply NoDup_seq.
  - intros i v Hi. exists (length st + i)%nat.
    apply lookup_lt_Some in Hi as Hlt. rewrite length_app in Hlt.
    split; [by apply lookup_seq_lt|].
    rewrite lookup_app_r by lia.
    replace (length st + i - length st)%nat with i by lia.
    case_bool_decide as Hd.
    + rewrite lookup_app_l in Hi by done.
      rewrite lookup_app_l by by rewrite length_map.
      by rewrite list_lookup_fmap, Hi.
    + rewrite lookup_app_r in Hi by lia.
      rewrite lookup_app_r by (rewrite length_map; lia).
      rewrite length_map. by rewrite list_lookup_fmap, Hi.
Qed.

(** ** reader.py: validateFile, and the keys a viewpoint file must have *)

Lemma append_empty (a b : string) : String.append a b = "" → a = "" ∧ b = "".
Proof. destruct a; simpl; [done|discriminate]. Qed.

(** X9: [validateFile] raises exactly when the schema cannot be loaded, and
    then with the exception of the constructor, which its [try] does not
    cover; when the schema loads it returns the empty string exactly when
    the document validates against it: the message it returns on a
    validation error is never empty, whatever the paths and the text of the
    error. *)
Theorem validateFile_empty_iff_valid (w : World)
    (validateFilePath schemaPath bcfFile : string) :
  (∀ e, validateFile w validateFilePath schemaPath bcfFile = Raise e
        ↔ XMLSchema_init w schemaPath = Raise e)
  ∧ (validateFile w validateFilePath schemaPath bcfFile = Return ""
     ↔ XMLSchema_init w schemaPath = Return ()
       ∧ schema_validate w schemaPath validateFilePath = None).
Proof.
  unfold validateFile, mbind, result_bind.
  destruct (XMLSchema_init w schemaPath) as [[]|e0].
  - destruct (schema_validate w schemaPath validateFilePath) as [msg|].
    + split; [by split|]. split; [|by intros [_ ?]].
      intros [= Hc]. simpl in Hc.
      apply append_empty in Hc as [_ Hc]. simpl in Hc. discriminate.
    + split; [by split|]. by split.
  - split; [|split; [done|by intros [? _]]].
    intros e. by split; intros [= ->].
Qed.

Section KeyError_within.
Context {keys : list string}.

Lemma KeyError_within_Return {A} (a : A) : KeyError_within keys (Return a).
Proof. by intros key. Qed.

Lemma KeyError_within_bind {A B} (c : result A) (f : A → result B) :
  KeyError_within keys c → (∀ a, KeyError_within keys (f a)) →
  KeyError_within keys (c ≫= f).
Proof.
  intros Hc Hf key. unfold mbind, result_bind.
  destruct c as [a|e]; [exact (Hf a key)|]. intros [= ->]. by apply Hc.
Qed.

Lemma KeyError_within_fmap {A B} (c : result A) (f : A → B) :
  KeyError_within keys c → KeyError_within keys (f <$> c).
Proof.
  intros Hc key. unfold fmap, result_fmap. destruct c as [a|e]; [done|]. intros [= ->]. by apply Hc.
Qed.

Lemma KeyError_within_subscript d key :
  key ∈ keys → KeyError_within keys (subscript d key).
Proof.
  intros Hin k. unfold subscript. destruct d; try done.
  destruct (dict_get key _); [done|]. by intros [= <-].
Qed.

Lemma KeyError_within_getOptionalFromDict d key empty :
  KeyError_within keys (getOptionalFromDict d key empty).
Proof.
  intros k. unfold getOptionalFromDict, py_in, subscript, mbind, result_bind.
  destruct d; try done.
  - destruct (str_contains key _); done.
  - destruct (existsb _ _); done.
  - case_bool_decide as Hk; [|done]. destruct Hk as [v ->]. done.
Qed.

Lemma KeyError_within_py_iter v : KeyError_within keys (py_iter v).
Proof. intros k. by destruct v. Qed.

Lemma KeyError_within_comprehension {A B} (f : A → result B) l :
  (∀ x, KeyError_within keys (f x)) → KeyError_within keys (comprehension f l).
Proof.
  intros Hf. induction l as [|x l IH]; simpl; [apply KeyError_within_Return|].
  apply KeyError_within_bind; [apply Hf|]. intros y.
  apply KeyError_within_bind; [apply IH|]. intros ys. apply KeyError_within_Return.
Qed.
End KeyError_within.

Ltac in_keys := repeat first [apply list_elem_of_here | apply list_elem_of_further].

Ltac KeyError_step :=
  first
    [ apply KeyError_within_Return
    | apply KeyError_within_getOptionalFromDict
    | apply KeyError_within_py_iter
    | apply KeyError_within_subscript; in_keys
    | apply KeyError_within_fmap
    | apply KeyError_within_comprehension; intros ?
    | apply KeyError_within_bind; [|intros ?]
    | match goal with |- KeyError_within _ (if ?b then _ else _) => destruct b end ].

Section viewpoint_keys.
Local Abbreviation within := (KeyError_within viewpoint_required_keys).

Lemma buildPoint_keys d : within (buildPoint d).
Proof. unfold buildPoint. repeat KeyError_step. Qed.

Lemma buildDirection_keys d : within (buildDirection d).
Proof. unfold buildDirection. repeat KeyError_step. Qed.

Lemma buildComponentList_keys d : within (buildComponentList d).
Proof. unfold buildComponentList, buildComponent. repeat KeyError_step. Qed.

Lemma buildComponents_keys d : within (buildComponents d).
Proof.
  unfold buildComponents, buildViewSetupHints, buildComponentColour.
  repeat first [apply buildComponentList_keys | KeyError_step].
Qed.

Lemma buildCameras_keys d :
  within (buildOrthogonalCamera d) ∧ within (buildPerspectiveCamera d).
Proof.
  unfold buildOrthogonalCamera, buildPerspectiveCamera.
  split; repeat first [apply buildPoint_keys | apply buildDirection_keys | KeyError_step].
Qed.

Lemma buildLine_keys d : within (buildLine d).
Proof. unfold buildLine. repeat first [apply buildPoint_keys | KeyError_step]. Qed.

Lemma buildClippingPlane_keys d : within (buildClippingPlane d).
Proof.
  unfold buildClippingPlane.
  repeat first [apply buildPoint_keys | apply buildDirection_keys | KeyError_step].
Qed.

Lemma buildBitmap_keys d : within (buildBitmap d).
Proof.
  unfold buildBitmap.
  repeat first [apply buildPoint_keys | apply buildDirection_keys | KeyError_step].
Qed.
End viewpoint_keys.

Lemma buildViewpoint_record_keys `{Decoders} (vpDict : value) :
  (∀ v k, UUID_parse v ≠ Raise (KeyError k)) →
  KeyError_within viewpoint_required_keys (buildViewpoint_record vpDict).
Proof.
  intros Hid. unfold buildViewpoint_record.
  apply KeyError_within_bind; [KeyError_step|]. intros guid.
  apply KeyError_within_bind; [intros k Hk; by destruct (Hid guid k)|]. intros id.
  repeat first
    [ apply buildComponents_keys
    | apply (proj1 (buildCameras_keys _))
    | apply (proj2 (buildCameras_keys _))
    | apply buildLine_keys
    | apply buildClippingPlane_keys
    | apply buildBitmap_keys
    | KeyError_step ].
Qed.

(** X11: when neither the decoder of identifiers nor the decoding of the
    viewpoint document by the schema raises a [KeyError] of its own, a
    [KeyError] that [buildViewpoint] raises names one of the keys the
    viewpoint builders read without a default; no optional key can make a
    viewpoint be skipped.  By then the decoding errors have been handed to
    [printErrorList], and nothing else of the memory has changed. *)
Theorem viewpoint_KeyError_names_required_key `{Decoders} (w : World)
    (viewpointFilePath viewpointSchemaPath : string) (m m' : Mem) (key : string) :
  (∀ v k, UUID_parse v ≠ Raise (KeyError k)) →
  (∀ k, schema_to_dict_lax w viewpointSchemaPath viewpointFilePath
        ≠ Raise (KeyError k)) →
  buildViewpoint w viewpointFilePath viewpointSchemaPath m
  = (Raise (KeyError key), m') →
  key ∈ viewpoint_required_keys
  ∧ ∃ vpDict errors,
      schema_to_dict_lax w viewpointSchemaPath viewpointFilePath
      = Return (vpDict, errors)
      ∧ buildViewpoint_record vpDict = Raise (KeyError key)
      ∧ m' = mkMem (heap m) (log m ++ [ErrorList errors]) (bcfDir m).
Proof.
  intros Hid Hdec. unfold buildViewpoint.
  unfold mbind at 1, M_bind at 1, lift at 1.
  destruct (schema_to_dict_lax w viewpointSchemaPath viewpointFilePath)
    as [[vpDict errors]|e] eqn:Hd.
  - unfold mbind at 1, M_bind at 1, emit at 1. unfold lift.
    destruct (buildViewpoint_record vpDict) as [vp|e] eqn:Hb; [done|].
    intros [= -> <-]. split; [by apply (buildViewpoint_record_keys vpDict Hid)|].
    by exists vpDict, errors.
  - intros [= -> _]. by destruct (Hdec key).
Qed.

Lemma viewpoint_KeyError_names_required_key_witness :
  (∀ v k, sample_UUID v ≠ Raise (KeyError k))
  ∧ (@buildViewpoint sample_decoders sample_world
       "/tmp/issues.bcf/topic-1/broken.bcfv" "/tmp/visinfo.xsd" empty_mem).1
    = Raise (KeyError "CameraDirection")
  ∧ "CameraDirection" ∈ viewpoint_required_keys.
Proof.
  assert (∀ v k, sample_UUID v ≠ Raise (KeyError k)) as Hid.
  { intros v k. unfold sample_UUID. destruct v; try done.
    destruct (Nat.eqb _ 32); [|done]. by destruct (hex_value 0 _). }
  split; [exact Hid|]. split; [reflexivity|].
  eapply (@viewpoint_KeyError_names_required_key sample_decoders sample_world
            "/tmp/issues.bcf/topic-1/broken.bcfv" "/tmp/visinfo.xsd" empty_mem _
            "CameraDirection" Hid).
  - intros k. vm_compute. discriminate.
  - vm_compute. reflexivity.
Defined.

(** ** reader.py: the viewpoint references of a markup *)

Lemma buildViewpointReference_alloc `{Decoders} viewpointDict m loc m' :
  buildViewpointReference viewpointDict m = (Return loc, m') →
  loc = length (heap m)
  ∧ ∃ r, heap m' = heap m ++ [r] ∧ log m' = log m ∧ bcfDir m' = bcfDir m
         ∧ built_from viewpointDict r.
Proof.
  unfold buildViewpointReference. intros Hb.
  bind_inv Hb as guid m1 Hg. bind_inv Hb as id m1 Hid.
  bind_inv Hb as f m1 Hf. bind_inv Hb as f' m1 Hf'.
  bind_inv Hb as s m1 Hs. bind_inv Hb as s' m1 Hs'.
  bind_inv Hb as index m1 Hi.
  unfold alloc in Hb. injection Hb as <- <-. split; [done|].
  eexists. split_and!; try done. by exists guid.
Qed.

Lemma for_each_buildViewpointReference `{Decoders} items m locs m' :
  for_each buildViewpointReference items m = (Return locs, m') →
  locs = seq (length (heap m)) (length items)
  ∧ ∃ new, heap m' = heap m ++ new ∧ log m' = log m ∧ bcfDir m' = bcfDir m
           ∧ Forall2 built_from items new.
Proof.
  revert m locs. induction items as [|item items IH]; intros m locs Hrun;
    simpl in Hrun.
  - injection Hrun as <- <-. split; [done|]. exists [].
    by rewrite app_nil_r.
  - apply M_bind_inv in Hrun as (loc & m1 & Hloc & Hrun).
    apply M_bind_inv in Hrun as (rest & m2 & Hrest & Hrun).
    injection Hrun as <- <-.
    apply buildViewpointReference_alloc in Hloc
      as (-> & r & Hheap1 & Hlog1 & Hdir1 & Hr).
    apply IH in Hrest as (-> & new & Hheap & Hlog & Hdir & Hnew).
    split.
    + simpl. f_equal. rewrite Hheap1, length_app. simpl. f_equal. lia.
    + exists (r :: new). split_and!.
      * by rewrite Hheap, Hheap1, <- app_assoc.
      * by rewrite Hlog.
      * by rewrite Hdir.
      * by constructor.
Qed.

Lemma buildComment_quiet `{Decoders} commentDict m c m' :
  buildComment commentDict m = (Return c, m') →
  log m' = log m ∧ bcfDir m' = bcfDir m.
Proof.
  unfold buildComment. intros Hb.
  bind_inv Hb as guid m1 Hg. bind_inv Hb as id m1 Hid.
  bind_inv Hb as date m1 Hd. bind_inv Hb as cdate m1 Hcd.
  bind_inv Hb as author m1 Ha. bind_inv Hb as ma m1 Hma.
  bind_inv Hb as md m1 Hmd. bind_inv Hb as md' m1 Hmd'.
  bind_inv Hb as cs m1 Hcs. bind_inv Hb as v m1 Hv.
  bind_inv Hb as v' m1 Hv'. injection Hb as <- <-.
  destruct (truthy v).
  - bind_inv Hv' as g m2 Hg2. bind_inv Hv' as vid m2 Hvid.
    bind_inv Hv' as loc m2 Hloc. injection Hv' as <- <-.
    done.
  - by injection Hv' as <- <-.
Qed.

Lemma for_each_quiet {A B} (f : A → M B) :
  (∀ x m y m', f x m = (Return y, m') → log m' = log m ∧ bcfDir m' = bcfDir m) →
  ∀ l m ys m', for_each f l m = (Return ys, m') →
    log m' = log m ∧ bcfDir m' = bcfDir m.
Proof.
  intros Hf. induction l as [|x l IH]; intros m ys m' Hrun; simpl in Hrun.
  - by injection Hrun as <- <-.
  - apply M_bind_inv in Hrun as (y & m1 & Hy & Hrun).
    apply M_bind_inv in Hrun as (ys' & m2 & Hys & Hrun).
    injection Hrun as <- <-.
    apply Hf in Hy as [Hl1 Hd1]. apply IH in Hys as [Hl2 Hd2].
    split; congruence.
Qed.

Lemma buildMarkup_record_fresh `{Decoders} (markupDict : value)
    (m m' : Mem) (markup : Markup) :
  buildMarkup_record markupDict m = (Return markup, m') →
  heap_extends m m'
  ∧ log m' = log m
  ∧ bcfDir m' = bcfDir m
  ∧ NoDup (m_viewpoints markup)
  ∧ Forall (λ loc, length (heap m) ≤ loc < length (heap m'))%nat (m_viewpoints markup)
  ∧ ∃ viewpointList viewpointItems,
      getOptionalFromDict markupDict "Viewpoints" (VList []) = Return viewpointList
      ∧ py_iter viewpointList = Return viewpointItems
      ∧ Forall2 (λ item loc, ∃ r, heap m' !! loc = Some r ∧ built_from item r)
          viewpointItems (m_viewpoints markup).
Proof.
  unfold buildMarkup_record. intros Hb. bind_inv Hb as built m1 Hu.
  pose proof (buildMarkup_unresolved_ok _ _ _ _ Hu) as (Hext & Hok & _).
  unfold resolve_comments in Hb.
  rewrite (M_bind_Return _ _ _ _ _ (for_each_resolve _ _ _ Hok)) in Hb.
  injection Hb as <- <-. simpl.
  unfold buildMarkup_unresolved in Hu.
  bind_inv Hu as commentList mc Hcl. bind_inv Hu as commentItems mc Hci.
  bind_inv Hu as comments mc Hcs.
  bind_inv Hu as topicDict mt Htd. bind_inv Hu as topic mt Ht.
  bind_inv Hu as headerDict mh Hhd. bind_inv Hu as header mh Hh.
  apply header_step_pure in Hh as ->.
  bind_inv Hu as viewpointList mv Hvl. bind_inv Hu as viewpointItems mv Hvi.
  bind_inv Hu as viewpoints mv Hvs. injection Hu as <- <-. simpl.
  apply (for_each_extends buildComment (λ _ _, True)) in Hcs as Hcext;
    [|intros x ma y mb Hx; split; [by eapply @buildComment_ok|done]|done].
  destruct Hcext as [[newc Hcext] _].
  apply (for_each_quiet buildComment) in Hcs as [Hlogc Hdirc];
    [|by apply @buildComment_quiet].
  apply for_each_buildViewpointReference in Hvs
    as (-> & new & Hheap & Hlog & Hdir & Hnew).
  split_and!; try done.
  - congruence.
  - congruence.
  - apply NoDup_seq.
  - apply Forall_forall. intros loc Hin%in_seq.
    rewrite Hheap, Hcext, !length_app in *.
    apply Forall2_length in Hnew. lia.
  - exists viewpointList, viewpointItems. split_and!; try done.
    apply Forall2_same_length_lookup. split.
    + rewrite length_seq. done.
    + intros i item loc Hitem Hloc.
      apply lookup_seq in Hloc as [-> Hlt].
      destruct (Forall2_lookup_l _ _ _ _ _ Hnew Hitem) as (r & Hr & Hbuilt).
      exists r. split; [|done].
      rewrite Hheap. rewrite lookup_app_r by lia.
      by replace (length (heap mc) + i - length (heap mc))%nat with i by lia.
Qed.

(** X10: the viewpoint references of a markup that [buildMarkup] returns
    are distinct objects created by this call, one per record of the
    [Viewpoints] list of the decoded document and in the order of the
    list, each with the identifier of its record and no viewpoint attached
    yet; the objects that existed before the call are unchanged, and the
    one thing written is the list of decoding errors, which
    [printErrorList] is handed once, empty or not. *)
Theorem buildMarkup_viewpoints_are_fresh `{Decoders} (w : World)
    (markupFilePath markupSchemaPath : string) (m m' : Mem) (markup : Markup) :
  buildMarkup w markupFilePath markupSchemaPath m = (Return markup, m') →
  ∃ markupDict errors,
    schema_to_dict_lax w markupSchemaPath markupFilePath
    = Return (markupDict, errors)
    ∧ heap_extends m m'
    ∧ log m' = log m ++ [ErrorList errors]
    ∧ bcfDir m' = bcfDir m
    ∧ NoDup (m_viewpoints markup)
    ∧ Forall (λ loc, length (heap m) ≤ loc < length (heap m'))%nat
        (m_viewpoints markup)
    ∧ ∃ viewpointList viewpointItems,
        getOptionalFromDict markupDict "Viewpoints" (VList []) = Return viewpointList
        ∧ py_iter viewpointList = Return viewpointItems
        ∧ Forall2 (λ item loc, ∃ r, heap m' !! loc = Some r ∧ built_from item r)
            viewpointItems (m_viewpoints markup).
Proof.
  unfold buildMarkup. intros Hb.
  bind_inv Hb as de md Hd. destruct de as [markupDict errors].
  apply M_bind_inv in Hb as ([] & me & He & Hb). injection He as <-.
  apply buildMarkup_record_fresh in Hb
    as (Hext & Hlog & Hdir & Hnd & Hfresh & Hitems).
  exists markupDict, errors. split_and!; done.
Qed.

Lemma buildMarkup_viewpoints_are_fresh_witness :
  ∃ markup m',
    @buildMarkup sample_decoders sample_world
      "/tmp/issues.bcf/topic-1/markup.bcf" "/tmp/markup.xsd" empty_mem
    = (Return markup, m')
    ∧ m_viewpoints markup = [2%nat]
    ∧ length (heap m') = 3%nat
    ∧ log m' = [ErrorList []]
    ∧ NoDup (m_viewpoints markup)
    ∧ Forall (λ loc, 0 ≤ loc < 3)%nat (m_viewpoints markup).
Proof.
  eassert (@buildMarkup sample_decoders sample_world
             "/tmp/issues.bcf/topic-1/markup.bcf" "/tmp/markup.xsd" empty_mem
           = (Return _, _)) as Hb by (vm_compute; reflexivity).
  destruct (@buildMarkup_viewpoints_are_fresh sample_decoders sample_world
              "/tmp/issues.bcf/topic-1/markup.bcf" "/tmp/markup.xsd"
              empty_mem _ _ Hb)
    as (markupDict & errors & _ & _ & _ & _ & Hnd & Hfresh & _).
  eexists _, _. split; [exact Hb|]. split_and!.
  - reflexivity.
  - reflexivity.
  - reflexivity.
  - exact Hnd.
  - exact Hfresh.
Defined.

(** ** reader.py: building a markup does not depend on the memory *)

Lemma extend_nil m : extend m [] [] = m.
Proof. unfold extend. rewrite !app_nil_r. by destruct m. Qed.

Lemma extend_extend m n1 e1 n2 e2 :
  extend (extend m n1 e1) n2 e2 = extend m (n1 ++ n2) (e1 ++ e2).
Proof. unfold extend. simpl. by rewrite !app_assoc. Qed.

Section framed.
Context (δ : Z).

Lemma framed_lift {A} (r : result A) : framed δ eq (lift r) (lift r).
Proof.
  intros m0 m a m1 _ [-> ->]%lift_inv. exists [], [], a.
  by rewrite !extend_nil.
Qed.

Lemma framed_mret {A} (R : A → A → Prop) a a' :
  R a a' → framed δ R (mret a) (mret a').
Proof.
  intros HR m0 m b m1 _ [= <- <-]. exists [], [], a'. by rewrite !extend_nil.
Qed.

Lemma framed_emit e : framed δ eq (emit e) (emit e).
Proof.
  intros m0 m a m1 _ [= <- <-]. exists [], [e], (). unfold extend, emit.
  by rewrite !app_nil_r.
Qed.

Lemma framed_alloc r : framed δ (shifted δ) (alloc r) (alloc r).
Proof.
  intros m0 m a m1 Hδ [= <- <-]. exists [r], [], (length (heap m)).
  unfold extend, alloc, shifted. rewrite !app_nil_r. split_and!; [done|done|lia].
Qed.

Lemma framed_bind {A B} (R : A → A → Prop) (S : B → B → Prop)
    (c c' : M A) (k k' : A → M B) :
  framed δ R c c' → (∀ a a', R a a' → framed δ S (k a) (k' a')) →
  framed δ S (c ≫= k) (c' ≫= k').
Proof.
  intros Hc Hk m0 m b m2 Hδ Hrun.
  apply M_bind_inv in Hrun as (a & m1 & Ha & Hb).
  destruct (Hc m0 m a m1 Hδ Ha) as (n1 & e1 & a' & -> & Ha' & HR).
  destruct (Hk a a' HR (extend m0 n1 e1) (extend m n1 e1) b m2) as
    (n2 & e2 & b' & -> & Hb' & HS); [|done|].
  { unfold extend. simpl. rewrite !length_app. lia. }
  exists (n1 ++ n2), (e1 ++ e2), b'. rewrite <- !extend_extend.
  split_and!; [done| |done]. by rewrite (M_bind_Return _ _ _ _ _ Ha').
Qed.

Lemma framed_weaken {A} (R S : A → A → Prop) (c c' : M A) :
  (∀ a a', R a a' → S a a') → framed δ R c c' → framed δ S c c'.
Proof.
  intros HRS Hc m0 m a m1 Hδ Ha.
  destruct (Hc m0 m a m1 Hδ Ha) as (n & e & a' & ? & ? & ?).
  exists n, e, a'. split_and!; [done|done|by apply HRS].
Qed.

(** A step whose value the rest of the computation gets unchanged. *)
Lemma framed_bind_eq {A B} (S : B → B → Prop) (c : M A) (k k' : A → M B) :
  framed δ eq c c → (∀ a, framed δ S (k a) (k' a)) →
  framed δ S (c ≫= k) (c ≫= k').
Proof.
  intros Hc Hk. apply (framed_bind eq); [done|]. by intros a a' <-.
Qed.

Lemma framed_for_each {A B} (R : B → B → Prop) (f : A → M B) (l : list A) :
  (∀ x, framed δ R (f x) (f x)) →
  framed δ (Forall2 R) (for_each f l) (for_each f l).
Proof.
  intros Hf. induction l as [|x l IH]; simpl.
  - apply framed_mret. constructor.
  - apply (framed_bind R); [apply Hf|]. intros y y' Hy.
    apply (framed_bind (Forall2 R)); [apply IH|]. intros ys ys' Hys.
    apply framed_mret. by constructor.
Qed.

Lemma framed_buildComment `{Decoders} commentDict :
  framed δ (λ _ _, True) (buildComment commentDict) (buildComment commentDict).
Proof.
  unfold buildComment.
  do 10 (apply framed_bind_eq; [apply framed_lift|]; intros ?).
  apply (framed_bind (λ _ _, True)).
  - destruct (truthy _).
    + do 2 (apply framed_bind_eq; [apply framed_lift|]; intros ?).
      apply (framed_bind (shifted δ)); [apply framed_alloc|]. intros loc loc' _.
      by apply framed_mret.
    + by apply framed_mret.
  - intros v v' _. by apply framed_mret.
Qed.

Lemma framed_buildViewpointReference `{Decoders} viewpointDict :
  framed δ (shifted δ) (buildViewpointReference viewpointDict)
    (buildViewpointReference viewpointDict).
Proof.
  unfold buildViewpointReference.
  do 7 (apply framed_bind_eq; [apply framed_lift|]; intros ?).
  apply framed_alloc.
Qed.

Lemma framed_buildMarkup_unresolved `{Decoders} markupDict :
  framed δ (λ markup markup',
              Forall2 (shifted δ) (m_viewpoints markup) (m_viewpoints markup'))
    (buildMarkup_unresolved markupDict) (buildMarkup_unresolved markupDict).
Proof.
  unfold buildMarkup_unresolved.
  apply framed_bind_eq; [apply framed_lift|]; intros commentList.
  apply framed_bind_eq; [apply framed_lift|]; intros commentItems.
  apply (framed_bind (λ _ _, True)).
  { eapply framed_weaken; [|apply framed_for_each, framed_buildComment]. done. }
  intros comments comments' _.
  apply framed_bind_eq; [apply framed_lift|]; intros topicDict.
  apply framed_bind_eq; [apply framed_lift|]; intros topic.
  apply framed_bind_eq; [apply framed_lift|]; intros headerDict.
  apply framed_bind_eq.
  { destruct (truthy headerDict); [|by apply framed_mret].
    apply framed_bind_eq; [apply framed_lift|]. intros n.
    case_bool_decide; [|by apply framed_mret].
    intros m0 m hd m1 _ Hh. unfold fmap, M_fmap, lift in *.
    destruct (buildHeader headerDict) as [h|e]; simplify_eq.
    exists [], [], (Some h). by rewrite !extend_nil. }
  intros header.
  apply framed_bind_eq; [apply framed_lift|]; intros viewpointList.
  apply framed_bind_eq; [apply framed_lift|]; intros viewpointItems.
  apply (framed_bind (Forall2 (shifted δ)));
    [apply framed_for_each, framed_buildViewpointReference|].
  intros viewpoints viewpoints' Hvs. by apply framed_mret.
Qed.

Lemma resolve_comments_run (markup : Markup) (m : Mem) :
  Forall (comment_ok (heap m)) (m_comments markup) →
  ∃ after, resolve_comments markup m = (Return after, m)
           ∧ m_viewpoints after = m_viewpoints markup.
Proof.
  intros Hok. unfold resolve_comments.
  rewrite (M_bind_Return _ _ _ _ _ (for_each_resolve _ _ _ Hok)).
  by eexists.
Qed.

Lemma framed_buildMarkup_record `{Decoders} markupDict :
  framed δ (λ markup markup',
              Forall2 (shifted δ) (m_viewpoints markup) (m_viewpoints markup'))
    (buildMarkup_record markupDict) (buildMarkup_record markupDict).
Proof.
  intros m0 m markup m2 Hδ Hrun. unfold buildMarkup_record in *.
  apply M_bind_inv in Hrun as (built & m1 & Hu & Hr).
  destruct (framed_buildMarkup_unresolved markupDict m0 m built m1 Hδ Hu)
    as (new & notices & built' & -> & Hu' & Hvs).
  pose proof (buildMarkup_unresolved_ok _ _ _ _ Hu) as (_ & Hok & _).
  pose proof (buildMarkup_unresolved_ok _ _ _ _ Hu') as (_ & Hok' & _).
  destruct (resolve_comments_run _ _ Hok) as (after & Hres & Hsame).
  destruct (resolve_comments_run _ _ Hok') as (after' & Hres' & Hsame').
  rewrite Hres in Hr. injection Hr as <- <-.
  exists new, notices, after'. split_and!; [done| |by rewrite Hsame, Hsame'].
  by rewrite (M_bind_Return _ _ _ _ _ Hu').
Qed.

Lemma framed_buildProject `{Decoders} (w : World) (file schema : option string) :
  framed δ eq (buildProject w file schema) (buildProject w file schema).
Proof.
  unfold buildProject. destruct file as [file|], schema as [schema|];
    try by apply framed_mret.
  destruct (negb (os_path_exists w file)); [by apply framed_mret|].
  destruct (negb (os_path_exists w schema)); [by apply framed_mret|].
  apply framed_bind_eq; [apply framed_lift|]. intros [projectDict errors].
  apply framed_bind_eq; [apply framed_emit|]. intros _.
  apply framed_bind_eq; [apply framed_lift|]; intros project.
  apply framed_bind_eq; [apply framed_lift|]; intros guid.
  apply framed_bind_eq; [apply framed_lift|]; intros pId.
  apply framed_bind_eq; [apply framed_lift|]; intros hasName.
  apply framed_bind_eq.
  { destruct hasName; [apply framed_lift|by apply framed_mret]. }
  intros pName.
  apply framed_bind_eq; [apply framed_lift|]; intros hasSchema.
  apply framed_bind_eq.
  { destruct hasSchema; [apply framed_lift|by apply framed_mret]. }
  intros pExtensionSchema. by apply framed_mret.
Qed.
End framed.

(** X13: [buildMarkup] does not depend on the objects already in memory:
    when it returns a markup from one memory, it returns one from every
    other memory, creating the same objects and writing the same notices,
    and the viewpoint references of the two markups are the same new
    objects, found at the places the second memory gives them. *)
Theorem buildMarkup_frame `{Decoders} (w : World)
    (markupFilePath markupSchemaPath : string) (m0 m m1 : Mem) (markup : Markup) :
  buildMarkup w markupFilePath markupSchemaPath m0 = (Return markup, m1) →
  ∃ new notices markup',
    m1 = extend m0 new notices
    ∧ buildMarkup w markupFilePath markupSchemaPath m
      = (Return markup', extend m new notices)
    ∧ Forall2 (shifted (Z.of_nat (length (heap m)) - Z.of_nat (length (heap m0))))
        (m_viewpoints markup) (m_viewpoints markup').
Proof.
  revert m0 m markup m1.
  set (δ m0 m := Z.of_nat (length (heap m)) - Z.of_nat (length (heap m0))).
  cut (∀ d, framed d (λ markup markup',
                        Forall2 (shifted d) (m_viewpoints markup)
                          (m_viewpoints markup'))
              (buildMarkup w markupFilePath markupSchemaPath)
              (buildMarkup w markupFilePath markupSchemaPath)).
  { intros Hframed m0 m markup m1 Hrun.
    by apply (Hframed (δ m0 m) m0 m markup m1). }
  intros d. unfold buildMarkup.
  apply framed_bind_eq; [apply framed_lift|]. intros [markupDict errors].
  apply framed_bind_eq; [apply framed_emit|]. intros _.
  apply framed_buildMarkup_record.
Qed.

Lemma buildMarkup_frame_witness :
  ∃ markup m1 markup',
    @buildMarkup sample_decoders sample_world "/tmp/issues.bcf/topic-1/markup.bcf"
      "/tmp/markup.xsd" empty_mem = (Return markup, m1)
    ∧ @buildMarkup sample_decoders sample_world "/tmp/issues.bcf/topic-1/markup.bcf"
        "/tmp/markup.xsd" two_references
      = (Return markup', extend two_references (heap m1) (log m1))
    ∧ m_viewpoints markup = [2%nat]
    ∧ m_viewpoints markup' = [4%nat].
Proof.
  eassert (@buildMarkup sample_decoders sample_world
             "/tmp/issues.bcf/topic-1/markup.bcf" "/tmp/markup.xsd" empty_mem
           = (Return _, _)) as Hb by (vm_compute; reflexivity).
  destruct (@buildMarkup_frame sample_decoders sample_world _ _ empty_mem
              two_references _ _ Hb)
    as (new & notices & markup' & Hm1 & Hrun & _).
  injection Hm1 as <- <-.
  eexists _, _, markup'. split; [exact Hb|]. split; [exact Hrun|].
  split; [reflexivity|].
  vm_compute in Hrun. by injection Hrun as <-.
Defined.

(** ** reader.py: a load that goes through *)

Lemma attach_viewpoints_return `{Decoders} (w : World)
    (topic topicDir schema : string) (locs : list nat) (m : Mem) :
  (∀ loc, loc ∈ locs →
     ∃ r, heap m !! loc = Some r
          ∧ built_or_skipped (viewpoint_outcome w topicDir schema r) = true) →
  ∃ units m', for_each (attach_viewpoint w topic topicDir schema) locs m
              = (Return units, m')
              ∧ bcfDir m' = bcfDir m.
Proof.
  revert m. induction locs as [|loc rest IH]; intros m Hall; simpl.
  - by eexists _, _.
  - destruct (Hall loc) as (r & Hr & Hok); [by left|].
    destruct (attach_viewpoint_step w topic topicDir schema loc r m Hr Hok)
      as (m1 & n1 & Hstep & Hheap1 & _ & Hdir1 & _).
    destruct (IH m1) as (units & m' & Hrun & Hdir).
    { intros loc' Hin. destruct (Hall loc') as (r' & Hr' & Hok'); [by right|].
      rewrite Hheap1, list_lookup_insert.
      apply lookup_lt_Some in Hr as Hlt.
      destruct (decide (loc = loc')) as [<-|Hne].
      - rewrite decide_True by done. eexists. split; [done|].
        rewrite viewpoint_outcome_attached. by simplify_eq.
      - rewrite decide_False by tauto. by exists r'. }
    rewrite (M_bind_Return _ _ _ _ _ Hstep), (M_bind_Return _ _ _ _ _ Hrun).
    eexists _, _. split; [done|]. by rewrite Hdir.
Qed.

Lemma topic_loadable_anywhere `{Decoders} (w : World)
    (x markupSchema visinfoSchema topic : string) (m : Mem) :
  topic_loadable w x markupSchema visinfoSchema topic →
  ∃ markup m1,
    buildMarkup w (os_path_join (os_path_join x topic) "markup.bcf")
      markupSchema m = (Return markup, m1)
    ∧ bcfDir m1 = bcfDir m
    ∧ ∀ loc, loc ∈ m_viewpoints markup →
        ∃ r, heap m1 !! loc = Some r
             ∧ built_or_skipped
                 (viewpoint_outcome w (os_path_join x topic) visinfoSchema r)
               = true.
Proof.
  intros (markup0 & m0 & Hb & Hrefs). unfold buildMarkup in *.
  bind_inv Hb as de md Hd. destruct de as [markupDict errors].
  apply M_bind_inv in Hb as ([] & me & He & Hb). injection He as <-.
  destruct (framed_buildMarkup_record (Z.of_nat (length (heap m))) markupDict
              (mkMem [] ([] ++ [ErrorList errors]) "")
              (mkMem (heap m) (log m ++ [ErrorList errors]) (bcfDir m))
              markup0 m0)
    as (new & notices & markup & -> & Hb' & Hvs); [simpl; lia|done|].
  exists markup. eexists. split.
  { unfold mbind at 1, M_bind at 1, lift at 1. rewrite Hd.
    unfold mbind at 1, M_bind at 1, emit at 1. exact Hb'. }
  split; [done|]. intros loc' Hin. apply list_elem_of_lookup in Hin as [i Hi].
  destruct (Forall2_lookup_r _ _ _ _ _ Hvs Hi) as (loc & Hloc & Hshift).
  destruct (Hrefs loc) as (r & file & name & Hr & _ & _ & Hok);
    [by eapply list_elem_of_lookup_2|].
  exists r. split; [|done]. unfold extend, shifted in *. simpl in *.
  rewrite lookup_app_r by lia.
  by replace (loc' - length (heap m))%nat with loc by lia.
Qed.

Lemma project_loadable_anywhere `{Decoders} (w : World) (file schema : string)
    (p : Project Markup) (m0 m1 m : Mem) :
  buildProject w (Some file) (Some schema) m0 = (Return (Some p), m1) →
  ∃ m', buildProject w (Some file) (Some schema) m = (Return (Some p), m').
Proof.
  intros Hb.
  destruct (framed_buildProject (Z.of_nat (length (heap m)) - Z.of_nat (length (heap m0)))
              w (Some file) (Some schema) m0 m (Some p) m1 eq_refl Hb)
    as (new & notices & p' & _ & Hb' & <-).
  by eexists.
Qed.

(** A schema that loads lets [validateFile] return: with the message of the
    validation, or with the empty string. *)
Lemma validateFile_returns (w : World) (file schema bcfFile : string) :
  XMLSchema_init w schema = Return () →
  ∃ error, validateFile w file schema bcfFile = Return error.
Proof.
  intros Hinit. unfold validateFile. rewrite Hinit. simpl.
  destruct (schema_validate w schema file); by eexists.
Qed.

Lemma topic_loadable_loads `{Decoders} (w : World)
    (x markupSchema visinfoSchema topic : string) :
  topic_loadable w x markupSchema visinfoSchema topic →
  XMLSchema_init w markupSchema = Return ().
Proof.
  intros (markup & m1 & Hb & _). unfold buildMarkup in Hb.
  bind_inv Hb as de md Hd. by eapply lax_decoding_loads.
Qed.

Lemma buildProject_loads `{Decoders} (w : World) (file schema : string)
    (p : Project Markup) (m m' : Mem) :
  buildProject w (Some file) (Some schema) m = (Return (Some p), m') →
  XMLSchema_init w schema = Return ().
Proof.
  unfold buildProject. intros Hb.
  destruct (negb (os_path_exists w file)); [done|].
  destruct (negb (os_path_exists w schema)); [done|].
  bind_inv Hb as de md Hd. by eapply lax_decoding_loads.
Qed.

Lemma read_topic_returns `{Decoders} (w : World)
    (bcfFile x markupSchema visinfoSchema topic : string)
    (p : Project Markup) (m : Mem) :
  topic_loadable w x markupSchema visinfoSchema topic →
  ∃ markup m',
    read_topic w bcfFile x markupSchema visinfoSchema (Some p) topic m
    = (Return (Some (topicList_append markup p)), m')
    ∧ bcfDir m' = bcfDir m.
Proof.
  intros Hload. unfold read_topic.
  destruct (validateFile_returns w
              (os_path_join (os_path_join x topic) "markup.bcf") markupSchema bcfFile
              (topic_loadable_loads w x markupSchema visinfoSchema topic Hload))
    as [error Herr].
  unfold mbind at 1, M_bind at 1, lift at 1. rewrite Herr.
  set (validation := if negb _ then _ else _).
  assert (∃ m0, validation m = (Return (), m0) ∧ bcfDir m0 = bcfDir m)
    as (m0 & Hval & Hdir0).
  { subst validation. destruct (negb _); by eexists. }
  rewrite (M_bind_Return _ _ _ _ _ Hval).
  destruct (topic_loadable_anywhere w x markupSchema visinfoSchema topic m0 Hload)
    as (markup & m1 & Hbuild & Hdir1 & Hrefs).
  rewrite (M_bind_Return _ _ _ _ _ Hbuild).
  destruct (attach_viewpoints_return w topic (os_path_join x topic) visinfoSchema
              (m_viewpoints markup) m1 Hrefs) as (units & m2 & Hrun & Hdir2).
  rewrite (M_bind_Return _ _ _ _ _ Hrun). eexists _, _. split; [done|].
  simpl. congruence.
Qed.

Lemma read_topics_return `{Decoders} (w : World)
    (bcfFile x markupSchema visinfoSchema : string) (topics : list string) :
  (∀ topic, topic ∈ topics → topic_loadable w x markupSchema visinfoSchema topic) →
  ∀ p m, ∃ p' m',
    for_fold (read_topic w bcfFile x markupSchema visinfoSchema) topics (Some p) m
    = (Return (Some p'), m')
    ∧ bcfDir m' = bcfDir m
    ∧ length (p_topicList p') = (length (p_topicList p) + length topics)%nat.
Proof.
  induction topics as [|topic rest IH]; intros Hall p m; simpl.
  - exists p, m. split_and!; [done|done|lia].
  - destruct (read_topic_returns w bcfFile x markupSchema visinfoSchema topic p m)
      as (markup & m1 & Hstep & Hdir1); [apply Hall; by left|].
    rewrite (M_bind_Return _ _ _ _ _ Hstep).
    destruct (IH (λ t Ht, Hall t (list_elem_of_further _ _ _ Ht))
                (topicList_append markup p) m1)
      as (p' & m' & Hrun & Hdir & Hlen).
    exists p', m'. split_and!; [done|congruence|].
    rewrite Hlen. simpl. rewrite length_app. simpl. lia.
Qed.

(** [readBcfFile] once the version descriptor is accepted: the project
    step, the topic directories, [bcfDir]. *)
Lemma readBcfFile_past_gate `{Decoders} (w : World) (bcfFile : string)
    (m : Mem) (x projectSchema markupSchema versionSchema visinfoSchema : string)
    (extensionSchema : option string) :
  copySchemas w (getSystemTmp w)
  = (Some projectSchema, extensionSchema, Some markupSchema, Some versionSchema,
     Some visinfoSchema) →
  extractFileToTmp w bcfFile = Return x →
  os_path_exists w (os_path_join x "bcf.version") = true →
  validateFile w (os_path_join x "bcf.version") versionSchema bcfFile = Return "" →
  getVersion w x versionSchema = Return (VStr "2.1") →
  readBcfFile w bcfFile m
  = (proj ← (if os_path_exists w (os_path_join x "project.bcfp")
             then
               error ← lift (validateFile w (os_path_join x "project.bcfp")
                               projectSchema bcfFile);
               buildProject w (Some (os_path_join x "project.bcfp"))
                 (Some projectSchema)
             else mret (Some (Project_init (mkUUID 0) (VStr "") VNone ORIGINAL)));
     proj ← for_fold (read_topic w bcfFile x markupSchema visinfoSchema)
              (getDirectories w x) proj;
     _ ← set_bcfDir x;
     mret proj) m.
Proof.
  intros Hs Hx Hex Hval Hv. unfold readBcfFile. rewrite Hs.
  unfold mbind at 1, M_bind at 1, lift at 1. rewrite Hx, Hex. simpl.
  unfold mbind at 1, M_bind at 1, lift at 1. rewrite Hval. simpl.
  unfold mbind at 1, M_bind at 1, lift at 1. rewrite Hv. reflexivity.
Qed.

Lemma project_step_returns `{Decoders} (w : World) (bcfFile x projectSchema : string)
    (m : Mem) :
  project_loadable w x projectSchema →
  ∃ p0 m0,
    (if os_path_exists w (os_path_join x "project.bcfp")
     then
       error ← lift (validateFile w (os_path_join x "project.bcfp") projectSchema
                       bcfFile);
       buildProject w (Some (os_path_join x "project.bcfp")) (Some projectSchema)
     else mret (Some (Project_init (mkUUID 0) (VStr "") VNone ORIGINAL))) m
    = (Return (Some p0), m0)
    ∧ bcfDir m0 = bcfDir m
    ∧ p_topicList p0 = [].
Proof.
  intros Hproj.
  destruct (os_path_exists w (os_path_join x "project.bcfp")) eqn:Hpe;
    [|by eexists _, _].
  destruct Hproj as [?|(p0 & mp & Hb0)]; [congruence|].
  destruct (validateFile_returns w (os_path_join x "project.bcfp") projectSchema
              bcfFile (buildProject_loads w _ _ _ _ _ Hb0)) as [error Herr].
  destruct (framed_buildProject
              (Z.of_nat (length (heap m)) - Z.of_nat (length (heap empty_mem)))
              w _ _ empty_mem m (Some p0) mp eq_refl Hb0)
    as (new & notices & p' & _ & Hb & <-).
  exists p0. eexists. split_and!.
  - unfold mbind at 1, M_bind at 1, lift at 1. rewrite Herr. exact Hb.
  - done.
  - by pose proof (buildProject_fresh _ _ _ _ _ _ Hb) as (? & ? & ? & ->).
Qed.

(** X12: a load goes through whenever the schemas are at hand, the archive
    is extracted, its [bcf.version] validates and names version 2.1, the
    project document, if there is one, builds, and every topic directory
    has a markup that builds and of whose viewpoint references each names
    its viewpoint document by a string and that document is built or lacks
    a required key: [readBcfFile] then returns a project with one markup
    per topic directory and sets [bcfDir], whatever viewpoints had to be
    skipped. *)
Theorem readBcfFile_returns_project `{Decoders} (w : World) (bcfFile : string)
    (m : Mem) (x projectSchema markupSchema versionSchema visinfoSchema : string)
    (extensionSchema : option string) :
  copySchemas w (getSystemTmp w)
  = (Some projectSchema, extensionSchema, Some markupSchema, Some versionSchema,
     Some visinfoSchema) →
  extractFileToTmp w bcfFile = Return x →
  os_path_exists w (os_path_join x "bcf.version") = true →
  validateFile w (os_path_join x "bcf.version") versionSchema bcfFile = Return "" →
  getVersion w x versionSchema = Return (VStr "2.1") →
  project_loadable w x projectSchema →
  (∀ topic, topic ∈ getDirectories w x →
     topic_loadable w x markupSchema visinfoSchema topic) →
  ∃ p m', readBcfFile w bcfFile m = (Return (Some p), m')
          ∧ length (p_topicList p) = length (getDirectories w x)
          ∧ bcfDir m' = x.
Proof.
  intros Hs Hx Hex Hval Hv Hproj Htopics.
  rewrite (readBcfFile_past_gate w bcfFile m x projectSchema markupSchema
             versionSchema visinfoSchema extensionSchema Hs Hx Hex Hval Hv).
  destruct (project_step_returns w bcfFile x projectSchema m Hproj)
    as (p0 & m0 & Hp0 & _ & Hnil).
  rewrite (M_bind_Return _ _ _ _ _ Hp0).
  destruct (read_topics_return w bcfFile x markupSchema visinfoSchema
              (getDirectories w x) Htopics p0 m0)
    as (p & m1 & Hrun & _ & Hlen).
  rewrite (M_bind_Return _ _ _ _ _ Hrun).
  eexists _, _. split; [reflexivity|]. simpl. split; [|done].
  rewrite Hlen, Hnil. done.
Qed.

Lemma readBcfFile_returns_project_witness :
  project_loadable (H:=sample_decoders) skipping_world "/tmp/issues.bcf"
    "/tmp/project.xsd"
  ∧ topic_loadable (H:=sample_decoders) skipping_world "/tmp/issues.bcf"
      "/tmp/markup.xsd" "/tmp/visinfo.xsd" "topic-1"
  ∧ ∃ p m',
      @readBcfFile sample_decoders skipping_world "issues.bcf" two_references
      = (Return (Some p), m')
      ∧ length (p_topicList p) = 1%nat
      ∧ bcfDir m' = "/tmp/issues.bcf".
Proof.
  assert (project_loadable (H:=sample_decoders) skipping_world "/tmp/issues.bcf"
            "/tmp/project.xsd") as Hproj by (left; reflexivity).
  assert (topic_loadable (H:=sample_decoders) skipping_world "/tmp/issues.bcf"
            "/tmp/markup.xsd" "/tmp/visinfo.xsd" "topic-1") as Htopic.
  { eexists _, _. split; [vm_compute; reflexivity|].
    intros loc [->|[->|Hin%elem_of_nil]%elem_of_cons]%elem_of_cons; [| |done].
    - eexists _, _, _. split; [reflexivity|]. split; [reflexivity|].
      split; [reflexivity|]. vm_compute. reflexivity.
    - eexists _, _, _. split; [reflexivity|]. split; [reflexivity|].
      split; [reflexivity|]. vm_compute. reflexivity. }
  split; [exact Hproj|]. split; [exact Htopic|].
  apply (@readBcfFile_returns_project sample_decoders skipping_world "issues.bcf"
           two_references "/tmp/issues.bcf" "/tmp/project.xsd" "/tmp/markup.xsd"
           "/tmp/version.xsd" "/tmp/visinfo.xsd" (Some "/tmp/extensions.xsd"));
    try reflexivity; [exact Hproj|].
  intros topic ->%list_elem_of_singleton. exact Htopic.
Defined.

(** ** reader.py: a markup without a topic *)

Lemma for_fold_app {A S} (f : S → A → M S) (l1 l2 : list A) (s : S) (m : Mem) :
  for_fold f (l1 ++ l2) s m = (s' ← for_fold f l1 s; for_fold f l2 s') m.
Proof.
  revert s m. induction l1 as [|x l1 IH]; intros s m; simpl; [done|].
  unfold mbind, M_bind in *. destruct (f s x m) as [[s1|e] m1]; [apply IH|done].
Qed.

Lemma read_topic_lacking_topic `{Decoders} (w : World)
    (bcfFile x markupSchema visinfoSchema topic : string)
    (proj : option (Project Markup)) (m : Mem) :
  markup_lacks_topic w x markupSchema topic →
  ∃ m', read_topic w bcfFile x markupSchema visinfoSchema proj topic m
        = (Raise (KeyError "Topic"), m')
        ∧ bcfDir m' = bcfDir m.
Proof.
  intros (markupDict & errors & commentList & commentItems & comments & mc
          & Hd & Hcl & Hci & Hcs & Htopic).
  unfold read_topic.
  destruct (validateFile_returns w
              (os_path_join (os_path_join x topic) "markup.bcf") markupSchema bcfFile
              (lax_decoding_loads w _ _ _ Hd)) as [error Herr].
  unfold mbind at 1, M_bind at 1, lift at 1. rewrite Herr.
  set (validation := if negb _ then _ else _).
  assert (∃ m0, validation m = (Return (), m0) ∧ bcfDir m0 = bcfDir m)
    as (m0 & Hval & Hdir0).
  { subst validation. destruct (negb _); by eexists. }
  rewrite (M_bind_Return _ _ _ _ _ Hval).
  set (m1 := mkMem (heap m0) (log m0 ++ [ErrorList errors]) (bcfDir m0)).
  destruct (framed_for_each
              (Z.of_nat (length (heap m1)) - Z.of_nat (length (heap empty_mem)))
              (λ _ _, True) buildComment commentItems
              (λ d, framed_buildComment _ d) empty_mem m1 comments mc eq_refl Hcs)
    as (new & notices & comments' & _ & Hcs' & _).
  eexists. split.
  - apply (M_bind_Raise (buildMarkup w _ _)). unfold buildMarkup.
    unfold mbind at 1, M_bind at 1, lift at 1. rewrite Hd.
    unfold mbind at 1, M_bind at 1, emit at 1. fold m1.
    unfold buildMarkup_record.
    apply (M_bind_Raise (buildMarkup_unresolved markupDict)).
    unfold buildMarkup_unresolved.
    unfold mbind at 1, M_bind at 1, lift at 1. rewrite Hcl.
    unfold mbind at 1, M_bind at 1, lift at 1. rewrite Hci.
    rewrite (M_bind_Return _ _ _ _ _ Hcs').
    unfold mbind at 1, M_bind at 1, lift at 1. rewrite Htopic. reflexivity.
  - done.
Qed.

(** X14: a markup without a ["Topic"] entry is not skipped: when the load
    has come to the topic directories and one of them has such a markup,
    while the directories before it load, [readBcfFile] raises
    [KeyError "Topic"]; no project is returned, also not for the
    directories already read, the directories after it are not looked at,
    and [bcfDir] is left as it was. *)
Theorem readBcfFile_missing_Topic_aborts `{Decoders} (w : World) (bcfFile : string)
    (m : Mem) (x projectSchema markupSchema versionSchema visinfoSchema : string)
    (extensionSchema : option string) (before after : list string) (bad : string) :
  copySchemas w (getSystemTmp w)
  = (Some projectSchema, extensionSchema, Some markupSchema, Some versionSchema,
     Some visinfoSchema) →
  extractFileToTmp w bcfFile = Return x →
  os_path_exists w (os_path_join x "bcf.version") = true →
  validateFile w (os_path_join x "bcf.version") versionSchema bcfFile = Return "" →
  getVersion w x versionSchema = Return (VStr "2.1") →
  project_loadable w x projectSchema →
  getDirectories w x = before ++ bad :: after →
  (∀ topic, topic ∈ before → topic_loadable w x markupSchema visinfoSchema topic) →
  markup_lacks_topic w x markupSchema bad →
  ∃ m', readBcfFile w bcfFile m = (Raise (KeyError "Topic"), m')
        ∧ bcfDir m' = bcfDir m.
Proof.
  intros Hs Hx Hex Hval Hv Hproj Hdirs Hbefore Hbad.
  rewrite (readBcfFile_past_gate w bcfFile m x projectSchema markupSchema
             versionSchema visinfoSchema extensionSchema Hs Hx Hex Hval Hv).
  destruct (project_step_returns w bcfFile x projectSchema m Hproj)
    as (p0 & m0 & Hp0 & Hdir0 & _).
  rewrite (M_bind_Return _ _ _ _ _ Hp0). rewrite Hdirs.
  destruct (read_topics_return w bcfFile x markupSchema visinfoSchema before
              Hbefore p0 m0) as (p1 & m1 & Hrun & Hdir1 & _).
  destruct (read_topic_lacking_topic w bcfFile x markupSchema visinfoSchema bad
              (Some p1) m1 Hbad) as (m2 & Hraise & Hdir2).
  exists m2. split; [|congruence].
  apply M_bind_Raise. rewrite for_fold_app.
  rewrite (M_bind_Return _ _ _ _ _ Hrun). simpl.
  by apply M_bind_Raise.
Qed.

Lemma readBcfFile_missing_Topic_aborts_witness :
  markup_lacks_topic (H:=sample_decoders) topicless_world "/tmp/issues.bcf"
    "/tmp/markup.xsd" "topic-2"
  ∧ ∃ m', @readBcfFile sample_decoders topicless_world "issues.bcf" empty_mem
          = (Raise (KeyError "Topic"), m')
          ∧ bcfDir m' = bcfDir empty_mem.
Proof.
  assert (markup_lacks_topic (H:=sample_decoders) topicless_world "/tmp/issues.bcf"
            "/tmp/markup.xsd" "topic-2") as Hbad.
  { eexists _, _, _, _, _, _. split_and!.
    - vm_compute. reflexivity.
    - vm_compute. reflexivity.
    - vm_compute. reflexivity.
    - vm_compute. reflexivity.
    - vm_compute. reflexivity. }
  split; [exact Hbad|].
  apply (@readBcfFile_missing_Topic_aborts sample_decoders topicless_world
           "issues.bcf" empty_mem "/tmp/issues.bcf" "/tmp/project.xsd"
           "/tmp/markup.xsd" "/tmp/version.xsd" "/tmp/visinfo.xsd"
           (Some "/tmp/extensions.xsd") ["topic-1"] ["topic-3"] "topic-2");
    [vm_compute; reflexivity..|left; vm_compute; reflexivity|reflexivity| |exact Hbad].
  intros topic ->%list_elem_of_singleton.
  eexists _, _. split; [vm_compute; reflexivity|].
  intros loc ->%list_elem_of_singleton.
  eexists _, _, _. split; [reflexivity|]. split; [reflexivity|].
  split; [reflexivity|]. vm_compute. reflexivity.
Defined.

(** ** reader.py: a project schema that cannot be loaded *)

(** X15: when the archive has a [project.bcfp] and the constructor of the
    project schema raises, the load stops in the validation of the project
    document: [validateFile] constructs the schema outside its [try], so
    [readBcfFile] raises the constructor's exception before [buildProject]
    is called and before any topic directory is looked at; no project is
    returned, nothing is reported, and the memory, [bcfDir] with it, is as
    it was. *)
Theorem readBcfFile_unreadable_project `{Decoders} (w : World) (bcfFile : string)
    (m : Mem) (x projectSchema markupSchema versionSchema visinfoSchema : string)
    (extensionSchema : option string) (e : exn) :
  copySchemas w (getSystemTmp w)
  = (Some projectSchema, extensionSchema, Some markupSchema, Some versionSchema,
     Some visinfoSchema) →
  extractFileToTmp w bcfFile = Return x →
  os_path_exists w (os_path_join x "bcf.version") = true →
  validateFile w (os_path_join x "bcf.version") versionSchema bcfFile = Return "" →
  getVersion w x versionSchema = Return (VStr "2.1") →
  os_path_exists w (os_path_join x "project.bcfp") = true →
  XMLSchema_init w projectSchema = Raise e →
  validateFile w (os_path_join x "project.bcfp") projectSchema bcfFile = Raise e
  ∧ readBcfFile w bcfFile m = (Raise e, m).
Proof.
  intros Hs Hx Hex Hval Hv Hpe Hinit.
  assert (validateFile w (os_path_join x "project.bcfp") projectSchema bcfFile
          = Raise e) as Hraise.
  { unfold validateFile. by rewrite Hinit. }
  split; [done|].
  rewrite (readBcfFile_past_gate w bcfFile m x projectSchema markupSchema
             versionSchema visinfoSchema extensionSchema Hs Hx Hex Hval Hv).
  rewrite Hpe. apply M_bind_Raise.
  unfold mbind at 1, M_bind at 1, lift at 1. by rewrite Hraise.
Qed.

Lemma readBcfFile_unreadable_project_witness :
  @readBcfFile sample_decoders (schemaless_world ["topic-1"]) "issues.bcf" empty_mem
  = (Raise (OtherError "no such schema"), empty_mem).
Proof.
  apply (@readBcfFile_unreadable_project sample_decoders
           (schemaless_world ["topic-1"])
           "issues.bcf" empty_mem "/tmp/issues.bcf" "/tmp/project.xsd"
           "/tmp/markup.xsd" "/tmp/version.xsd" "/tmp/visinfo.xsd"
           (Some "/tmp/extensions.xsd")); vm_compute; reflexivity.
Defined.

(** ** reader.py: the version descriptor *)

Lemma getVersion_loads (w : World) (x versionSchema : string) (version : value) :
  getVersion w x versionSchema = Return version →
  XMLSchema_init w versionSchema = Return ().
Proof.
  unfold getVersion. destruct (negb (os_path_exists w _)); [done|].
  unfold mbind, result_bind. by destruct (XMLSchema_init w versionSchema) as [[]|e].
Qed.

(** C4: once the schemas are at hand and the archive is extracted,
    [readBcfFile] gives no project when the archive has no [bcf.version],
    and when the version identifier [getVersion] reads from it is none of
    [SUPPORTED_VERSIONS]: in the first case it returns [None] after the
    notice, or raises [TypeError] when [util.printErr] takes no keyword
    [file]; in the second case it raises at the call of [pprint.pprint],
    [NameError] when the module is not imported and [TypeError] when it
    is.  In both cases no object is built and [bcfDir] is as it was:
    nothing partial comes out of the load. *)
Theorem readBcfFile_rejects_missing_or_unsupported_version `{Decoders} (w : World)
    (bcfFile : string) (m : Mem)
    (x projectSchema markupSchema versionSchema visinfoSchema : string)
    (extensionSchema : option string) :
  copySchemas w (getSystemTmp w)
  = (Some projectSchema, extensionSchema, Some markupSchema, Some versionSchema,
     Some visinfoSchema) →
  extractFileToTmp w bcfFile = Return x →
  (os_path_exists w (os_path_join x "bcf.version") = false →
     readBcfFile w bcfFile m
     = (if printErr_takes_file w
        then (Return None, mkMem (heap m) (log m ++ [NoVersionFile]) (bcfDir m))
        else (Raise TypeError, m))
     ∧ load_aborted m (readBcfFile w bcfFile m))
  ∧ (∀ version,
       os_path_exists w (os_path_join x "bcf.version") = true →
       getVersion w x versionSchema = Return version →
       (∀ s, s ∈ SUPPORTED_VERSIONS → version ≠ VStr s) →
       readBcfFile w bcfFile m
       = (Raise (if DEBUG w then TypeError else NameError "pprint"), m)
       ∧ load_aborted m (readBcfFile w bcfFile m)).
Proof.
  intros Hs Hx. split.
  - intros Hex.
    assert (readBcfFile w bcfFile m
            = (if printErr_takes_file w
               then (Return None, mkMem (heap m) (log m ++ [NoVersionFile]) (bcfDir m))
               else (Raise TypeError, m))) as Hrun.
    { unfold readBcfFile. rewrite Hs.
      unfold mbind at 1, M_bind at 1, lift at 1. rewrite Hx, Hex. simpl.
      by destruct (printErr_takes_file w). }
    split; [done|]. rewrite Hrun. unfold load_aborted.
    by destruct (printErr_takes_file w).
  - intros version Hex Hv Hnot.
    assert (readBcfFile w bcfFile m
            = (Raise (if DEBUG w then TypeError else NameError "pprint"), m)) as Hrun.
    { unfold readBcfFile. rewrite Hs.
      unfold mbind at 1, M_bind at 1, lift at 1. rewrite Hx, Hex. simpl.
      destruct (validateFile_returns w (os_path_join x "bcf.version") versionSchema
                  bcfFile (getVersion_loads w x versionSchema version Hv))
        as [error Herr].
      unfold mbind at 1, M_bind at 1, lift at 1. rewrite Herr.
      destruct (negb (String.eqb error "")).
      { unfold pprint, mbind, M_bind, raise. by destruct (DEBUG w). }
      unfold mbind at 1, M_bind at 1, lift at 1. rewrite Hv.
      destruct (eq_str version "2.1") eqn:Heq.
      { apply eq_str_true in Heq. destruct (Hnot "2.1"); [by left|done]. }
      simpl. unfold pprint, mbind, M_bind, raise. by destruct (DEBUG w). }
    split; [done|]. rewrite Hrun. unfold load_aborted. by destruct (DEBUG w).
Qed.

Lemma readBcfFile_rejects_missing_or_unsupported_version_witness :
  @readBcfFile sample_decoders (world_of [] ["topic-1"]) "issues.bcf" empty_mem
  = (Raise TypeError, empty_mem)
  ∧ @readBcfFile sample_decoders old_version_world "issues.bcf" empty_mem
    = (Raise (NameError "pprint"), empty_mem).
Proof.
  split.
  - destruct (@readBcfFile_rejects_missing_or_unsupported_version sample_decoders
                (world_of [] ["topic-1"]) "issues.bcf" empty_mem "/tmp/issues.bcf"
                "/tmp/project.xsd" "/tmp/markup.xsd" "/tmp/version.xsd"
                "/tmp/visinfo.xsd" (Some "/tmp/extensions.xsd") eq_refl eq_refl)
      as [Hmissing _].
    by destruct (Hmissing eq_refl) as [Hrun _].
  - destruct (@readBcfFile_rejects_missing_or_unsupported_version sample_decoders
                old_version_world "issues.bcf" empty_mem "/tmp/issues.bcf"
                "/tmp/project.xsd" "/tmp/markup.xsd" "/tmp/version.xsd"
                "/tmp/visinfo.xsd" (Some "/tmp/extensions.xsd") eq_refl eq_refl)
      as [_ Hunsupported].
    destruct (Hunsupported (VStr "2.0") eq_refl eq_refl) as [Hrun _]; [|done].
    intros s ->%list_elem_of_singleton. discriminate.
Defined.

(** ** reader.py: a markup without a topic is fatal to the load *)





(** ** reader.py: a viewpoint that is skipped *)

Lemma mem_le_refl m : mem_le m m.
Proof. by split. Qed.








(** ** reader.py: the extraction directory *)

Lemma str_contains_middle (a b : string) :
  str_contains "/" (String.append a (String "/" b)) = true.
Proof.
  induction a as [|c a IH].
  - destruct b; reflexivity.
  - change (String.append (String c a) (String "/" b))
      with (String c (String.append a (String "/" b))).
    cbn [str_contains]. rewrite IH. apply orb_true_r.
Qed.

Lemma os_path_basename_cons (c : ascii) (s : string) :
  os_path_basename (String c s)
  = if str_contains "/" (String c s) then os_path_basename s else String c s.
Proof. reflexivity. Qed.

Lemma os_path_basename_plain (name : string) :
  str_contains "/" name = false → os_path_basename name = name.
Proof.
  destruct name as [|c name]; [done|]. intros Hn.
  by rewrite os_path_basename_cons, Hn.
Qed.

Lemma os_path_basename_append (dir name : string) :
  str_contains "/" name = false →
  os_path_basename (String.append dir (String "/" name)) = name.
Proof.
  intros Hn. induction dir as [|c dir IH].
  - change (String.append "" (String "/" name)) with (String "/" name).
    rewrite os_path_basename_cons.
    change (String "/" name) with (String.append "" (String "/" name)) at 1.
    rewrite str_contains_middle. by apply os_path_basename_plain.
  - change (String.append (String c dir) (String "/" name))
      with (String c (String.append dir (String "/" name))).
    rewrite os_path_basename_cons.
    change (String c (String.append dir (String "/" name)))
      with (String.append (String c dir) (String "/" name)).
    by rewrite str_contains_middle.
Qed.

(** X16: the directory an archive is extracted to depends on the file name
    of the archive alone: two archives of the same name in different
    directories are extracted to the same directory, the name joined to the
    temporary directory of the system. *)
Theorem extractFileToTmp_ignores_directory (w : World) (dir1 dir2 name x1 x2 : string) :
  str_contains "/" name = false →
  extractFileToTmp w (String.append dir1 (String "/" name)) = Return x1 →
  extractFileToTmp w (String.append dir2 (String "/" name)) = Return x2 →
  x1 = os_path_join (getSystemTmp w) name ∧ x2 = x1.
Proof.
  intros Hn. unfold extractFileToTmp. rewrite !os_path_basename_append by done.
  unfold mbind, result_bind.
  destruct (zip_extractall w _ _); [|done]. intros [= <-].
  destruct (zip_extractall w _ _); [|done]. by intros [= <-].
Qed.

Lemma extractFileToTmp_ignores_directory_witness :
  str_contains "/" "issues.bcf" = false
  ∧ extractFileToTmp sample_world "/home/a/issues.bcf" = Return "/tmp/issues.bcf"
  ∧ extractFileToTmp sample_world "/home/b/issues.bcf" = Return "/tmp/issues.bcf"
  ∧ "/tmp/issues.bcf" = os_path_join (getSystemTmp sample_world) "issues.bcf".
Proof.
  split; [reflexivity|]. split; [reflexivity|]. split; [reflexivity|].
  exact (proj1 (extractFileToTmp_ignores_directory sample_world "/home/a" "/home/b"
                  "issues.bcf" "/tmp/issues.bcf" "/tmp/issues.bcf"
                  eq_refl eq_refl eq_refl)).
Defined.

(** ** reader.py: the keys a topic must have *)

Section topic_keys.
Context `{Decoders}.
Hypothesis UUID_no_KeyError : ∀ v k, UUID_parse v ≠ Raise (KeyError k).
Hypothesis parse_no_KeyError : ∀ v k, dateutil_parse v ≠ Raise (KeyError k).
Local Abbreviation within := (KeyError_within topic_required_keys).

Lemma UUID_parse_keys v : within (UUID_parse v).
Proof. intros k Hk. by destruct (UUID_no_KeyError v k). Qed.

Lemma dateutil_parse_keys v : within (dateutil_parse v).
Proof. intros k Hk. by destruct (parse_no_KeyError v k). Qed.

Lemma parse_unless_None_keys v : within (parse_unless_None v).
Proof.
  unfold parse_unless_None. destruct (is_None v); [apply KeyError_within_Return|].
  apply KeyError_within_fmap, dateutil_parse_keys.
Qed.

Lemma wrap_if_truthy_keys {A} (C : value → result A) v :
  (∀ x, within (C x)) → within (wrap_if_truthy C v).
Proof.
  intros HC. unfold wrap_if_truthy. destruct (truthy v);
    [apply KeyError_within_fmap, HC|apply KeyError_within_Return].
Qed.

Lemma py_in_keys key d : within (py_in key d).
Proof. intros k. by destruct d. Qed.

Lemma subscript_after_in key d :
  py_in key d = Return true → within (subscript d key).
Proof.
  intros Hin k. destruct d; simpl in *; try done.
  injection Hin as Hin. apply bool_decide_eq_true in Hin as [v ->]. done.
Qed.

Lemma buildBimSnippet_keys d : within (buildBimSnippet d).
Proof. unfold buildBimSnippet. repeat KeyError_step. Qed.

Lemma buildDocRef_keys d : within (buildDocRef d).
Proof.
  unfold buildDocRef, Uri_init.
  repeat first [ apply wrap_if_truthy_keys; intros ?
               | apply UUID_parse_keys
               | KeyError_step ].
Qed.

Lemma buildRelatedTopic_keys d : within (buildRelatedTopic d).
Proof.
  unfold buildRelatedTopic. repeat first [apply UUID_parse_keys | KeyError_step].
Qed.

Lemma buildTopic_keys d : within (buildTopic d).
Proof.
  unfold buildTopic.
  do 18 (apply KeyError_within_bind;
         [first [ apply UUID_parse_keys | apply dateutil_parse_keys
                | apply parse_unless_None_keys | KeyError_step ]|intros ?]).
  destruct (py_in "BimSnippet" d) as [hasSnippet|e] eqn:Hin.
  2: { intros k Hk. unfold mbind, result_bind in Hk. injection Hk as ->.
       by apply (py_in_keys "BimSnippet" d k). }
  change (Return hasSnippet ≫= ?f) with (f hasSnippet). cbv beta.
  apply KeyError_within_bind.
  { destruct hasSnippet; [|apply KeyError_within_Return].
    apply KeyError_within_bind; [by apply subscript_after_in|]. intros ?.
    apply KeyError_within_fmap, buildBimSnippet_keys. }
  intros bimSnippet.
  repeat first [ apply buildDocRef_keys | apply buildRelatedTopic_keys
               | KeyError_step ].
Qed.
End topic_keys.

(** X17: when the two decoders raise no [KeyError] of their own, a
    [KeyError] that [buildTopic] raises names the identifier, the title,
    the creation date or the creation author of the topic, the identifier
    of a related topic, or one of the three entries a BIM snippet must
    have; no optional entry, and no entry of a document reference, can make
    a topic fail with [KeyError]. *)
Theorem topic_KeyError_names_required_key `{Decoders} (topicDict : value)
    (key : string) :
  (∀ v k, UUID_parse v ≠ Raise (KeyError k)) →
  (∀ v k, dateutil_parse v ≠ Raise (KeyError k)) →
  buildTopic topicDict = Raise (KeyError key) →
  key ∈ topic_required_keys.
Proof.
  intros Hid Hdate Hraise.
  by apply (buildTopic_keys Hid Hdate topicDict).
Qed.

Lemma topic_KeyError_names_required_key_witness :
  (∀ v k, sample_UUID v ≠ Raise (KeyError k))
  ∧ (∀ v k, sample_parse v ≠ Raise (KeyError k))
  ∧ @buildTopic sample_decoders (VDict [("@Guid", sample_guid "2")])
    = Raise (KeyError "Title")
  ∧ "Title" ∈ topic_required_keys.
Proof.
  assert (∀ v k, sample_UUID v ≠ Raise (KeyError k)) as Hid.
  { intros v k. unfold sample_UUID. destruct v; try done.
    destruct (Nat.eqb _ 32); [|done]. by destruct (hex_value 0 _). }
  assert (∀ v k, sample_parse v ≠ Raise (KeyError k)) as Hdate.
  { intros v k. unfold sample_parse. destruct v; try done.
    by destruct (_ || _). }
  split; [exact Hid|]. split; [exact Hdate|]. split; [reflexivity|].
  exact (@topic_KeyError_names_required_key sample_decoders
           (VDict [("@Guid", sample_guid "2")]) "Title" Hid Hdate eq_refl).
Defined.

(** ** reader.py: empty elements in a record *)

Lemma filter_not_None_idemp (l : list value) :
  List.filter (λ f, negb (is_None f)) (List.filter (λ f, negb (is_None f)) l)
  = List.filter (λ f, negb (is_None f)) l.
Proof.
  induction l as [|v l IH]; simpl; [done|].
  destruct (negb (is_None v)) eqn:Hv; simpl; [|done]. by rewrite Hv, IH.
Qed.

(** X18: an empty element among the files of a header is ignored,
    [buildHeader] giving the header of the list without it; an empty
    element as first comment of a markup is not: [buildMarkup] raises
    [TypeError] on it and builds nothing. *)
Theorem None_entries_of_header_and_comments `{Decoders}
    (entries : list value) (other : list (string * value)) (m : Mem) :
  buildHeader (VDict (("File", VList entries) :: other))
  = buildHeader
      (VDict (("File", VList (List.filter (λ f, negb (is_None f)) entries)) :: other))
  ∧ buildMarkup_record (VDict (("Comment", VList (VNone :: entries)) :: other)) m
    = (Raise TypeError, m).
Proof.
  split.
  - unfold buildHeader. rewrite !getOptionalFromDict_dict. simpl.
    unfold mbind, result_bind. by rewrite filter_not_None_idemp.
  - unfold buildMarkup_record, buildMarkup_unresolved.
    rewrite !getOptionalFromDict_dict. reflexivity.
Qed.

(** ** reader.py: comments and the viewpoints attached by the loader *)

Section attach_inv.
Context `{Decoders} (w : World) (topic topicDir schema : string).

Lemma attach_viewpoint_inv loc m u m1 :
  attach_viewpoint w topic topicDir schema loc m = (Return u, m1) →
  ∃ r, heap m !! loc = Some r
       ∧ built_or_skipped (viewpoint_outcome w topicDir schema r) = true.
Proof.
  unfold attach_viewpoint. intros Ha.
  apply M_bind_inv in Ha as (r & m0 & Hr & Ha).
  unfold deref in Hr. destruct (heap m !! loc) as [r0|] eqn:Hlook; [|done].
  injection Hr as <- <-. exists r0. split; [done|].
  unfold viewpoint_outcome.
  destruct (vr_file r0) as [file|v]; [|done].
  apply M_bind_inv in Ha as (file' & m0 & [= <- <-] & Ha).
  destruct (uri file) as [| | | |name| |]; try done.
  apply M_bind_inv in Ha as (name' & m0 & [= <- <-] & Ha).
  apply M_bind_inv in Ha as (res & m0 & Htry & Ha).
  unfold try, buildViewpoint in Htry.
  unfold mbind at 1, M_bind at 1, lift at 1 in Htry.
  destruct (schema_to_dict_lax w schema (os_path_join topicDir name))
    as [[vpDict errors]|e]; simpl in Htry |- *.
  - unfold mbind, M_bind, emit, lift in Htry. simpl in Htry.
    destruct (buildViewpoint_record vpDict) as [vp|e]; simpl; [done|].
    injection Htry as <- <-. by destruct e.
  - injection Htry as <- <-. by destruct e.
Qed.

Lemma attach_loop_inv locs m units m' :
  for_each (attach_viewpoint w topic topicDir schema) locs m = (Return units, m') →
  (∀ loc, loc ∈ locs →
     ∃ r, heap m !! loc = Some r
          ∧ built_or_skipped (viewpoint_outcome w topicDir schema r) = true)
  ∧ ∀ j, heap m' !! j
         = if bool_decide (j ∈ locs)
           then attached w topicDir schema <$> heap m !! j
           else heap m !! j.
Proof.
  revert m units. induction locs as [|loc rest IH]; intros m units Hrun;
    simpl in Hrun.
  - injection Hrun as <- <-. split; [|done]. intros loc Hin.
    by apply elem_of_nil in Hin.
  - apply M_bind_inv in Hrun as (u & m1 & Hstep & Hrun).
    apply M_bind_inv in Hrun as (us & m2 & Hrest & Hrun).
    injection Hrun as <- <-.
    destruct (attach_viewpoint_inv _ _ _ _ Hstep) as (r & Hr & Hok).
    destruct (attach_viewpoint_step w topic topicDir schema loc r m Hr Hok)
      as (m1' & n1 & Hstep' & Hheap1 & _).
    rewrite Hstep in Hstep'. injection Hstep' as _ <-.
    assert (Hlook1 : ∀ j, heap m1 !! j
              = if decide (j = loc) then Some (attached w topicDir schema r)
                else heap m !! j).
    { intros j. rewrite Hheap1, list_lookup_insert.
      apply lookup_lt_Some in Hr as Hlt.
      destruct (decide (j = loc)) as [->|Hj].
      - by rewrite decide_True.
      - rewrite decide_False; [done|]. intros [? _]. by apply Hj. }
    apply IH in Hrest as [Hall Hheap]. split.
    + intros loc' [->|Hin]%elem_of_cons; [by exists r|].
      destruct (Hall loc' Hin) as (r' & Hr' & Hok'). rewrite Hlook1 in Hr'.
      destruct (decide (loc' = loc)) as [->|Hne]; [by exists r|by exists r'].
    + intros j. rewrite Hheap, Hlook1.
      destruct (decide (j = loc)) as [->|Hj].
      * rewrite (bool_decide_eq_true_2 (loc ∈ loc :: rest)) by by left.
        rewrite Hr. simpl.
        case_bool_decide; [by rewrite attached_idemp|done].
      * case_bool_decide as Hin.
        -- by rewrite bool_decide_eq_true_2 by by right.
        -- rewrite bool_decide_eq_false_2; [done|].
           intros [?|?]%elem_of_cons; done.
Qed.
End attach_inv.

Lemma buildMarkup_record_inv `{Decoders} markupDict m markup m' :
  buildMarkup_record markupDict m = (Return markup, m') →
  (∀ loc, loc ∈ m_viewpoints markup →
     ∃ r, heap m' !! loc = Some r ∧ vr_viewpoint r = None)
  ∧ ∀ comment loc, comment ∈ m_comments markup →
      c_viewpoint comment = Obj loc → loc ∈ m_viewpoints markup.
Proof.
  unfold buildMarkup_record. intros Hb. bind_inv Hb as built m1 Hu.
  pose proof (buildMarkup_unresolved_ok _ _ _ _ Hu) as (_ & Hok & _).
  unfold resolve_comments in Hb.
  rewrite (M_bind_Return _ _ _ _ _ (for_each_resolve _ _ _ Hok)) in Hb.
  injection Hb as <- <-. simpl. split.
  - unfold buildMarkup_unresolved in Hu.
    bind_inv Hu as commentList mc Hcl. bind_inv Hu as commentItems mc Hci.
    bind_inv Hu as comments mc Hcs.
    bind_inv Hu as topicDict mt Htd. bind_inv Hu as topic mt Ht.
    bind_inv Hu as headerDict mh Hhd. bind_inv Hu as header mh Hh.
    apply header_step_pure in Hh as ->.
    bind_inv Hu as viewpointList mv Hvl. bind_inv Hu as viewpointItems mv Hvi.
    bind_inv Hu as viewpoints mv Hvs. injection Hu as <- <-. simpl.
    apply for_each_buildViewpointReference in Hvs
      as (-> & new & Hheap & _ & _ & Hnew).
    intros loc [Hge Hlt]%elem_of_seq.
    destruct (lookup_lt_is_Some_2 viewpointItems (loc - length (heap mc))%nat)
      as [item Hitem]; [lia|].
    destruct (Forall2_lookup_l _ _ _ _ _ Hnew Hitem) as (r & Hr & guid & _ & _ & Hvp).
    exists r. split; [|done]. by rewrite Hheap, lookup_app_r.
  - intros comment loc Hin Hv.
    apply list_elem_of_fmap in Hin as (before & -> & Hin).
    rewrite Forall_forall in Hok. 
    unfold resolved in Hv.
    destruct (c_viewpoint before) as [raw|v] eqn:Hbefore.
    + destruct (heap m1 !! raw) as [r|] eqn:Hraw.
      * simpl in Hv.
        destruct (getViewpointRefByGuid (heap m1) (m_viewpoints built) (vr_id r))
          as [found|] eqn:Hg; [|done].
        injection Hv as <-. by apply getViewpointRefByGuid_Some in Hg as [? _].
      * exfalso. 
        assert (comment_ok (heap m1) before) as Hc.
        { apply Hok. by apply list_elem_of_In. }
        unfold comment_ok in Hc. rewrite Hbefore, Hraw in Hc. by destruct Hc.
    + congruence.
Qed.

(** X19: after a round of the topic loop of [readBcfFile], a comment of the
    new markup that holds a viewpoint reference holds one of the markup's
    own references, and sees through it what the loader did: the viewpoint
    built from the file of the reference when it was built, and no
    viewpoint when it was skipped. *)
Theorem read_topic_comments_see_viewpoints `{Decoders} (w : World)
    (bcfFile x markupSchema visinfoSchema topic : string)
    (proj proj' : option (Project Markup)) (m m' : Mem) :
  read_topic w bcfFile x markupSchema visinfoSchema proj topic m
  = (Return proj', m') →
  ∃ p markup,
    proj = Some p ∧ proj' = Some (topicList_append markup p)
    ∧ ∀ comment loc, comment ∈ m_comments markup →
        c_viewpoint comment = Obj loc →
        loc ∈ m_viewpoints markup
        ∧ ∃ r, heap m' !! loc = Some r
               ∧ match viewpoint_outcome w (os_path_join x topic) visinfoSchema r with
                 | Return vp => vr_viewpoint r = Some vp
                 | Raise _ => vr_viewpoint r = None
                 end.
Proof.
  unfold read_topic. intros Hr.
  bind_inv Hr as error m0 Herr.
  bind_inv Hr as u m0 Hu. bind_inv Hr as markup m1 Hm.
  bind_inv Hr as units m2 Hat.
  destruct proj as [p|]; [|done]. injection Hr as <- <-.
  eexists p, _. split; [done|]. split; [done|]. simpl.
  unfold buildMarkup in Hm. bind_inv Hm as de md Hd. destruct de as [markupDict errors].
  bind_inv Hm as u' me He.
  apply buildMarkup_record_inv in Hm as [Hfresh Hcomments].
  apply attach_loop_inv in Hat as [Hall Hheap].
  intros comment loc Hin Hv. pose proof (Hcomments comment loc Hin Hv) as Hloc.
  split; [done|].
  destruct (Hfresh loc Hloc) as (r & Hr & Hnone).
  exists (attached w (os_path_join x topic) visinfoSchema r). split.
  - rewrite Hheap, bool_decide_eq_true_2 by done. by rewrite Hr.
  - rewrite viewpoint_outcome_attached. unfold attached.
    by destruct (viewpoint_outcome w (os_path_join x topic) visinfoSchema r).
Qed.

Lemma read_topic_comments_see_viewpoints_witness :
  ∃ proj' m',
    @read_topic sample_decoders sample_world "issues.bcf" "/tmp/issues.bcf"
      "/tmp/markup.xsd" "/tmp/visinfo.xsd"
      (Some (Project_init (mkUUID 0) (VStr "") VNone ORIGINAL)) "topic-1" empty_mem
    = (Return proj', m')
    ∧ vr_viewpoint <$> heap m' = [None; None; Some both_cameras_viewpoint]
    ∧ ∃ p markup,
        proj' = Some (topicList_append markup p)
        ∧ c_viewpoint <$> m_comments markup = [Obj 2%nat; Raw VNone]
        ∧ ∀ comment loc, comment ∈ m_comments markup →
            c_viewpoint comment = Obj loc →
            loc ∈ m_viewpoints markup
            ∧ ∃ r, heap m' !! loc = Some r
                   ∧ match @viewpoint_outcome sample_decoders sample_world
                             "/tmp/issues.bcf/topic-1" "/tmp/visinfo.xsd" r with
                     | Return vp => vr_viewpoint r = Some vp
                     | Raise _ => vr_viewpoint r = None
                     end.
Proof.
  eassert (@read_topic sample_decoders sample_world "issues.bcf" "/tmp/issues.bcf"
             "/tmp/markup.xsd" "/tmp/visinfo.xsd"
             (Some (Project_init (mkUUID 0) (VStr "") VNone ORIGINAL)) "topic-1"
             empty_mem = (Return _, _)) as Hrun by (vm_compute; reflexivity).
  destruct (@read_topic_comments_see_viewpoints sample_decoders sample_world
              _ _ _ _ _ _ _ _ _ Hrun) as (p & markup & _ & Hp' & Hsee).
  eexists _, _. split; [exact Hrun|]. split; [reflexivity|].
  exists p, markup. split; [exact Hp'|]. split; [|exact Hsee].
  injection Hp' as _ _ _ Hlist _.
  destruct (p_topicList p) as [|first rest]; simpl in Hlist.
  - by injection Hlist as <-.
  - injection Hlist as _ Hlist. by destruct rest.
Defined.
